(** * Eco-bot: persisted conversation state, deadline evaluation, triage
      and moderation

    A shallow embedding of the store ([database.py]), of the participant
    bot's handlers ([bot.py]) and of the moderation writes
    ([admin_bot.py]), followed by the properties proved about them.

    Conventions of the embedding:
    - a Python [str] is a list of Unicode code points ([text]); string
      constants of the source are written as UTF-8 literals and decoded
      by [u];
    - a [dict] with string keys is a [gmap string _];
    - every [with sqlite3.connect(...)] block is one transaction: it is a
      function on the store, and a block left by an exception leaves the
      store as it was;
    - the clock, the transport and the file download are inputs. *)

From Stdlib Require Import ZArith List Ascii String Lia.
From Stdlib Require DecimalPos.
From stdpp Require Import gmap strings list fin_maps sorting.

Local Open Scope Z_scope.

(** ** Python values and built-ins used by the handlers *)

Module Py.

(** A [str]: its code points. *)
Definition text : Type := list Z.

(** UTF-8 decoding, used only to write the source's string constants. *)
Fixpoint utf8_decode (bs : list Z) : text :=
  match bs with
  | [] => []
  | b :: bs1 =>
    if b <? 128 then b :: utf8_decode bs1
    else match bs1 with
      | [] => []
      | c1 :: bs2 =>
        if b <? 224 then
          Z.lor (Z.shiftl (Z.land b 31) 6) (Z.land c1 63) :: utf8_decode bs2
        else match bs2 with
          | [] => []
          | c2 :: bs3 =>
            if b <? 240 then
              Z.lor (Z.shiftl (Z.land b 15) 12)
                (Z.lor (Z.shiftl (Z.land c1 63) 6) (Z.land c2 63))
              :: utf8_decode bs3
            else match bs3 with
              | [] => []
              | c3 :: bs4 =>
                Z.lor (Z.shiftl (Z.land b 7) 18)
                  (Z.lor (Z.shiftl (Z.land c1 63) 12)
                    (Z.lor (Z.shiftl (Z.land c2 63) 6) (Z.land c3 63)))
                :: utf8_decode bs4
              end
          end
      end
  end.

Definition u (s : string) : text :=
  utf8_decode (map (fun a => Z.of_nat (nat_of_ascii a)) (list_ascii_of_string s)).

(** The escape [\n] of the source's literals. *)
Definition nl : text := [10].
Definition nl2 : text := [10; 10].

(** [len(s)] *)
Definition len (s : text) : Z := Z.of_nat (length s).

(** [str.isspace] on one code point (the table of CPython's
    [_PyUnicode_IsWhitespace]). *)
Definition isspace (c : Z) : bool :=
  ((9 <=? c) && (c <=? 13)) || ((28 <=? c) && (c <=? 32))
  || (c =? 133) || (c =? 160) || (c =? 5760)
  || ((8192 <=? c) && (c <=? 8202))
  || (c =? 8232) || (c =? 8233) || (c =? 8239) || (c =? 8287) || (c =? 12288).

Fixpoint lstrip_by (sp : Z -> bool) (s : text) : text :=
  match s with
  | [] => []
  | c :: s' => if sp c then lstrip_by sp s' else s
  end.

Definition strip_by (sp : Z -> bool) (s : text) : text :=
  rev (lstrip_by sp (rev (lstrip_by sp s))).

(** [s.strip()] *)
Definition strip (s : text) : text := strip_by isspace s.

(** The scalar values that travel through [context.user_data], the JSON
    documents and the SQLite cells: [None], [bool], [int], [str]. *)
Inductive pyval : Type :=
  | VNone
  | VBool (b : bool)
  | VInt (z : Z)
  | VStr (s : text).

#[global] Instance pyval_eq_dec : EqDecision pyval.
Proof. solve_decision. Defined.

(** Truthiness, as in [if x:] and [x or y]. *)
Definition truthy (v : pyval) : bool :=
  match v with
  | VNone => false
  | VBool b => b
  | VInt z => negb (z =? 0)
  | VStr s => match s with [] => false | _ => true end
  end.

Fixpoint uint_text (d : Decimal.uint) : text :=
  match d with
  | Decimal.Nil => []
  | Decimal.D0 d => 48 :: uint_text d
  | Decimal.D1 d => 49 :: uint_text d
  | Decimal.D2 d => 50 :: uint_text d
  | Decimal.D3 d => 51 :: uint_text d
  | Decimal.D4 d => 52 :: uint_text d
  | Decimal.D5 d => 53 :: uint_text d
  | Decimal.D6 d => 54 :: uint_text d
  | Decimal.D7 d => 55 :: uint_text d
  | Decimal.D8 d => 56 :: uint_text d
  | Decimal.D9 d => 57 :: uint_text d
  end.

(** [str(n)] for an [int]. *)
Definition int_text (z : Z) : text :=
  match Z.to_int z with
  | Decimal.Pos d => uint_text d
  | Decimal.Neg d => 45 :: uint_text d
  end.

(** [str(v)], which is what an f-string inserts. *)
Definition str (v : pyval) : text :=
  match v with
  | VNone => u "None"
  | VBool true => u "True"
  | VBool false => u "False"
  | VInt z => int_text z
  | VStr s => s
  end.

(** The exceptions the modelled code can raise. *)
Inductive exn : Type :=
  | ValueError
  | TypeError
  | KeyError
  | NameError
  | AttributeError
  | IndexError
  | BindingError
  (** not an exception of Python: the input lies outside the model *)
  | Unmodelled.

Inductive result (A : Type) : Type :=
  | Ok (a : A)
  | Raise (e : exn).
Arguments Ok {A} a.
Arguments Raise {A} e.

(** [x + 1] *)
Definition add1 (v : pyval) : result pyval :=
  match v with
  | VInt z => Ok (VInt (z + 1))
  | VBool b => Ok (VInt ((if b then 1 else 0) + 1))
  | VNone | VStr _ => Raise TypeError
  end.

(** The first code point of every block of ten Unicode decimal digits
    (general category Nd, Unicode 14). *)
Definition decimal_zeros : list Z :=
  [48; 1632; 1776; 1984; 2406; 2534; 2662; 2790; 2918; 3046; 3174; 3302;
   3430; 3558; 3664; 3792; 3872; 4160; 4240; 6112; 6160; 6470; 6608; 6784;
   6800; 6992; 7088; 7232; 7248; 42528; 43216; 43264; 43472; 43504; 43600;
   44016; 65296; 66720; 68912; 69734; 69872; 69942; 70096; 70384; 70736;
   70864; 71248; 71360; 71472; 71904; 72016; 72784; 73040; 73120; 92768;
   92864; 93008; 120782; 120792; 120802; 120812; 120822; 123200; 123632;
   125264; 130032].

Fixpoint digit_in (zeros : list Z) (c : Z) : option Z :=
  match zeros with
  | [] => None
  | z :: zeros' =>
    if (z <=? c) && (c <? z + 10) then Some (c - z) else digit_in zeros' c
  end.

(** The decimal value of a code point, if it is a decimal digit. *)
Definition digit_value (c : Z) : option Z := digit_in decimal_zeros c.

(** The digits of an [int] literal after its sign: groups of digits
    separated by single underscores.  [acc] is the value read so far and
    [prev] tells whether the previous code point was a digit. *)
Fixpoint int_digits (acc : Z) (prev : bool) (s : text) : option Z :=
  match s with
  | [] => if prev then Some acc else None
  | c :: s' =>
    if c =? 95 then
      if prev then int_digits acc false s' else None
    else
      match digit_value c with
      | Some d => int_digits (10 * acc + d) true s'
      | None => None
      end
  end.

(** The white space [int] skips at both ends: [isspace], except the four
    ASCII separators 28..31. *)
Definition int_space (c : Z) : bool :=
  isspace c && negb ((28 <=? c) && (c <=? 31)).

(** [int(s)] for a [str]; [None] stands for [ValueError]. *)
Definition int (s : text) : option Z :=
  match strip_by int_space s with
  | 43 :: s' => int_digits 0 false s'
  | 45 :: s' => option_map Z.opp (int_digits 0 false s')
  | s' => int_digits 0 false s'
  end.

(** A [datetime]: an instant in microseconds, and the UTC offset in
    minutes when the value is time-zone aware.  For an aware value
    [instant] counts from the epoch in UTC; for a naive one it is the
    wall-clock reading. *)
Record datetime : Type := Datetime {
  instant : Z;
  utcoffset : option Z
}.

#[global] Instance datetime_eq_dec : EqDecision datetime.
Proof. solve_decision. Defined.

(** Two datetimes can be compared when both are aware or both naive. *)
Definition comparable (a b : datetime) : Prop :=
  is_Some (utcoffset a) ↔ is_Some (utcoffset b).

(** [a <= b]: aware values compare by instant, naive ones by reading, and
    mixing the two raises [TypeError]. *)
Definition datetime_le (a b : datetime) : result bool :=
  match utcoffset a, utcoffset b with
  | Some _, Some _ | None, None => Ok (instant a <=? instant b)
  | _, _ => Raise TypeError
  end.

Definition datetime_lt (a b : datetime) : result bool :=
  match utcoffset a, utcoffset b with
  | Some _, Some _ | None, None => Ok (instant a <? instant b)
  | _, _ => Raise TypeError
  end.

(** [datetime.now(pytz.timezone('Europe/Moscow'))] at clock reading
    [clock] (microseconds since the epoch): Moscow is UTC+3. *)
Definition now_moscow (clock : Z) : datetime :=
  {| instant := clock; utcoffset := Some 180 |}.


(** [d.replace(hour=h, minute=m, second=s, microsecond=us)]: the date of
    the local reading is kept. *)
Definition replace_clock (h m s us : Z) (d : datetime) : datetime :=
  let offset := default 0 (utcoffset d) * 60000000 in
  let reading := instant d + offset in
  {| instant := reading / 86400000000 * 86400000000
                + ((h * 3600 + m * 60 + s) * 1000000 + us) - offset;
     utcoffset := utcoffset d |}.

(** [d + timedelta(days=days, hours=hours, minutes=minutes)] *)
Definition add_timedelta (days hours minutes : Z) (d : datetime) : datetime :=
  {| instant := instant d + ((days * 24 + hours) * 60 + minutes) * 60000000;
     utcoffset := utcoffset d |}.

(** [s.startswith(prefix)] *)
Fixpoint startswith (prefix s : text) : bool :=
  match prefix, s with
  | [], _ => true
  | p :: prefix', c :: s' => (p =? c) && startswith prefix' s'
  | _ :: _, [] => false
  end.

(** [s.split(sep)[-1]] for a separator [sep] of one code point: what
    follows the last separator, [acc] being what was read since the last
    one. *)
Fixpoint split_last (sep : Z) (acc s : text) : text :=
  match s with
  | [] => acc
  | c :: s' =>
    if c =? sep then split_last sep [] s' else split_last sep (acc ++ [c]) s'
  end.

End Py.

(** ** The store ([database.py]) *)

Module Database.
Import Py.

(** *** Rows *)

(** Table [users].  The self-declared columns receive whatever
    [context.user_data] holds, so they are cells of any scalar type. *)
Module User.
Record t : Type := Make {
  username : option text;
  telegram_first_name : option text;
  telegram_last_name : option text;
  first_name : pyval;
  last_name : pyval;
  participation_type : pyval;
  family_members_count : pyval;
  children_info : pyval;
  registration_completed : bool;
  registration_date : Z
}.
End User.

(** Table [user_states].  [context_data] holds [json.dumps] of a dict of
    scalars; the model keeps the dict. *)
Module UserState.
Record t : Type := Make {
  current_state : Z;
  context_data : gmap string pyval;
  last_updated : Z
}.
End UserState.

(** Table [tasks].  [deadline] and [open_date] hold [d.isoformat()] or
    NULL, and are read back with [datetime.fromisoformat]; the model
    keeps [d]. *)
Module Task.
Record t : Type := Make {
  title : text;
  description : option text;
  link : option text;
  is_open : bool;
  week_number : option Z;
  deadline : option datetime;
  created_date : Z;
  open_date : option datetime
}.
End Task.

(** The column [submission_date]: the default [CURRENT_TIMESTAMP], or
    the [isoformat()] string the moderation path writes. *)
Inductive timestamp : Type :=
  | CurrentTimestamp (seconds : Z)
  | IsoFormat (d : datetime).

(** Table [submissions]. *)
Module Submission.
Record t : Type := Make {
  user_id : Z;
  task_id : Z;
  submission_date : timestamp;
  submission_type : pyval;
  content : pyval;
  file_id : pyval;
  file_path : pyval;
  status : string;
  is_on_time : bool
}.
End Submission.

(** A value inside a JSON object written by the bot: a scalar, or the
    nested copy of [context.user_data]. *)
Inductive jval : Type :=
  | JScalar (v : pyval)
  | JObject (d : gmap string pyval).

(** What [json.loads] returns: a dict, or some other document. *)
Inductive json_doc : Type :=
  | JDict (d : gmap string jval)
  | JNotDict.

(** The column [message_data]: [json.dumps] of a dict, or text that did
    not come from [json.dumps] (the moderator's note). *)
Inductive message_data : Type :=
  | JsonDumps (d : gmap string jval)
  | RawText (s : text).

(** Table [offline_messages]. *)
Module OfflineMessage.
Record t : Type := Make {
  user_id : Z;
  data : message_data;
  message_type : string;
  received_date : Z;
  processed : bool
}.
End OfflineMessage.

(** Table [support_requests]. *)
Module SupportRequest.
Record t : Type := Make {
  user_id : Z;
  message : text;
  request_date : Z;
  status : string
}.
End SupportRequest.

(** *** The store *)

(** The tables, keyed by their primary key, and for each AUTOINCREMENT
    table the largest row id handed out so far ([sqlite_sequence]). *)
Record t : Type := Make {
  users : gmap Z User.t;
  user_states : gmap Z UserState.t;
  tasks : gmap Z Task.t;
  tasks_seq : Z;
  submissions : gmap Z Submission.t;
  submissions_seq : Z;
  support_requests : gmap Z SupportRequest.t;
  support_requests_seq : Z;
  offline_messages : gmap Z OfflineMessage.t;
  offline_messages_seq : Z
}.

Definition empty : t :=
  {| users := ∅; user_states := ∅; tasks := ∅; tasks_seq := 0;
     submissions := ∅; submissions_seq := 0;
     support_requests := ∅; support_requests_seq := 0;
     offline_messages := ∅; offline_messages_seq := 0 |}.

Definition largest_rowid {A} (m : gmap Z A) : Z :=
  foldr Z.max 0 (map_to_list m).*1.

(** The row id an AUTOINCREMENT insert receives: one more than the
    largest id ever used and than the largest id present. *)
Definition next_rowid {A} (seq : Z) (m : gmap Z A) : Z :=
  Z.max seq (largest_rowid m) + 1.

(** [CURRENT_TIMESTAMP] has a resolution of one second; the clock counts
    microseconds. *)
Definition current_timestamp (clock : Z) : Z := clock / 1000000.

Definition set_users f (db : t) : t :=
  {| users := f (users db); user_states := user_states db;
     tasks := tasks db; tasks_seq := tasks_seq db;
     submissions := submissions db; submissions_seq := submissions_seq db;
     support_requests := support_requests db;
     support_requests_seq := support_requests_seq db;
     offline_messages := offline_messages db;
     offline_messages_seq := offline_messages_seq db |}.

Definition set_user_states f (db : t) : t :=
  {| users := users db; user_states := f (user_states db);
     tasks := tasks db; tasks_seq := tasks_seq db;
     submissions := submissions db; submissions_seq := submissions_seq db;
     support_requests := support_requests db;
     support_requests_seq := support_requests_seq db;
     offline_messages := offline_messages db;
     offline_messages_seq := offline_messages_seq db |}.

Definition set_tasks f (db : t) : t :=
  {| users := users db; user_states := user_states db;
     tasks := f (tasks db); tasks_seq := tasks_seq db;
     submissions := submissions db; submissions_seq := submissions_seq db;
     support_requests := support_requests db;
     support_requests_seq := support_requests_seq db;
     offline_messages := offline_messages db;
     offline_messages_seq := offline_messages_seq db |}.

Definition set_submissions f (db : t) : t :=
  {| users := users db; user_states := user_states db;
     tasks := tasks db; tasks_seq := tasks_seq db;
     submissions := f (submissions db); submissions_seq := submissions_seq db;
     support_requests := support_requests db;
     support_requests_seq := support_requests_seq db;
     offline_messages := offline_messages db;
     offline_messages_seq := offline_messages_seq db |}.

Definition set_support_requests f (db : t) : t :=
  {| users := users db; user_states := user_states db;
     tasks := tasks db; tasks_seq := tasks_seq db;
     submissions := submissions db; submissions_seq := submissions_seq db;
     support_requests := f (support_requests db);
     support_requests_seq := support_requests_seq db;
     offline_messages := offline_messages db;
     offline_messages_seq := offline_messages_seq db |}.

Definition set_offline_messages f (db : t) : t :=
  {| users := users db; user_states := user_states db;
     tasks := tasks db; tasks_seq := tasks_seq db;
     submissions := submissions db; submissions_seq := submissions_seq db;
     support_requests := support_requests db;
     support_requests_seq := support_requests_seq db;
     offline_messages := f (offline_messages db);
     offline_messages_seq := offline_messages_seq db |}.

(** [INSERT INTO tasks ...] *)
Definition insert_task (row : Task.t) (db : t) : t :=
  let id := next_rowid (tasks_seq db) (tasks db) in
  {| users := users db; user_states := user_states db;
     tasks := <[id := row]> (tasks db); tasks_seq := id;
     submissions := submissions db; submissions_seq := submissions_seq db;
     support_requests := support_requests db;
     support_requests_seq := support_requests_seq db;
     offline_messages := offline_messages db;
     offline_messages_seq := offline_messages_seq db |}.

(** [INSERT INTO submissions ...] *)
Definition insert_submission (row : Submission.t) (db : t) : t :=
  let id := next_rowid (submissions_seq db) (submissions db) in
  {| users := users db; user_states := user_states db;
     tasks := tasks db; tasks_seq := tasks_seq db;
     submissions := <[id := row]> (submissions db); submissions_seq := id;
     support_requests := support_requests db;
     support_requests_seq := support_requests_seq db;
     offline_messages := offline_messages db;
     offline_messages_seq := offline_messages_seq db |}.

(** [INSERT INTO support_requests ...] *)
Definition insert_support_request (row : SupportRequest.t) (db : t) : t :=
  let id := next_rowid (support_requests_seq db) (support_requests db) in
  {| users := users db; user_states := user_states db;
     tasks := tasks db; tasks_seq := tasks_seq db;
     submissions := submissions db; submissions_seq := submissions_seq db;
     support_requests := <[id := row]> (support_requests db);
     support_requests_seq := id;
     offline_messages := offline_messages db;
     offline_messages_seq := offline_messages_seq db |}.

(** [INSERT INTO offline_messages ...] *)
Definition insert_offline_message (row : OfflineMessage.t) (db : t) : t :=
  let id := next_rowid (offline_messages_seq db) (offline_messages db) in
  {| users := users db; user_states := user_states db;
     tasks := tasks db; tasks_seq := tasks_seq db;
     submissions := submissions db; submissions_seq := submissions_seq db;
     support_requests := support_requests db;
     support_requests_seq := support_requests_seq db;
     offline_messages := <[id := row]> (offline_messages db);
     offline_messages_seq := id |}.

(** *** Operations of class [Database] *)

(** [save_user_state]: [INSERT OR REPLACE INTO user_states]. *)
Definition save_user_state (clock user_id state : Z)
    (context_data : gmap string pyval) (db : t) : t :=
  set_user_states
    (insert user_id
       {| UserState.current_state := state;
          UserState.context_data := context_data;
          UserState.last_updated := current_timestamp clock |}) db.

(** [get_user_state]: the stored pair, or [(0, {})] when there is no row. *)
Definition get_user_state (user_id : Z) (db : t) : Z * gmap string pyval :=
  match user_states db !! user_id with
  | Some row => (UserState.current_state row, UserState.context_data row)
  | None => (0, ∅)
  end.

(** [clear_user_state]: [UPDATE ... SET current_state = 0, context_data =
    '{}'], and an [INSERT] of the same values when no row was updated. *)
Definition clear_user_state (clock user_id : Z) (db : t) : t :=
  let cleared :=
    {| UserState.current_state := 0;
       UserState.context_data := ∅;
       UserState.last_updated := current_timestamp clock |} in
  match user_states db !! user_id with
  | Some _ => set_user_states (alter (fun _ => cleared) user_id) db
  | None => set_user_states (insert user_id cleared) db
  end.

(** [save_offline_message] *)
Definition save_offline_message (clock user_id : Z) (data : message_data)
    (message_type : string) (db : t) : t :=
  insert_offline_message
    {| OfflineMessage.user_id := user_id;
       OfflineMessage.data := data;
       OfflineMessage.message_type := message_type;
       OfflineMessage.received_date := current_timestamp clock;
       OfflineMessage.processed := false |} db.

(** [ORDER BY received_date ASC], rows of one second in row-id order. *)
Definition received_before (a b : Z * OfflineMessage.t) : Prop :=
  OfflineMessage.received_date a.2 < OfflineMessage.received_date b.2
  ∨ (OfflineMessage.received_date a.2 = OfflineMessage.received_date b.2
     ∧ a.1 ≤ b.1).

#[global] Instance received_before_dec : RelDecision received_before.
Proof. intros a b. unfold received_before. apply _. Defined.

(** [get_offline_messages]: the user's unprocessed rows, oldest first. *)
Definition get_offline_messages (user_id : Z) (db : t)
    : list (Z * message_data * string * Z) :=
  (fun r : Z * OfflineMessage.t =>
     (r.1, OfflineMessage.data r.2, OfflineMessage.message_type r.2,
      OfflineMessage.received_date r.2))
  <$> merge_sort received_before
        (filter (fun r : Z * OfflineMessage.t =>
                   OfflineMessage.user_id r.2 = user_id
                   ∧ OfflineMessage.processed r.2 = false)
                (map_to_list (offline_messages db))).

Definition set_processed (m : OfflineMessage.t) : OfflineMessage.t :=
  {| OfflineMessage.user_id := OfflineMessage.user_id m;
     OfflineMessage.data := OfflineMessage.data m;
     OfflineMessage.message_type := OfflineMessage.message_type m;
     OfflineMessage.received_date := OfflineMessage.received_date m;
     OfflineMessage.processed := true |}.

(** [mark_offline_message_processed]: [UPDATE offline_messages SET
    processed = TRUE WHERE id = ?]. *)
Definition mark_offline_message_processed (message_id : Z) (db : t) : t :=
  set_offline_messages (alter set_processed message_id) db.

Definition set_telegram_data (username telegram_first_name
    telegram_last_name : option text) (r : User.t) : User.t :=
  {| User.username := username;
     User.telegram_first_name := telegram_first_name;
     User.telegram_last_name := telegram_last_name;
     User.first_name := User.first_name r;
     User.last_name := User.last_name r;
     User.participation_type := User.participation_type r;
     User.family_members_count := User.family_members_count r;
     User.children_info := User.children_info r;
     User.registration_completed := User.registration_completed r;
     User.registration_date := User.registration_date r |}.

(** The row [INSERT INTO users (user_id, username, telegram_first_name,
    telegram_last_name)] creates: the other columns take the defaults of
    the schema. *)
Definition new_user (clock : Z) (username telegram_first_name
    telegram_last_name : option text) : User.t :=
  {| User.username := username;
     User.telegram_first_name := telegram_first_name;
     User.telegram_last_name := telegram_last_name;
     User.first_name := VNone;
     User.last_name := VNone;
     User.participation_type := VStr (u "individual");
     User.family_members_count := VInt 1;
     User.children_info := VNone;
     User.registration_completed := false;
     User.registration_date := current_timestamp clock |}.

(** [add_user]: update the three Telegram columns of an existing user,
    insert a new row otherwise. *)
Definition add_user (clock user_id : Z) (username telegram_first_name
    telegram_last_name : option text) (db : t) : t :=
  match users db !! user_id with
  | Some _ =>
    set_users
      (alter (set_telegram_data username telegram_first_name
                telegram_last_name) user_id) db
  | None =>
    set_users
      (insert user_id
         (new_user clock username telegram_first_name telegram_last_name)) db
  end.

(** [update_user_registration] *)
Definition update_user_registration (user_id : Z) (first_name last_name
    participation_type family_members_count children_info : pyval)
    (db : t) : t :=
  set_users
    (alter (fun r =>
       {| User.username := User.username r;
          User.telegram_first_name := User.telegram_first_name r;
          User.telegram_last_name := User.telegram_last_name r;
          User.first_name := first_name;
          User.last_name := last_name;
          User.participation_type := participation_type;
          User.family_members_count := family_members_count;
          User.children_info := children_info;
          User.registration_completed := true;
          User.registration_date := User.registration_date r |}) user_id) db.

(** [update_user_name] *)
Definition update_user_name (user_id : Z) (first_name last_name : pyval)
    (db : t) : t :=
  set_users
    (alter (fun r =>
       {| User.username := User.username r;
          User.telegram_first_name := User.telegram_first_name r;
          User.telegram_last_name := User.telegram_last_name r;
          User.first_name := first_name;
          User.last_name := last_name;
          User.participation_type := User.participation_type r;
          User.family_members_count := User.family_members_count r;
          User.children_info := User.children_info r;
          User.registration_completed := User.registration_completed r;
          User.registration_date := User.registration_date r |}) user_id) db.

(** [get_user] *)
Definition get_user (user_id : Z) (db : t) : option User.t :=
  users db !! user_id.

(** [is_user_registered]: [result and result[0]]. *)
Definition is_user_registered (user_id : Z) (db : t) : bool :=
  match users db !! user_id with
  | Some r => User.registration_completed r
  | None => false
  end.

(** Two rows of [users] that agree on everything the user declared in
    the registration, on the registration flag and on its date. *)
Definition same_registration (r r' : User.t) : Prop :=
  User.first_name r' = User.first_name r
  ∧ User.last_name r' = User.last_name r
  ∧ User.participation_type r' = User.participation_type r
  ∧ User.family_members_count r' = User.family_members_count r
  ∧ User.children_info r' = User.children_info r
  ∧ User.registration_completed r' = User.registration_completed r
  ∧ User.registration_date r' = User.registration_date r.

(** [add_task] *)
Definition add_task (clock : Z) (title : text) (description link : option text)
    (week_number : option Z) (deadline : option datetime) (is_open : bool)
    (open_date : option datetime) (db : t) : t :=
  insert_task
    {| Task.title := title;
       Task.description := description;
       Task.link := link;
       Task.is_open := is_open;
       Task.week_number := week_number;
       Task.deadline := deadline;
       Task.created_date := current_timestamp clock;
       Task.open_date := open_date |} db.

(** The deadline stored for a task: [None] when the task does not exist
    or its deadline is NULL. *)
Definition stored_deadline (task_id : Z) (db : t) : option datetime :=
  tasks db !! task_id ≫= Task.deadline.

(** [_check_submission_deadline]: on time when there is no such task or
    the task has no deadline, and otherwise when
    [submission_time <= deadline]. *)
Definition _check_submission_deadline (task_id : Z)
    (submission_time : datetime) (db : t) : result bool :=
  match tasks db !! task_id with
  | None => Ok true
  | Some task =>
    match Task.deadline task with
    | None => Ok true
    | Some deadline => datetime_le submission_time deadline
    end
  end.

(** [submit_task]: evaluate the deadline at the current Moscow time, insert
    the submission with that flag and return the flag. *)
Definition submit_task (clock user_id task_id : Z) (submission_type content
    file_id file_path : pyval) (db : t) : result (bool * t) :=
  let submission_time := now_moscow clock in
  match _check_submission_deadline task_id submission_time db with
  | Raise e => Raise e
  | Ok is_on_time =>
    Ok (is_on_time,
        insert_submission
          {| Submission.user_id := user_id;
             Submission.task_id := task_id;
             Submission.submission_date :=
               CurrentTimestamp (current_timestamp clock);
             Submission.submission_type := submission_type;
             Submission.content := content;
             Submission.file_id := file_id;
             Submission.file_path := file_path;
             Submission.status := "pending";
             Submission.is_on_time := is_on_time |} db)
  end.

(** [add_support_request] *)
Definition add_support_request (clock user_id : Z) (message : text)
    (db : t) : t :=
  insert_support_request
    {| SupportRequest.user_id := user_id;
       SupportRequest.message := message;
       SupportRequest.request_date := current_timestamp clock;
       SupportRequest.status := "open" |} db.

(** [get_potential_reports()]: the unprocessed rows of type
    ['potential_report']. *)
Definition get_potential_reports (db : t) : gmap Z OfflineMessage.t :=
  filter (fun r : Z * OfflineMessage.t =>
            OfflineMessage.message_type r.2 = "potential_report"
            ∧ OfflineMessage.processed r.2 = false)
         (offline_messages db).

(** [d.get(key, default)] on a parsed payload. *)
Definition payload_get (d : gmap string jval) (key : string)
    (default : pyval) : jval :=
  match d !! key with
  | Some v => v
  | None => JScalar default
  end.

(** Binding a Python value to a [?] of a statement: only scalars are
    supported. *)
Definition bind_parameter (v : jval) : result pyval :=
  match v with
  | JScalar v => Ok v
  | JObject _ => Raise BindingError
  end.

Section Promotion.

(** [json.loads] on text that was not produced by [json.dumps]; [None]
    stands for [json.JSONDecodeError]. *)
Variable json_loads_text : text -> option json_doc.

(** [json.loads(message_data)] *)
Definition json_loads (m : message_data) : option json_doc :=
  match m with
  | JsonDumps d => Some (JDict d)
  | RawText s => json_loads_text s
  end.

(** [mark_potential_report_as_submission]: turn the inbox entry
    [message_id] into a submission for [task_id].  The whole body is one
    transaction; [False] is returned when the entry does not exist or its
    payload is not JSON, and any other exception leaves the block. *)
Definition mark_potential_report_as_submission (clock message_id task_id : Z)
    (admin_notes : option text) (db : t) : result (bool * t) :=
  match offline_messages db !! message_id with
  | None => Ok (false, db)
  | Some entry =>
    let user_id := OfflineMessage.user_id entry in
    match json_loads (OfflineMessage.data entry) with
    | None => Ok (false, db)
    | Some JNotDict => Raise AttributeError
    | Some (JDict data) =>
      let submission_type := payload_get data "type" (VStr (u "text")) in
      let content := payload_get data "content" (VStr []) in
      let file_id := payload_get data "file_id" VNone in
      let file_path := payload_get data "file_path" VNone in
      let submission_time := now_moscow clock in
      match _check_submission_deadline task_id submission_time db with
      | Raise e => Raise e
      | Ok is_on_time =>
        match bind_parameter submission_type, bind_parameter content,
              bind_parameter file_id, bind_parameter file_path with
        | Ok submission_type, Ok content, Ok file_id, Ok file_path =>
          let db1 :=
            insert_submission
              {| Submission.user_id := user_id;
                 Submission.task_id := task_id;
                 Submission.submission_date :=
                   CurrentTimestamp (current_timestamp clock);
                 Submission.submission_type := submission_type;
                 Submission.content := content;
                 Submission.file_id := file_id;
                 Submission.file_path := file_path;
                 Submission.status := "approved";
                 Submission.is_on_time := is_on_time |} db in
          let db2 := set_offline_messages (alter set_processed message_id) db1 in
          let db3 :=
            match admin_notes with
            | Some (c :: notes) =>
              save_offline_message clock user_id (RawText (c :: notes))
                "admin_note" db2
            | _ => db2
            end in
          Ok (true, db3)
        | _, _, _, _ => Raise BindingError
        end
      end
    end
  end.

End Promotion.


(** *** Reading the store *)

Definition rowid_le {A} (a b : Z * A) : Prop := a.1 ≤ b.1.

#[global] Instance rowid_le_dec {A} : RelDecision (@rowid_le A).
Proof. intros a b. unfold rowid_le. apply _. Defined.

(** The rows of a table in the order of the table scan, which is the
    order of the row ids. *)
Definition table_scan {A} (m : gmap Z A) : list (Z * A) :=
  merge_sort rowid_le (map_to_list m).

(** [get_all_tasks]: [(id, title, description, link, is_open)] of every
    task. *)
Definition get_all_tasks (db : t)
    : list (Z * text * option text * option text * bool) :=
  (fun r : Z * Task.t =>
     (r.1, Task.title r.2, Task.description r.2, Task.link r.2,
      Task.is_open r.2))
  <$> table_scan (tasks db).

(** [get_user_submissions]: the submissions of the user joined with their
    tasks, as [(title, submission_date, status, is_on_time)].  The rows
    are keyed by the id of the submission; the order of the list the
    source returns is not part of the model. *)
Definition get_user_submissions (user_id : Z) (db : t)
    : gmap Z (text * timestamp * string * bool) :=
  omap (fun s : Submission.t =>
          if decide (Submission.user_id s = user_id) then
            (fun task : Task.t =>
               (Task.title task, Submission.submission_date s,
                Submission.status s, Submission.is_on_time s))
            <$> tasks db !! Submission.task_id s
          else None)
       (submissions db).

(** The tasks counted by [SELECT COUNT(DISTINCT task_id) FROM submissions
    WHERE user_id = ? AND is_on_time = TRUE]. *)
Definition completed_tasks (user_id : Z) (db : t) : gset Z :=
  list_to_set
    (Submission.task_id
     <$> filter (fun s : Submission.t =>
                   Submission.user_id s = user_id
                   ∧ Submission.is_on_time s = true)
                (map_to_list (submissions db)).*2).

Section OpenTasks.

(** [deadline > ?] as SQLite evaluates it on the stored text and on
    [now.isoformat()]: [later_text a b] tells whether the text
    [a.isoformat()] is greater than the text [b.isoformat()]. *)
Variable later_text : datetime -> datetime -> bool.

(** [is_open = TRUE AND (deadline IS NULL OR deadline > ?)] *)
Definition still_open (clock : Z) (task : Task.t) : bool :=
  Task.is_open task
  && match Task.deadline task with
     | None => true
     | Some deadline => later_text deadline (now_moscow clock)
     end.

(** [get_open_tasks]: [(id, title, description, link)] of the open tasks
    whose deadline has not passed. *)
Definition get_open_tasks (clock : Z) (db : t)
    : list (Z * text * option text * option text) :=
  (fun r : Z * Task.t =>
     (r.1, Task.title r.2, Task.description r.2, Task.link r.2))
  <$> filter (fun r : Z * Task.t => still_open clock r.2 = true)
        (table_scan (tasks db)).

(** [get_user_stats]: the number of tasks the user has an on-time
    submission for, and the number of open tasks. *)
Definition get_user_stats (clock user_id : Z) (db : t) : Z * Z :=
  (Z.of_nat (size (completed_tasks user_id db)),
   Z.of_nat (length (filter (fun r : Z * Task.t => still_open clock r.2 = true)
                       (map_to_list (tasks db))))).

End OpenTasks.

(** [create_weekly_tasks]: two open tasks for the week, due five days
    after today at 23:59 in Moscow. *)
Definition create_weekly_tasks (clock week_number : Z) (db : t) : t :=
  let monday_publication := replace_clock 11 0 0 0 (now_moscow clock) in
  let deadline := add_timedelta 5 12 59 monday_publication in
  let db1 :=
    add_task clock
      (u "Экологическое наблюдение - Неделя " ++ int_text week_number)
      (Some (u "Проведите наблюдение за природой в вашем районе и поделитесь фотографиями"))
      (Some (u "https://example.com/observation"))
      (Some week_number) (Some deadline) true None db in
  add_task clock
    (u "Экологическое действие - Неделя " ++ int_text week_number)
    (Some (u "Совершите одно действие для помощи природе и расскажите о нем"))
    (Some (u "https://example.com/action"))
    (Some week_number) (Some deadline) true None db1.

(** [get_potential_reports(user_id)]: with a user id that is not zero the
    unprocessed potential reports of that user, and those of every user
    otherwise ([if user_id:]). *)
Definition get_potential_reports_of (user_id : option Z) (db : t)
    : gmap Z OfflineMessage.t :=
  match user_id with
  | Some (Zpos _ as id) | Some (Zneg _ as id) =>
    filter (fun r : Z * OfflineMessage.t =>
              OfflineMessage.user_id r.2 = id
              ∧ OfflineMessage.message_type r.2 = "potential_report"
              ∧ OfflineMessage.processed r.2 = false)
           (offline_messages db)
  | _ => get_potential_reports db
  end.

End Database.

(** ** Moderation writes ([admin_bot.py], [admin_tools.py]) *)

Module AdminBot.
Import Py.
Import Database.

Definition set_status (status : string) (s : Submission.t) : Submission.t :=
  {| Submission.user_id := Submission.user_id s;
     Submission.task_id := Submission.task_id s;
     Submission.submission_date := Submission.submission_date s;
     Submission.submission_type := Submission.submission_type s;
     Submission.content := Submission.content s;
     Submission.file_id := Submission.file_id s;
     Submission.file_path := Submission.file_path s;
     Submission.status := status;
     Submission.is_on_time := Submission.is_on_time s |}.

(** [_approve_report]: [UPDATE submissions SET status = 'approved' WHERE
    id = ?]. *)
Definition _approve_report (submission_id : Z) (db : t) : t :=
  set_submissions (alter (set_status "approved") submission_id) db.

(** [_reject_report] *)
Definition _reject_report (submission_id : Z) (db : t) : t :=
  set_submissions (alter (set_status "rejected") submission_id) db.

Definition set_title (title : text) (r : Task.t) : Task.t :=
  {| Task.title := title; Task.description := Task.description r;
     Task.link := Task.link r; Task.is_open := Task.is_open r;
     Task.week_number := Task.week_number r; Task.deadline := Task.deadline r;
     Task.created_date := Task.created_date r;
     Task.open_date := Task.open_date r |}.

Definition set_description (description : option text) (r : Task.t) : Task.t :=
  {| Task.title := Task.title r; Task.description := description;
     Task.link := Task.link r; Task.is_open := Task.is_open r;
     Task.week_number := Task.week_number r; Task.deadline := Task.deadline r;
     Task.created_date := Task.created_date r;
     Task.open_date := Task.open_date r |}.

Definition set_link (link : option text) (r : Task.t) : Task.t :=
  {| Task.title := Task.title r; Task.description := Task.description r;
     Task.link := link; Task.is_open := Task.is_open r;
     Task.week_number := Task.week_number r; Task.deadline := Task.deadline r;
     Task.created_date := Task.created_date r;
     Task.open_date := Task.open_date r |}.

Definition set_is_open (is_open : bool) (r : Task.t) : Task.t :=
  {| Task.title := Task.title r; Task.description := Task.description r;
     Task.link := Task.link r; Task.is_open := is_open;
     Task.week_number := Task.week_number r; Task.deadline := Task.deadline r;
     Task.created_date := Task.created_date r;
     Task.open_date := Task.open_date r |}.

Definition set_open_date (open_date : option datetime) (is_open : bool)
    (r : Task.t) : Task.t :=
  {| Task.title := Task.title r; Task.description := Task.description r;
     Task.link := Task.link r; Task.is_open := is_open;
     Task.week_number := Task.week_number r; Task.deadline := Task.deadline r;
     Task.created_date := Task.created_date r;
     Task.open_date := open_date |}.

Definition set_deadline (deadline : option datetime) (r : Task.t) : Task.t :=
  {| Task.title := Task.title r; Task.description := Task.description r;
     Task.link := Task.link r; Task.is_open := Task.is_open r;
     Task.week_number := Task.week_number r; Task.deadline := deadline;
     Task.created_date := Task.created_date r;
     Task.open_date := Task.open_date r |}.

(** The write of [handle_edit_title]: [UPDATE tasks SET title = ?]. *)
Definition update_title (task_id : Z) (new_title : text) (db : t) : t :=
  set_tasks (alter (set_title new_title) task_id) db.

(** The write of [handle_edit_description]. *)
Definition update_description (task_id : Z) (new_description : option text)
    (db : t) : t :=
  set_tasks (alter (set_description new_description) task_id) db.

(** The write of [handle_edit_link]. *)
Definition update_link (task_id : Z) (new_link : option text) (db : t) : t :=
  set_tasks (alter (set_link new_link) task_id) db.

(** [_toggle_task_status]: flip [is_open] when the task exists. *)
Definition _toggle_task_status (task_id : Z) (db : t) : t :=
  match tasks db !! task_id with
  | None => db
  | Some r =>
    set_tasks (alter (set_is_open (negb (Task.is_open r))) task_id) db
  end.

(** [close_task] of [admin_tools.py]: [UPDATE tasks SET is_open = FALSE]. *)
Definition close_task (task_id : Z) (db : t) : t :=
  set_tasks (alter (set_is_open false) task_id) db.

(** The write of [handle_edit_open_date]: [UPDATE tasks SET open_date = ?,
    is_open = ?]. *)
Definition update_open_date (task_id : Z) (new_open_date : datetime)
    (is_open : bool) (db : t) : t :=
  set_tasks (alter (set_open_date (Some new_open_date) is_open) task_id) db.

(** [_confirm_delete_task]: one transaction that deletes the submissions
    of the task and then the task. *)
Definition _confirm_delete_task (task_id : Z) (db : t) : t :=
  let db1 :=
    set_submissions
      (filter (fun r : Z * Submission.t => Submission.task_id r.2 ≠ task_id))
      db in
  set_tasks (delete task_id) db1.

(** [d.replace(hour=h, minute=m, second=s)]: the date and the microsecond
    of the local reading are kept. *)
Definition replace_time (h m s : Z) (d : datetime) : datetime :=
  let offset := default 0 (utcoffset d) * 60000000 in
  let reading := instant d + offset in
  {| instant := reading / 86400000000 * 86400000000
                + (h * 3600 + m * 60 + s) * 1000000
                + reading mod 1000000 - offset;
     utcoffset := utcoffset d |}.

(** [d + timedelta(days=n)] *)
Definition add_days (n : Z) (d : datetime) : datetime :=
  {| instant := instant d + n * 86400000000; utcoffset := utcoffset d |}.

(** [moscow_tz.localize(d)] for a naive reading [d]. *)
Definition localize_moscow (d : datetime) : datetime :=
  {| instant := instant d - 180 * 60000000; utcoffset := Some 180 |}.

(** The moderator's text for a new deadline, after [strip().lower()] and
    the comparison with the keywords.  For a date typed by hand the
    argument is what [strptime] (and, without a time, [replace(hour=23,
    minute=59)]) returns, [None] standing for [ValueError]. *)
Inductive deadline_input : Type :=
  | InputAuto
  | InputTomorrow
  | InputWeek
  | InputNoDeadline
  | InputManual (parsed : option datetime).

Inductive edit_outcome : Type :=
  | AccessDenied
  | TaskIdMissing
  | DeadlineInPast
  | DeadlineBeforeOpenDate
  | BadDateFormat
  | DeadlineChanged (new_deadline : option datetime).

(** [handle_edit_deadline]: compute the new deadline from the input,
    validate a hand-typed one, and [UPDATE tasks SET deadline = ?].
    [editing_task_id] is [context.user_data.get('editing_task_id')]. *)
Definition handle_edit_deadline (clock : Z) (is_admin : bool)
    (editing_task_id : option Z) (input : deadline_input) (db : t)
    : result (edit_outcome * t) :=
  if negb is_admin then Ok (AccessDenied, db) else
  match editing_task_id with
  | None => Ok (TaskIdMissing, db)
  | Some task_id =>
    if task_id =? 0 then Ok (TaskIdMissing, db) else
    let open_date :=
      match tasks db !! task_id with
      | Some r => Task.open_date r
      | None => None
      end in
    let now := now_moscow clock in
    let write new_deadline :=
      Ok (DeadlineChanged new_deadline,
          set_tasks (alter (set_deadline new_deadline) task_id) db) in
    match input with
    | InputAuto =>
      let base := match open_date with
                  | Some open_date_dt => add_days 7 open_date_dt
                  | None => add_days 7 now
                  end in
      write (Some (replace_time 23 59 59 base))
    | InputTomorrow => write (Some (add_days 1 (replace_time 23 59 59 now)))
    | InputWeek => write (Some (replace_time 23 59 59 (add_days 7 now)))
    | InputNoDeadline => write None
    | InputManual None => Ok (BadDateFormat, db)
    | InputManual (Some parsed) =>
      let new_deadline := localize_moscow parsed in
      match datetime_le new_deadline now with
      | Raise e => Raise e
      | Ok true => Ok (DeadlineInPast, db)
      | Ok false =>
        match open_date with
        | None => write (Some new_deadline)
        | Some open_date_dt =>
          match datetime_le new_deadline open_date_dt with
          | Raise e => Raise e
          | Ok true => Ok (DeadlineBeforeOpenDate, db)
          | Ok false => write (Some new_deadline)
          end
        end
      end
    end
  end.

(** [_mark_potential_processed] *)
Definition _mark_potential_processed (report_id : Z) (db : t) : t :=
  set_offline_messages (alter set_processed report_id) db.

(** [_delete_potential_report]: delete the entry when it exists. *)
Definition _delete_potential_report (report_id : Z) (db : t) : t :=
  match offline_messages db !! report_id with
  | None => db
  | Some _ => set_offline_messages (delete report_id) db
  end.

(** [_perform_log_cleanup]: one transaction of three deletes, an update
    and [VACUUM]; when a statement fails the transaction is rolled back.
    [date('now', '-30 days')] is a day, so a row is older when its day is. *)
Definition _perform_log_cleanup (clock : Z) (vacuum_fails : bool) (db : t) : t :=
  let now := current_timestamp clock in
  let day_limit := (now - 30 * 86400) / 86400 * 86400 in
  let db1 :=
    set_offline_messages
      (filter (fun r : Z * OfflineMessage.t =>
         ¬ (OfflineMessage.message_type r.2 = "potential_report"
            ∧ OfflineMessage.processed r.2 = true))) db in
  let db2 :=
    set_offline_messages
      (filter (fun r : Z * OfflineMessage.t =>
         ¬ (OfflineMessage.processed r.2 = true
            ∧ OfflineMessage.received_date r.2 < day_limit))) db1 in
  let db3 :=
    set_user_states
      (filter (fun r : Z * UserState.t =>
         ¬ (UserState.last_updated r.2 < now - 7 * 86400))) db2 in
  let db4 :=
    set_support_requests
      (fmap (fun r : SupportRequest.t =>
         if decide (SupportRequest.status r = "closed"
                    ∧ SupportRequest.request_date r < day_limit)
         then {| SupportRequest.user_id := SupportRequest.user_id r;
                 SupportRequest.message := SupportRequest.message r;
                 SupportRequest.request_date := SupportRequest.request_date r;
                 SupportRequest.status := "archived" |}
         else r)) db3 in
  if vacuum_fails then db else db4.

Inductive assign_outcome : Type :=
  | TaskNotFound
  | ReportNotFound
  | Assigned
  | AssignError.

Section Assign.

Variable json_loads_text : text -> option json_doc.

(** [_assign_potential_to_task]: the moderator's button.  The task and the
    entry are looked up first; the submission is inserted as a pending
    text report flagged on time, then the entry is marked processed.
    Every exception is caught. *)
Definition _assign_potential_to_task (clock report_id task_id : Z) (db : t)
    : assign_outcome * t :=
  match tasks db !! task_id with
  | None => (TaskNotFound, db)
  | Some _ =>
    match offline_messages db !! report_id with
    | None => (ReportNotFound, db)
    | Some entry =>
      match json_loads json_loads_text (OfflineMessage.data entry) with
      | Some (JDict data_dict) =>
        let content :=
          payload_get data_dict "content" (VStr (u "Нет содержимого")) in
        let file_id := payload_get data_dict "file_id" VNone in
        match bind_parameter content, bind_parameter file_id with
        | Ok content, Ok file_id =>
          let db1 :=
            insert_submission
              {| Submission.user_id := OfflineMessage.user_id entry;
                 Submission.task_id := task_id;
                 Submission.submission_date := IsoFormat (now_moscow clock);
                 Submission.submission_type := VStr (u "text");
                 Submission.content := content;
                 Submission.file_id := file_id;
                 Submission.file_path := VNone;
                 Submission.status := "pending";
                 Submission.is_on_time := true |} db in
          (Assigned, set_offline_messages (alter set_processed report_id) db1)
        | _, _ => (AssignError, db)
        end
      | _ => (AssignError, db)
      end
    end
  end.

End Assign.

End AdminBot.

(** ** The participant bot ([bot.py]) *)

(** The reply keyboards of [keyboards.py]; rendering them is not part of
    the model. *)
Module Keyboards.
Inductive t : Type :=
  | main_menu
  | participation_type
  | back_to_menu
  | profile_edit
  | out_of_context_actions.

(** *** Inline keyboards *)

(** [InlineKeyboardButton(label, callback_data=...)] and
    [InlineKeyboardButton(label, url=...)]. *)
Inductive button : Type :=
  | CallbackButton (label callback_data : Py.text)
  | UrlButton (label url : Py.text).

(** [InlineKeyboardMarkup(keyboard)]: the rows of buttons. *)
Definition inline : Type := list (list button).

(** [title[:n] + "..." if len(title) > n else title] *)
Definition short_title (n : nat) (title : Py.text) : Py.text :=
  if Z.of_nat n <? Py.len title then take n title ++ Py.u "..." else title.

Definition main_menu_inline : button :=
  CallbackButton (Py.u "🏠 Главное меню") (Py.u "main_menu").

(** A row of [get_open_tasks]: [(id, title, description, link)]. *)
Definition task_row : Type := Z * Py.text * option Py.text * option Py.text.

(** The button that starts the submission for a task. *)
Definition submit_button (n : nat) (task : task_row) : button :=
  CallbackButton (Py.u "📝 " ++ short_title n task.1.1.2)
    (Py.u "submit_task_" ++ Py.int_text task.1.1.1).

(** The loop [for i in range(0, len(tasks), 2)] of [task_selection]. *)
Fixpoint task_selection_rows (tasks : list task_row) : inline :=
  match tasks with
  | [] => []
  | [task] => [[submit_button 25 task]]
  | task :: task2 :: tasks' =>
    [submit_button 25 task; submit_button 25 task2]
    :: task_selection_rows tasks'
  end.

(** [task_selection] *)
Definition task_selection (tasks : list task_row) : inline :=
  task_selection_rows tasks ++ [[main_menu_inline]].

(** [tasks_bank]: only the emptiness of the two lists is looked at. *)
Definition tasks_bank {A B} (open_tasks : list A) (archived_tasks : list B)
    : inline :=
  let category_row :=
    match open_tasks with
    | [] => []
    | _ => [CallbackButton (Py.u "🟢 Открытые") (Py.u "show_open_tasks")]
    end
    ++ match archived_tasks with
       | [] => []
       | _ => [CallbackButton (Py.u "📁 Архивные") (Py.u "show_archived_tasks")]
       end in
  match category_row with
  | [] => []
  | _ => [category_row]
  end
  ++ [[main_menu_inline]].





End Keyboards.

Module EcoBot.
Import Py.
Import Database.

(** *** States of the conversations *)

Definition IDLE : Z := 0.
Definition REGISTRATION_FIRST_NAME : Z := 1.
Definition REGISTRATION_LAST_NAME : Z := 2.
Definition PARTICIPATION_TYPE : Z := 3.
Definition FAMILY_MEMBERS_COUNT : Z := 4.
Definition CHILDREN_INFO : Z := 5.
Definition SUPPORT_MESSAGE : Z := 10.
Definition TASK_SUBMISSION : Z := 20.
Definition EDIT_FIRST_NAME : Z := 30.
Definition EDIT_LAST_NAME : Z := 31.

(** [ConversationHandler.END] *)
Definition END : Z := -1.

(** *** Inputs and outputs *)

(** The attachment of a message: the [file_id] of the largest photo size,
    of the video, or of the document with its [file_name]. *)
Inductive attachment : Type :=
  | Photo (file_id : text)
  | Video (file_id : text)
  | Document (file_id : text) (file_name : pyval).

(** What [update.message] carries: [text], or an attachment with its
    optional [caption], or something else (a voice note, a sticker). *)
Inductive content : Type :=
  | Text (text : text)
  | Media (a : attachment) (caption : option text)
  | Other.

Record update : Type := Update {
  (** [update.effective_user.id] *)
  user_id : Z;
  (** [user.username], [user.first_name], [user.last_name] *)
  username : option text;
  first_name : option text;
  last_name : option text;
  message : content;
  (** [update.message.date.isoformat()] *)
  date : text
}.

(** What a handler reads from outside the process. *)
Record env : Type := Env {
  (** microseconds since the epoch *)
  clock : Z;
  (** [datetime.now().isoformat()] *)
  now_iso : text;
  (** the path [_download_and_save_file] returns, [None] when the
      download failed *)
  download : option text
}.

(** The read-only screens of the menu, rendered outside the model. *)
Inductive screen : Type :=
  | GameRules
  | Instructions
  | TaskSubmissionList
  | TasksBank
  | UserResults
  | ProfileEdit
  | AboutMovement
  | SupportInfo.

(** One message sent to the user: [reply_text(text, parse_mode=...,
    reply_markup=...)], or one of the screens. *)
Inductive sent : Type :=
  | Reply (text : text) (markdown : bool) (reply_markup : option Keyboards.t)
  | Screen (s : screen).

(** The state a handler works on: the store, [context.user_data] of the
    user, and the messages sent so far. *)
Record state : Type := State {
  store : Database.t;
  user_data : gmap string pyval;
  outbox : list sent
}.

(** A restart of the process: the store survives, the working memory
    does not. *)
Definition restart (st : state) : state :=
  {| store := store st; user_data := ∅; outbox := outbox st |}.

(** *** Handlers as state transformers that can raise

    Every call into [Database] commits on its own, so an exception keeps
    the effects that happened before it. *)

Definition M (A : Type) : Type := state -> result A * state.

Definition ret {A} (a : A) : M A := fun st => (Ok a, st).

Definition raise {A} (e : exn) : M A := fun st => (Raise e, st).

Definition bind {A B} (c : M A) (k : A -> M B) : M B :=
  fun st =>
    match c st with
    | (Ok a, st') => k a st'
    | (Raise e, st') => (Raise e, st')
    end.

#[global] Instance M_ret : MRet M := @ret.
#[global] Instance M_bind : MBind M := fun A B k c => bind c k.

(** A query on the store. *)
Definition query {A} (f : Database.t -> A) : M A :=
  fun st => (Ok (f (store st)), st).

(** A committed write on the store. *)
Definition execute (f : Database.t -> Database.t) : M unit :=
  fun st =>
    (Ok tt, {| store := f (store st); user_data := user_data st;
               outbox := outbox st |}).

(** [context.user_data] *)
Definition get_user_data : M (gmap string pyval) :=
  fun st => (Ok (user_data st), st).

Definition set_user_data (d : gmap string pyval) : M unit :=
  fun st => (Ok tt, {| store := store st; user_data := d; outbox := outbox st |}).

(** [await update.message.reply_text(...)] *)
Definition reply_text (text : text) (markdown : bool)
    (reply_markup : option Keyboards.t) : M unit :=
  fun st =>
    (Ok tt, {| store := store st; user_data := user_data st;
               outbox := outbox st ++ [Reply text markdown reply_markup] |}).

Definition show (s : screen) : M unit :=
  fun st =>
    (Ok tt, {| store := store st; user_data := user_data st;
               outbox := outbox st ++ [Screen s] |}).

(** [d.get(key, default)] on [context.user_data] *)
Definition get_default (d : gmap string pyval) (key : string)
    (default : pyval) : pyval :=
  match d !! key with
  | Some v => v
  | None => default
  end.

(** [d[key]] *)
Definition subscript (d : gmap string pyval) (key : string) : M pyval :=
  match d !! key with
  | Some v => ret v
  | None => raise KeyError
  end.

(** [update.message.text], on which the text handlers call [str] methods. *)
Definition message_text (upd : update) : M text :=
  match message upd with
  | Text t => ret t
  | _ => raise AttributeError
  end.

(** [for key, value in saved_context.items(): context.user_data[key] =
    value] *)
Definition restore_context (saved_context : gmap string pyval) : M unit :=
  d ← get_user_data;
  set_user_data (saved_context ∪ d).

(** [_should_show_july_21_message]: before 21 July 2025, 00:00 in Moscow. *)
Definition _should_show_july_21_message (e : env) : bool :=
  clock e <? 1753045200 * 1000000.

(** *** Texts of the replies *)

Definition session_restored_text : text :=
  u "🔄 **Восстановление сессии**" ++ nl2 ++
  u "Я помню, где мы остановились! Давайте продолжим регистрацию с того места, где прервались.".

Definition last_name_prompt : text := u "📝 **Введите вашу фамилию:**".

Definition first_name_prompt (last_name : pyval) : text :=
  u "✅ Фамилия: " ++ str last_name ++ nl2 ++ u "📝 **Теперь введите ваше имя:**".

Definition participation_prompt (first_name last_name : pyval) : text :=
  u "✅ Имя: " ++ str first_name ++ nl ++
  u "✅ Фамилия: " ++ str last_name ++ nl2 ++
  u "🏠 **Уточните, как вы планируете участвовать:**".

Definition family_count_prompt : text :=
  u "👨‍👩‍👧‍👦 **Семейное участие**" ++ nl2 ++
  u "📝 Введите количество человек, которые будут участвовать от вашей семьи:".

Definition children_prompt (count : pyval) : text :=
  u "✅ Количество участников: " ++ str count ++ nl2 ++
  u "👶 **Участвуют ли дети?**" ++ nl ++
  u "Если да, укажите их возраст. Если нет, напишите 'нет':".

Definition task_submission_prompt : text :=
  u "📤 **Отправка отчета**" ++ nl2 ++
  u "Отправьте ваш отчет одним из способов:" ++ nl ++
  u "• 🔗 Ссылка на пост в социальных сетях" ++ nl ++
  u "• 📸 Фотография" ++ nl ++
  u "• 🎥 Видео" ++ nl ++
  u "• 📄 Документ" ++ nl2 ++
  u "⏰ Напоминание: дедлайн - суббота 23:59 МСК".

Definition edit_first_name_prompt : text :=
  u "✏️ **Изменение имени**" ++ nl2 ++ u "Введите новое имя:".

Definition edit_last_name_prompt : text :=
  u "✏️ **Изменение фамилии**" ++ nl2 ++ u "Введите новую фамилию:".

Definition july_21_notice (closing : text) : text :=
  u "🎯 **ВАЖНАЯ ИНФОРМАЦИЯ!**" ++ nl ++
  u "📅 **Первое задание будет открыто 21 июля 2025 года**" ++ nl2 ++
  closing ++ nl2.

Definition welcome_back_text (e : env) (last_name : pyval) : text :=
  u "🌿 С возвращением, " ++ str last_name ++ u "!" ++ nl2 ++
  u "Добро пожаловать обратно в Эко-бот Движения друзей заповедных островов." ++ nl2 ++
  (if _should_show_july_21_message e
   then july_21_notice (u "Следите за обновлениями и будьте готовы к участию!")
   else []) ++
  u "Используйте меню ниже для навигации:".

Definition welcome_text (e : env) : text :=
  u "🌿 Добро пожаловать в Эко-бот Движения друзей заповедных островов!" ++ nl2 ++
  u "Этот бот поможет вам участвовать в экологических заданиях и следить за своими успехами." ++ nl2 ++
  (if _should_show_july_21_message e
   then july_21_notice (u "Зарегистрируйтесь сейчас, чтобы быть готовыми к участию!")
   else []) ++
  u "Для начала давайте зарегистрируем вас в системе." ++ nl2 ++
  u "📝 **Введите вашу фамилию:**".

Definition last_name_error_text : text :=
  u "❌ Пожалуйста, введите корректную фамилию (минимум 2 символа):" ++ nl2 ++
  u "💾 Ваш ввод сохранен.".

Definition first_name_error_text : text :=
  u "❌ Пожалуйста, введите корректное имя (минимум 2 символа):" ++ nl2 ++
  u "💾 Ваш ввод сохранен.".

Definition participation_error_text : text :=
  u "❌ Пожалуйста, выберите один из предложенных вариантов:" ++ nl2 ++
  u "💾 Ваш выбор сохранен.".

Definition family_count_error_text : text :=
  u "❌ Пожалуйста, введите корректное число от 1 до 10:" ++ nl2 ++
  u "💾 Ваш ввод сохранен.".

Definition saved_suffix : text := nl2 ++ u "💾 Данные сохранены".

Definition individually_button : text := u "👤 Индивидуально".
Definition family_button : text := u "👨‍👩‍👧‍👦 Семьей".

Definition congratulations_text (e : env) (first_name last_name
    participation_text : text) : text :=
  u "🎉 **Поздравляем с завершением регистрации!**" ++ nl2 ++
  u "👤 Участник: " ++ first_name ++ u " " ++ last_name ++ nl ++
  u "🏠 Тип участия: " ++ participation_text ++ nl2 ++
  (if _should_show_july_21_message e
   then july_21_notice (u "Вы зарегистрированы и готовы к участию!")
   else []) ++
  u "📝 **Важные моменты:**" ++ nl ++
  u "• Бот будет принимать задания только от вас как зарегистрированного участника" ++ nl ++
  u "• В случае семейного участия отчеты отправляет только зарегистрированный участник" ++ nl ++
  u "• Задания публикуются по понедельникам и четвергам в 11:00 МСК" ++ nl ++
  u "• Дедлайн выполнения - суббота 23:59 МСК" ++ nl2 ++
  u "Теперь вы можете использовать все функции бота! 🌿".

(** *** Resuming a conversation: [start] *)

(** [_continue_from_state]: send again the prompt of the saved step.  The
    branch for [TASK_SUBMISSION] reads the name [current_context], which
    the function does not define. *)
Definition _continue_from_state (e : env) (upd : update) (state : Z) : M Z :=
  if state =? REGISTRATION_LAST_NAME then
    reply_text last_name_prompt true None;;
    mret REGISTRATION_LAST_NAME
  else if state =? REGISTRATION_FIRST_NAME then
    d ← get_user_data;
    let last_name := get_default d "last_name" (VStr []) in
    reply_text (first_name_prompt last_name) true None;;
    mret REGISTRATION_FIRST_NAME
  else if state =? PARTICIPATION_TYPE then
    d ← get_user_data;
    let first_name := get_default d "first_name" (VStr []) in
    let last_name := get_default d "last_name" (VStr []) in
    reply_text (participation_prompt first_name last_name) true
      (Some Keyboards.participation_type);;
    mret PARTICIPATION_TYPE
  else if state =? FAMILY_MEMBERS_COUNT then
    reply_text family_count_prompt true (Some Keyboards.back_to_menu);;
    mret FAMILY_MEMBERS_COUNT
  else if state =? CHILDREN_INFO then
    d ← get_user_data;
    let count := get_default d "family_members_count" (VInt 1) in
    reply_text (children_prompt count) false None;;
    mret CHILDREN_INFO
  else if state =? TASK_SUBMISSION then
    raise NameError
  else if state =? EDIT_FIRST_NAME then
    reply_text edit_first_name_prompt true (Some Keyboards.back_to_menu);;
    mret EDIT_FIRST_NAME
  else if state =? EDIT_LAST_NAME then
    reply_text edit_last_name_prompt true (Some Keyboards.back_to_menu);;
    mret EDIT_LAST_NAME
  else
    execute (clear_user_state (clock e) (user_id upd));;
    mret END.

Section Start.

Variable json_loads_text : text -> option json_doc.

(** Whether the body of the loop of [_process_offline_messages] reaches
    [mark_offline_message_processed]: a payload that is not JSON is only
    logged, and [data.get] on a document that is not a dict raises. *)
Definition offline_message_logged (data : message_data)
    (message_type : string) : bool :=
  match json_loads json_loads_text data with
  | Some JNotDict =>
    negb (bool_decide (message_type ∈ ["text"; "photo"; "video"; "document"]%string))
  | _ => true
  end.

(** The loop of [_process_offline_messages] over the rows [(msg_id,
    message_data, message_type, received_date)]. *)
Definition mark_logged (offline_messages : list (Z * message_data * string * Z))
    (db : Database.t) : Database.t :=
  foldl (fun db (m : Z * message_data * string * Z) =>
           if offline_message_logged m.1.1.2 m.1.2
           then mark_offline_message_processed m.1.1.1 db
           else db)
        db offline_messages.

(** [_process_offline_messages]: log every unprocessed message of the
    user and mark it processed. *)
Definition _process_offline_messages (upd : update) : M unit :=
  offline_messages ← query (get_offline_messages (user_id upd));
  execute (mark_logged offline_messages).

(** [start]: the handler of [/start]. *)
Definition start (e : env) (upd : update) : M Z :=
  let user_id := user_id upd in
  execute (add_user (clock e) user_id (username upd) (first_name upd)
             (last_name upd));;
  _process_offline_messages upd;;
  saved ← query (get_user_state user_id);
  let saved_state := saved.1 in
  let saved_context := saved.2 in
  registered ← query (is_user_registered user_id);
  if negb (saved_state =? IDLE) && negb registered then
    restore_context saved_context;;
    reply_text session_restored_text true None;;
    _continue_from_state e upd saved_state
  else if registered then
    row ← query (get_user user_id);
    match row with
    | None => raise TypeError
    | Some row =>
      execute (clear_user_state (clock e) user_id);;
      reply_text (welcome_back_text e (User.last_name row)) false
        (Some Keyboards.main_menu);;
      mret END
    end
  else
    execute (save_user_state (clock e) user_id REGISTRATION_LAST_NAME ∅);;
    reply_text (welcome_text e) true None;;
    mret REGISTRATION_LAST_NAME.

End Start.

(** *** The registration conversation *)

(** [context.user_data.get('invalid_attempts', 0) + 1] *)
Definition next_invalid_attempts (d : gmap string pyval) : M pyval :=
  match add1 (get_default d "invalid_attempts" (VInt 0)) with
  | Ok v => mret v
  | Raise e => raise e
  end.

(** [not name or len(name) < 2] *)
Definition name_rejected (name : text) : bool :=
  match name with [] => true | _ => false end || (len name <? 2).

(** [registration_last_name] *)
Definition registration_last_name (e : env) (upd : update) : M Z :=
  let user_id := user_id upd in
  text ← message_text upd;
  let last_name := strip text in
  execute (save_offline_message (clock e) user_id
    (JsonDumps
       (<["date" := JScalar (VStr (date upd))]>
       (<["valid" := JScalar (VBool (2 <=? len last_name))]>
       (<["input" := JScalar (VStr last_name)]>
       {["step" := JScalar (VStr (u "last_name"))]}))))
    "registration_input");;
  if name_rejected last_name then
    d ← get_user_data;
    attempts ← next_invalid_attempts d;
    execute (save_user_state (clock e) user_id REGISTRATION_LAST_NAME
      (<["timestamp" := VStr (date upd)]>
      (<["last_invalid_input" := VStr last_name]>
      {["invalid_attempts" := attempts]})));;
    reply_text last_name_error_text false None;;
    mret REGISTRATION_LAST_NAME
  else
    d ← get_user_data;
    let d := <["last_name" := VStr last_name]> d in
    set_user_data d;;
    execute (save_user_state (clock e) user_id REGISTRATION_FIRST_NAME
      (<["timestamp" := VStr (date upd)]>
      (<["last_name_confirmed" := VBool true]> d)));;
    reply_text (first_name_prompt (VStr last_name) ++ saved_suffix) true None;;
    mret REGISTRATION_FIRST_NAME.

(** [registration_first_name] *)
Definition registration_first_name (e : env) (upd : update) : M Z :=
  let user_id := user_id upd in
  text ← message_text upd;
  let first_name := strip text in
  d ← get_user_data;
  execute (save_offline_message (clock e) user_id
    (JsonDumps
       (<["date" := JScalar (VStr (date upd))]>
       (<["current_data" := JObject d]>
       (<["valid" := JScalar (VBool (2 <=? len first_name))]>
       (<["input" := JScalar (VStr first_name)]>
       {["step" := JScalar (VStr (u "first_name"))]})))))
    "registration_input");;
  if name_rejected first_name then
    attempts ← next_invalid_attempts d;
    execute (save_user_state (clock e) user_id REGISTRATION_FIRST_NAME
      (<["timestamp" := VStr (date upd)]>
      (<["last_invalid_input" := VStr first_name]>
      (<["invalid_attempts" := attempts]> d))));;
    reply_text first_name_error_text false None;;
    mret REGISTRATION_FIRST_NAME
  else
    let d := <["first_name" := VStr first_name]> d in
    set_user_data d;;
    execute (save_user_state (clock e) user_id PARTICIPATION_TYPE
      (<["timestamp" := VStr (date upd)]>
      (<["first_name_confirmed" := VBool true]> d)));;
    last_name ← subscript d "last_name";
    reply_text (participation_prompt (VStr first_name) last_name ++ saved_suffix)
      true (Some Keyboards.participation_type);;
    mret PARTICIPATION_TYPE.

(** [_complete_registration]: write the registration, return to idle,
    congratulate and clear the working memory. *)
Definition _complete_registration (e : env) (upd : update) : M unit :=
  let user_id := user_id upd in
  d ← get_user_data;
  first_name ← subscript d "first_name";
  last_name ← subscript d "last_name";
  participation ← subscript d "participation_type";
  execute (update_user_registration user_id first_name last_name participation
             (get_default d "family_members_count" (VInt 1))
             (get_default d "children_info" VNone));;
  execute (clear_user_state (clock e) user_id);;
  let participation_text :=
    if decide (participation = VStr (u "individual")) then u "индивидуально"
    else
      let count := get_default d "family_members_count" (VInt 1) in
      let children := get_default d "children_info" VNone in
      u "семьей (" ++ str count ++ u " чел.)" ++
      (if truthy children then u ", с детьми: " ++ str children else []) in
  reply_text
    (congratulations_text e (str first_name) (str last_name) participation_text)
    true (Some Keyboards.main_menu);;
  set_user_data ∅.

(** [participation_type] *)
Definition participation_type (e : env) (upd : update) : M Z :=
  let user_id := user_id upd in
  text ← message_text upd;
  d ← get_user_data;
  execute (save_offline_message (clock e) user_id
    (JsonDumps
       (<["date" := JScalar (VStr (date upd))]>
       (<["current_data" := JObject d]>
       (<["choice" := JScalar (VStr text)]>
       {["step" := JScalar (VStr (u "participation_type"))]}))))
    "registration_choice");;
  if decide (text = individually_button) then
    let d := <["participation_type" := VStr (u "individual")]> d in
    set_user_data d;;
    execute (save_user_state (clock e) user_id IDLE
      (<["timestamp" := VStr (date upd)]>
      (<["ready_for_completion" := VBool true]>
      (<["participation_confirmed" := VBool true]> d))));;
    _complete_registration e upd;;
    mret END
  else if decide (text = family_button) then
    let d := <["participation_type" := VStr (u "family")]> d in
    set_user_data d;;
    execute (save_user_state (clock e) user_id FAMILY_MEMBERS_COUNT
      (<["timestamp" := VStr (date upd)]>
      (<["participation_confirmed" := VBool true]> d)));;
    reply_text (family_count_prompt ++ saved_suffix) true
      (Some Keyboards.back_to_menu);;
    mret FAMILY_MEMBERS_COUNT
  else
    attempts ← next_invalid_attempts d;
    execute (save_user_state (clock e) user_id PARTICIPATION_TYPE
      (<["timestamp" := VStr (date upd)]>
      (<["invalid_attempts" := attempts]>
      (<["invalid_choice" := VStr text]> d))));;
    reply_text participation_error_text false
      (Some Keyboards.participation_type);;
    mret PARTICIPATION_TYPE.

(** The [try] block of [family_members_count]: [int(count_input)], and
    [ValueError] outside 1..10. *)
Definition family_count (count_input : text) : option Z :=
  match int count_input with
  | Some count => if (count <? 1) || (10 <? count) then None else Some count
  | None => None
  end.

(** [family_members_count] *)
Definition family_members_count (e : env) (upd : update) : M Z :=
  let user_id := user_id upd in
  text ← message_text upd;
  let count_input := strip text in
  d ← get_user_data;
  execute (save_offline_message (clock e) user_id
    (JsonDumps
       (<["date" := JScalar (VStr (date upd))]>
       (<["current_data" := JObject d]>
       (<["input" := JScalar (VStr count_input)]>
       {["step" := JScalar (VStr (u "family_members_count"))]}))))
    "registration_input");;
  match family_count count_input with
  | None =>
    attempts ← next_invalid_attempts d;
    execute (save_user_state (clock e) user_id FAMILY_MEMBERS_COUNT
      (<["timestamp" := VStr (date upd)]>
      (<["invalid_attempts" := attempts]>
      (<["invalid_count_input" := VStr count_input]> d))));;
    reply_text family_count_error_text false None;;
    mret FAMILY_MEMBERS_COUNT
  | Some count =>
    let d := <["family_members_count" := VInt count]> d in
    set_user_data d;;
    execute (save_user_state (clock e) user_id CHILDREN_INFO
      (<["timestamp" := VStr (date upd)]>
      (<["family_count_confirmed" := VBool true]> d)));;
    reply_text (children_prompt (VInt count) ++ saved_suffix) false None;;
    mret CHILDREN_INFO
  end.

(** [s.lower() != 'нет'], negated: the three letters in either case. *)
Definition is_no (s : text) : bool :=
  match s with
  | [a; b; c] =>
    ((a =? 1053) || (a =? 1085)) && ((b =? 1045) || (b =? 1077))
    && ((c =? 1058) || (c =? 1090))
  | _ => false
  end.

(** [children_info] *)
Definition children_info (e : env) (upd : update) : M Z :=
  let user_id := user_id upd in
  text ← message_text upd;
  let children_info := strip text in
  d ← get_user_data;
  execute (save_offline_message (clock e) user_id
    (JsonDumps
       (<["date" := JScalar (VStr (date upd))]>
       (<["current_data" := JObject d]>
       (<["input" := JScalar (VStr children_info)]>
       {["step" := JScalar (VStr (u "children_info"))]}))))
    "registration_input");;
  let d :=
    <["children_info" := if is_no children_info then VNone
                         else VStr children_info]> d in
  set_user_data d;;
  execute (save_user_state (clock e) user_id IDLE
    (<["timestamp" := VStr (date upd)]>
    (<["ready_for_completion" := VBool true]>
    (<["children_info_confirmed" := VBool true]> d))));;
  _complete_registration e upd;;
  mret END.

(** *** Editing the profile *)

Definition main_menu_button : text := u "🏠 Главное меню".

Definition main_menu_text : text :=
  u "🏠 **Главное меню**" ++ nl2 ++ u "Выберите нужный раздел:".

(** [_send_main_menu] *)
Definition _send_main_menu (e : env) (upd : update) : M unit :=
  execute (clear_user_state (clock e) (user_id upd));;
  reply_text main_menu_text true (Some Keyboards.main_menu).

(** [_start_edit_first_name] *)
Definition _start_edit_first_name (e : env) (upd : update) : M Z :=
  execute (save_user_state (clock e) (user_id upd) EDIT_FIRST_NAME ∅);;
  reply_text edit_first_name_prompt true (Some Keyboards.back_to_menu);;
  mret EDIT_FIRST_NAME.

(** [_start_edit_last_name] *)
Definition _start_edit_last_name (e : env) (upd : update) : M Z :=
  execute (save_user_state (clock e) (user_id upd) EDIT_LAST_NAME ∅);;
  reply_text edit_last_name_prompt true (Some Keyboards.back_to_menu);;
  mret EDIT_LAST_NAME.

Definition edit_first_name_error_text : text :=
  u "❌ Пожалуйста, введите корректное имя (минимум 2 символа):".

Definition edit_last_name_error_text : text :=
  u "❌ Пожалуйста, введите корректную фамилию (минимум 2 символа):".

Definition edit_failed_text : text :=
  u "❌ Произошла ошибка при сохранении. Попробуйте еще раз.".

Definition first_name_changed_text (new_first_name : text) : text :=
  u "✅ **Имя успешно изменено!**" ++ nl2 ++
  u "Новое имя: **" ++ new_first_name ++ u "**".

Definition last_name_changed_text (new_last_name : text) : text :=
  u "✅ **Фамилия успешно изменена!**" ++ nl2 ++
  u "Новая фамилия: **" ++ new_last_name ++ u "**".

(** [handle_edit_first_name] *)
Definition handle_edit_first_name (e : env) (upd : update) : M Z :=
  let user_id := user_id upd in
  text ← message_text upd;
  let new_first_name := strip text in
  if decide (text = main_menu_button) then
    execute (clear_user_state (clock e) user_id);;
    _send_main_menu e upd;;
    mret END
  else if name_rejected new_first_name then
    reply_text edit_first_name_error_text false (Some Keyboards.back_to_menu);;
    mret EDIT_FIRST_NAME
  else
    row ← query (get_user user_id);
    match row with
    | Some row =>
      execute (update_user_name user_id (VStr new_first_name)
                 (User.last_name row));;
      execute (clear_user_state (clock e) user_id);;
      reply_text (first_name_changed_text new_first_name) true
        (Some Keyboards.main_menu);;
      mret END
    | None =>
      reply_text edit_failed_text false (Some Keyboards.main_menu);;
      mret END
    end.

(** [handle_edit_last_name] *)
Definition handle_edit_last_name (e : env) (upd : update) : M Z :=
  let user_id := user_id upd in
  text ← message_text upd;
  let new_last_name := strip text in
  if decide (text = main_menu_button) then
    execute (clear_user_state (clock e) user_id);;
    _send_main_menu e upd;;
    mret END
  else if name_rejected new_last_name then
    reply_text edit_last_name_error_text false (Some Keyboards.back_to_menu);;
    mret EDIT_LAST_NAME
  else
    row ← query (get_user user_id);
    match row with
    | Some row =>
      execute (update_user_name user_id (User.first_name row)
                 (VStr new_last_name));;
      execute (clear_user_state (clock e) user_id);;
      reply_text (last_name_changed_text new_last_name) true
        (Some Keyboards.main_menu);;
      mret END
    | None =>
      reply_text edit_failed_text false (Some Keyboards.main_menu);;
      mret END
    end.

(** *** Submitting a report *)

Definition choose_task_first_text : text :=
  u "❌ Сначала выберите задание для отправки отчета." ++ nl2 ++
  u "💾 Ваш отчет сохранен и будет обработан при повторном выборе задания.".

Definition unsupported_content_text : text :=
  u "❌ Поддерживаются только текстовые сообщения, фото, видео и документы." ++ nl2 ++
  u "💾 Ваше сообщение сохранено. Попробуйте отправить поддерживаемый тип файла.".

Definition submitted_on_time_text : text :=
  u "✅ **Задание отправлено на проверку!**" ++ nl2 ++
  u "Ваш отчет принят в срок и будет рассмотрен администратором. " ++
  u "Результат проверки будет отправлен вам в этом чате." ++ nl2 ++
  u "Спасибо за участие! 🌿".

Definition submitted_late_text : text :=
  u "⏰ **Отчет получен, но с опозданием**" ++ nl2 ++
  u "К сожалению, дедлайн для этого задания уже прошел (суббота 23:59 МСК), " ++
  u "поэтому задание не будет засчитано." ++ nl2 ++
  u "🌟 **Но не расстраивайтесь!** Ваше участие ценно, и мы благодарим вас за вклад в защиту природы. " ++
  u "Следующие задания публикуются в понедельник и четверг в 11:00 МСК." ++ nl2 ++
  u "Продолжайте заботиться о планете! 🌿💚".

Definition submission_failed_text : text :=
  u "⚠️ Произошла ошибка при сохранении отчета." ++ nl2 ++
  u "💾 Ваш отчет сохранен и будет обработан администратором вручную." ++ nl2 ++
  u "Попробуйте отправить команду /start для восстановления работы.".

(** [str(e)] for the exception [submit_task] can raise. *)
Definition exception_text (e : exn) : text :=
  match e with
  | TypeError => u "can't compare offset-naive and offset-aware datetimes"
  | _ => []
  end.

(** [caption or default] *)
Definition caption_or (caption : option text) (default : text) : text :=
  match caption with
  | Some (c :: s) => c :: s
  | _ => default
  end.

Definition option_cell (o : option text) : pyval :=
  match o with
  | Some s => VStr s
  | None => VNone
  end.

(** The kind, the content and the [file_id] of a report, for the four
    supported kinds of message. *)
Definition report_of (m : content) : option (text * text * pyval) :=
  match m with
  | Text (c :: s) => Some (u "text", c :: s, VNone)
  | Media (Photo file_id) caption =>
    Some (u "photo", caption_or caption (u "Фото-отчет"), VStr file_id)
  | Media (Video file_id) caption =>
    Some (u "video", caption_or caption (u "Видео-отчет"), VStr file_id)
  | Media (Document file_id file_name) caption =>
    Some (u "document", caption_or caption (u "Документ: " ++ str file_name),
          VStr file_id)
  | _ => None
  end.

(** [f'submission_{submission_type}'] *)
Definition submission_message_type (m : content) : string :=
  match m with
  | Text _ => "submission_text"
  | Media (Photo _) _ => "submission_photo"
  | Media (Video _) _ => "submission_video"
  | Media (Document _ _) _ => "submission_document"
  | Other => "submission_"
  end.

(** [handle_task_submission_content]: the terminal step of the submission
    conversation.  [selected_task_id] is only ever stored as an [int];
    the model does not follow a cell of another type into SQLite. *)
Definition handle_task_submission_content (e : env) (upd : update) : M Z :=
  let user_id := user_id upd in
  saved ← query (get_user_state user_id);
  let current_context := saved.2 in
  d ← get_user_data;
  match
    match d !! "selected_task_id" with
    | Some _ => Some d
    | None =>
      match current_context !! "selected_task_id" with
      | Some v => Some (<["selected_task_id" := v]> d)
      | None => None
      end
    end
  with
  | None =>
    reply_text choose_task_first_text false (Some Keyboards.main_menu);;
    mret END
  | Some d =>
    set_user_data d;;
    task_id ← subscript d "selected_task_id";
    execute (save_user_state (clock e) user_id TASK_SUBMISSION
      (<["submission_attempt" := VStr (now_iso e)]>
      {["selected_task_id" := task_id]}));;
    match report_of (message upd) with
    | None =>
      reply_text unsupported_content_text false (Some Keyboards.main_menu);;
      mret END
    | Some (submission_type, content, file_id) =>
      let file_path :=
        match message upd with
        | Media _ _ => option_cell (download e)
        | _ => VNone
        end in
      let common :=
        <["date" := JScalar (VStr (date upd))]>
        (<["task_id" := JScalar task_id]>
        (<["content" := JScalar (VStr content)]>
        {["type" := JScalar (VStr submission_type)]})) in
      let submission_data :=
        match message upd with
        | Media _ _ =>
          <["file_path" := JScalar file_path]>
          (<["file_id" := JScalar file_id]> common)
        | _ => common
        end in
      execute (save_offline_message (clock e) user_id (JsonDumps submission_data)
                 (submission_message_type (message upd)));;
      match task_id with
      | VInt task =>
        db ← query id;
        match submit_task (clock e) user_id task (VStr submission_type)
                (VStr content) file_id file_path db with
        | Ok (is_on_time, db') =>
          execute (fun _ => db');;
          execute (clear_user_state (clock e) user_id);;
          reply_text
            (if is_on_time then submitted_on_time_text else submitted_late_text)
            true (Some Keyboards.main_menu);;
          set_user_data ∅;;
          mret END
        | Raise err =>
          execute (save_offline_message (clock e) user_id
            (JsonDumps
               (<["date" := JScalar (VStr (now_iso e))]>
               (<["error" := JScalar (VStr (exception_text err))]>
               (<["file_path" := JScalar file_path]>
               (<["file_id" := JScalar file_id]>
               (<["content" := JScalar (VStr (take 100 content))]>
               (<["submission_type" := JScalar (VStr submission_type)]>
               {["task_id" := JScalar task_id]})))))))
            "submission_error");;
          reply_text submission_failed_text false (Some Keyboards.main_menu);;
          mret END
        end
      | _ => raise Unmodelled
      end
    end
  end.

(** *** Messages outside a conversation *)

Definition register_first_text (saved_note : text) : text :=
  u "❌ Сначала необходимо завершить регистрацию. Отправьте команду /start" ++ nl2 ++
  saved_note.

Definition not_accepted_warning_text : text :=
  u "⚠️ **ВНИМАНИЕ! Ваше задание НЕ ПРИНЯТО!**" ++ nl2 ++
  u "Похоже, вы пытаетесь отправить отчет по заданию, но это сообщение " ++
  u "отправлено вне контекста и **НЕ БУДЕТ ЗАСЧИТАНО**." ++ nl2 ++
  u "🔹 **Для правильной отправки заданий:**" ++ nl ++
  u "1️⃣ Изучите инструкцию по прохождению" ++ nl ++
  u "2️⃣ Используйте кнопку 'Отправить задание на проверку'" ++ nl ++
  u "3️⃣ Выберите конкретное задание из списка" ++ nl ++
  u "4️⃣ Только тогда отправляйте свой отчет" ++ nl2 ++
  u "💾 Ваше сообщение сохранено для анализа администратором." ++ nl2 ++
  u "**Что делать сейчас?**".

Definition unknown_command_text : text :=
  u "❓ **Неизвестная команда**" ++ nl2 ++
  u "Используйте кнопки меню для навигации по боту." ++ nl2 ++
  u "💾 Ваше сообщение сохранено для анализа." ++ nl2 ++
  u "**Доступные действия:**".

Definition message_failed_text : text :=
  u "⚠️ Произошла ошибка при обработке сообщения." ++ nl2 ++
  u "💾 Сообщение сохранено. Попробуйте ещё раз или отправьте /start".

(** [update.message.text], which is [None] for a message without text. *)
Definition text_cell (upd : update) : pyval :=
  match message upd with
  | Text t => VStr t
  | _ => VNone
  end.

(** The texts of the menu buttons [handle_message] recognises. *)
Definition menu_commands : list text :=
  [u "📋 Положение об игре"; u "📖 Инструкция по прохождению";
   u "📤 Отправить задание на проверку"; u "🏦 Банк заданий";
   u "📊 Мой результат"; u "👤 Изменить профиль";
   u "🌿 О Движении друзей заповедных островов"; u "🏠 Главное меню";
   u "✏️ Изменить имя"; u "✏️ Изменить фамилию";
   u "🆘 Обращение в поддержку"].

(** The end of the [try] block of [handle_message]: the message saved
    at the beginning is marked processed. *)
Definition mark_temporary_message (temp_msg_id : option Z) : M (option Z) :=
  match temp_msg_id with
  | Some id =>
    if id =? 0 then mret None
    else execute (mark_offline_message_processed id);; mret None
  | None => mret None
  end.

(** The last [else] of [handle_message]: the text is no menu command.  It
    is saved as an unknown command; when it is longer than ten characters
    it is also saved as a potential report and answered with the warning
    that it was not accepted.  [len(text)] fails on a message without
    text, and the [except] branch answers. *)
Definition handle_unknown_text (e : env) (upd : update)
    (temp_msg_id : option Z) : M (option Z) :=
  let user_id := user_id upd in
  execute (save_offline_message (clock e) user_id
    (JsonDumps
       (<["context" := JScalar (VStr (u "unknown_command"))]>
       (<["date" := JScalar (VStr (date upd))]>
       {["text" := JScalar (text_cell upd)]})))
    "text_unknown");;
  match message upd with
  | Text t =>
    (if 10 <? len t then
       execute (save_offline_message (clock e) user_id
         (JsonDumps
            (<["context" := JScalar (VStr (u "potential_report_out_of_context"))]>
            (<["date" := JScalar (VStr (date upd))]>
            (<["type" := JScalar (VStr (u "text"))]>
            (<["content" := JScalar (VStr t)]>
            {["user_id" := JScalar (VInt user_id)]})))))
         "potential_report");;
       reply_text not_accepted_warning_text true
         (Some Keyboards.out_of_context_actions)
     else
       reply_text unknown_command_text true
         (Some Keyboards.out_of_context_actions));;
    mark_temporary_message temp_msg_id
  | _ =>
    reply_text message_failed_text false (Some Keyboards.main_menu);;
    mret None
  end.

(** The chain of comparisons of [handle_message] with the menu buttons.
    The screens are taken not to raise. *)
Definition handle_menu_command (e : env) (upd : update)
    (temp_msg_id : option Z) : M (option Z) :=
  let clear := execute (clear_user_state (clock e) (user_id upd)) in
  let done := mark_temporary_message temp_msg_id in
  let text := text_cell upd in
  if decide (text = VStr (u "📋 Положение об игре")) then
    clear;; show GameRules;; done
  else if decide (text = VStr (u "📖 Инструкция по прохождению")) then
    clear;; show Instructions;; done
  else if decide (text = VStr (u "📤 Отправить задание на проверку")) then
    clear;; show TaskSubmissionList;; done
  else if decide (text = VStr (u "🏦 Банк заданий")) then
    clear;; show TasksBank;; done
  else if decide (text = VStr (u "📊 Мой результат")) then
    clear;; show UserResults;; done
  else if decide (text = VStr (u "👤 Изменить профиль")) then
    clear;; show ProfileEdit;; done
  else if decide (text = VStr (u "🌿 О Движении друзей заповедных островов")) then
    clear;; show AboutMovement;; done
  else if decide (text = VStr (u "🏠 Главное меню")) then
    clear;; _send_main_menu e upd;; done
  else if decide (text = VStr (u "✏️ Изменить имя")) then
    _start_edit_first_name e upd;; done
  else if decide (text = VStr (u "✏️ Изменить фамилию")) then
    _start_edit_last_name e upd;; done
  else if decide (text = VStr (u "🆘 Обращение в поддержку")) then
    clear;; show SupportInfo;; done
  else
    handle_unknown_text e upd temp_msg_id.

(** [handle_message]: the last handler for a text message. *)
Definition handle_message (e : env) (upd : update) : M (option Z) :=
  let user_id := user_id upd in
  registered ← query (is_user_registered user_id);
  if negb registered then
    execute (save_offline_message (clock e) user_id
      (JsonDumps
         (<["context" := JScalar (VStr (u "unregistered_user"))]>
         (<["date" := JScalar (VStr (date upd))]>
         {["text" := JScalar (text_cell upd)]})))
      "text_unregistered");;
    reply_text
      (register_first_text
         (u "💾 Ваше сообщение сохранено и будет обработано после регистрации."))
      false (Some Keyboards.main_menu);;
    mret None
  else
    execute (save_offline_message (clock e) user_id
      (JsonDumps
         (<["context" := JScalar (VStr (u "main_menu"))]>
         (<["date" := JScalar (VStr (date upd))]>
         {["text" := JScalar (text_cell upd)]})))
      "text_processing");;
    temp_messages ← query (get_offline_messages user_id);
    let temp_msg_id :=
      match last temp_messages with
      | Some m => Some m.1.1.1
      | None => None
      end in
    saved ← query (get_user_state user_id);
    let saved_state := saved.1 in
    let saved_context := saved.2 in
    if saved_state =? EDIT_FIRST_NAME then
      restore_context saved_context;;
      r ← handle_edit_first_name e upd; mret (Some r)
    else if saved_state =? EDIT_LAST_NAME then
      restore_context saved_context;;
      r ← handle_edit_last_name e upd; mret (Some r)
    else if saved_state =? TASK_SUBMISSION then
      restore_context saved_context;;
      r ← handle_task_submission_content e upd; mret (Some r)
    else
      handle_menu_command e upd temp_msg_id.

Definition photo_received_text : text :=
  u "📸 **Фото получено!**" ++ nl2 ++
  u "Ваше фото сохранено и будет обработано администратором. " ++
  u "Если это отчет по заданию, используйте кнопку 'Отправить отчет' из главного меню.".

Definition video_received_text : text :=
  u "🎥 **Видео получено!**" ++ nl2 ++
  u "Ваше видео сохранено и будет обработано администратором. " ++
  u "Если это отчет по заданию, используйте кнопку 'Отправить отчет' из главного меню.".

Definition document_received_text : text :=
  u "📄 **Документ получен!**" ++ nl2 ++
  u "Ваш документ сохранен и будет обработан администратором. " ++
  u "Если это отчет по заданию, используйте кнопку 'Отправить отчет' из главного меню.".

(** The body the three attachment handlers share: refuse an unregistered
    sender, hand over to the submission step when the user is in it, and
    file the attachment as a potential report otherwise. *)
Definition handle_attachment (e : env) (upd : update) (saved_note : text)
    (payload : gmap string jval) (received_text : text) : M (option Z) :=
  let user_id := user_id upd in
  registered ← query (is_user_registered user_id);
  if negb registered then
    reply_text (register_first_text saved_note) false (Some Keyboards.main_menu);;
    mret None
  else
    saved ← query (get_user_state user_id);
    if saved.1 =? TASK_SUBMISSION then
      restore_context saved.2;;
      r ← handle_task_submission_content e upd; mret (Some r)
    else
      execute (save_offline_message (clock e) user_id (JsonDumps payload)
                 "potential_report");;
      reply_text received_text false (Some Keyboards.main_menu);;
      mret None.

(** The payload of a potential report made from an attachment. *)
Definition attachment_payload (e : env) (upd : update) (kind : text)
    (content file_id : text) : gmap string jval :=
  <["context" := JScalar (VStr (u "potential_report_out_of_context"))]>
  (<["date" := JScalar (VStr (date upd))]>
  (<["file_path" := JScalar (option_cell (download e))]>
  (<["file_id" := JScalar (VStr file_id)]>
  (<["type" := JScalar (VStr kind)]>
  (<["content" := JScalar (VStr content)]>
  {["user_id" := JScalar (VInt (user_id upd))]}))))).

(** [handle_photo_message] *)
Definition handle_photo_message (e : env) (upd : update) : M (option Z) :=
  match message upd with
  | Media (Photo file_id) caption =>
    handle_attachment e upd
      (u "💾 Ваше фото сохранено и будет обработано после регистрации.")
      (attachment_payload e upd (u "photo")
         (caption_or caption (u "Фото без подписи")) file_id)
      photo_received_text
  | _ => raise IndexError
  end.

(** [handle_video_message] *)
Definition handle_video_message (e : env) (upd : update) : M (option Z) :=
  match message upd with
  | Media (Video file_id) caption =>
    handle_attachment e upd
      (u "💾 Ваше видео сохранено и будет обработано после регистрации.")
      (attachment_payload e upd (u "video")
         (caption_or caption (u "Видео без подписи")) file_id)
      video_received_text
  | _ => raise AttributeError
  end.

(** [handle_document_message] *)
Definition handle_document_message (e : env) (upd : update) : M (option Z) :=
  match message upd with
  | Media (Document file_id file_name) caption =>
    handle_attachment e upd
      (u "💾 Ваш документ сохранен и будет обработан после регистрации.")
      (<["filename" := JScalar file_name]>
       (attachment_payload e upd (u "document")
          (caption_or caption (u "Документ: " ++ str file_name)) file_id))
      document_received_text
  | _ => raise AttributeError
  end.

(** *** The steps and their prompts *)

(** The prompt [_continue_from_state] words for a saved step, given the
    working memory; [None] for a state it does not resume. *)
Definition resume_prompt (state : Z) (d : gmap string pyval) : option sent :=
  if state =? REGISTRATION_LAST_NAME then
    Some (Reply last_name_prompt true None)
  else if state =? REGISTRATION_FIRST_NAME then
    Some (Reply (first_name_prompt (get_default d "last_name" (VStr []))) true
            None)
  else if state =? PARTICIPATION_TYPE then
    Some (Reply (participation_prompt (get_default d "first_name" (VStr []))
                   (get_default d "last_name" (VStr [])))
            true (Some Keyboards.participation_type))
  else if state =? FAMILY_MEMBERS_COUNT then
    Some (Reply family_count_prompt true (Some Keyboards.back_to_menu))
  else if state =? CHILDREN_INFO then
    Some (Reply (children_prompt (get_default d "family_members_count" (VInt 1)))
            false None)
  else if state =? EDIT_FIRST_NAME then
    Some (Reply edit_first_name_prompt true (Some Keyboards.back_to_menu))
  else if state =? EDIT_LAST_NAME then
    Some (Reply edit_last_name_prompt true (Some Keyboards.back_to_menu))
  else None.

(** The steps that validate their input. *)
Inductive step : Type :=
  | LastNameStep
  | FirstNameStep
  | ParticipationStep
  | FamilyCountStep
  | EditFirstNameStep
  | EditLastNameStep
  | TaskSubmissionStep.

Definition step_state (s : step) : Z :=
  match s with
  | LastNameStep => REGISTRATION_LAST_NAME
  | FirstNameStep => REGISTRATION_FIRST_NAME
  | ParticipationStep => PARTICIPATION_TYPE
  | FamilyCountStep => FAMILY_MEMBERS_COUNT
  | EditFirstNameStep => EDIT_FIRST_NAME
  | EditLastNameStep => EDIT_LAST_NAME
  | TaskSubmissionStep => TASK_SUBMISSION
  end.

Definition step_handler (s : step) : env -> update -> M Z :=
  match s with
  | LastNameStep => registration_last_name
  | FirstNameStep => registration_first_name
  | ParticipationStep => participation_type
  | FamilyCountStep => family_members_count
  | EditFirstNameStep => handle_edit_first_name
  | EditLastNameStep => handle_edit_last_name
  | TaskSubmissionStep => handle_task_submission_content
  end.

(** The condition under which the handler of a step takes its branch for
    invalid input. *)
Definition rejected (s : step) (m : content) : bool :=
  match s, m with
  | LastNameStep, Text t => name_rejected (strip t)
  | FirstNameStep, Text t => name_rejected (strip t)
  | ParticipationStep, Text t =>
    negb (bool_decide (t = individually_button))
    && negb (bool_decide (t = family_button))
  | FamilyCountStep, Text t =>
    match family_count (strip t) with None => true | Some _ => false end
  | EditFirstNameStep, Text t =>
    negb (bool_decide (t = main_menu_button)) && name_rejected (strip t)
  | EditLastNameStep, Text t =>
    negb (bool_decide (t = main_menu_button)) && name_rejected (strip t)
  | TaskSubmissionStep, m =>
    match report_of m with None => true | Some _ => false end
  | _, _ => false
  end.

(** The replies a step gives to invalid input. *)
Definition corrections (s : step) : list sent :=
  match s with
  | LastNameStep => [Reply last_name_error_text false None]
  | FirstNameStep => [Reply first_name_error_text false None]
  | ParticipationStep =>
    [Reply participation_error_text false (Some Keyboards.participation_type)]
  | FamilyCountStep => [Reply family_count_error_text false None]
  | EditFirstNameStep =>
    [Reply edit_first_name_error_text false (Some Keyboards.back_to_menu)]
  | EditLastNameStep =>
    [Reply edit_last_name_error_text false (Some Keyboards.back_to_menu)]
  | TaskSubmissionStep =>
    [Reply unsupported_content_text false (Some Keyboards.main_menu);
     Reply choose_task_first_text false (Some Keyboards.main_menu)]
  end.

(** The counter of invalid attempts in the working memory is absent or a
    number, as the handlers leave it. *)
Definition attempts_counted (d : gmap string pyval) : Prop :=
  match d !! "invalid_attempts" with
  | None | Some (VInt _) | Some (VBool _) => True
  | Some _ => False
  end.


(** *** Choosing a task and pressing an inline button *)

(** The open tasks the user already reported on, as
    [_send_task_submission] finds them: for every submission of the
    user, the first open task that bears the title of the submission. *)
Definition submitted_task_ids (open_tasks : list Keyboards.task_row)
    (user_submissions : gmap Z (text * timestamp * string * bool))
    : gset Z :=
  list_to_set
    (omap (fun submission : text * timestamp * string * bool =>
             (fun found : nat * Keyboards.task_row => found.2.1.1.1)
             <$> list_find (fun task : Keyboards.task_row =>
                              task.1.1.2 = submission.1.1.1)
                   open_tasks)
          (map_to_list user_submissions).*2).

(** [available_tasks]: the open tasks without those. *)
Definition available_tasks (open_tasks : list Keyboards.task_row)
    (user_submissions : gmap Z (text * timestamp * string * bool))
    : list Keyboards.task_row :=
  filter (fun task : Keyboards.task_row =>
            task.1.1.1 ∉ submitted_task_ids open_tasks user_submissions)
         open_tasks.

Definition all_submitted_text (open_tasks : Z) : text :=
  u "📤 **Отправка отчетов**" ++ nl2 ++
  u "🟢 Всего открытых заданий: " ++ int_text open_tasks ++ nl ++
  u "✅ Вы уже отправили отчеты по всем доступным заданиям!" ++ nl2 ++
  (if open_tasks =? 0 then
     u "🚫 На данный момент нет доступных заданий для отправки." ++ nl ++
     u "Задания публикуются по понедельникам и четвергам в 11:00 МСК."
   else
     u "🎉 Отличная работа! Проверьте раздел 'Мой результат' для отслеживания статуса проверки." ++ nl2 ++
     u "Новые задания публикуются по понедельникам и четвергам в 11:00 МСК.").

Definition choose_task_text (open_tasks available submitted : Z) : text :=
  u "📤 **Отправка отчетов**" ++ nl2 ++
  u "🟢 Всего открытых заданий: " ++ int_text open_tasks ++ nl ++
  u "📝 Доступно для отправки: " ++ int_text available ++ nl ++
  u "✅ Уже отправлено: " ++ int_text submitted ++ nl2 ++
  u "**Выберите задание для отправки отчета:**".

Section TaskSubmissionList.

Variable later_text : datetime -> datetime -> bool.

(** [_send_task_submission]: the text and the keyboard given to
    [reply_text], the reply keyboard of the main menu when no task is
    available and otherwise one inline button for every available task. *)
Definition _send_task_submission (e : env) (user_id : Z) (db : Database.t)
    : text * (Keyboards.t + Keyboards.inline) :=
  let open_tasks := get_open_tasks later_text (clock e) db in
  let user_submissions := get_user_submissions user_id db in
  let submitted := submitted_task_ids open_tasks user_submissions in
  let available := available_tasks open_tasks user_submissions in
  match available with
  | [] =>
    (all_submitted_text (Z.of_nat (length open_tasks)),
     inl Keyboards.main_menu)
  | _ =>
    (choose_task_text (Z.of_nat (length open_tasks))
       (Z.of_nat (length available)) (Z.of_nat (size submitted)),
     inr (((fun task => [Keyboards.submit_button 40 task]) <$> available)
          ++ [[Keyboards.main_menu_inline]]))
  end.

End TaskSubmissionList.

(** The screens the other inline buttons lead to, rendered outside the
    model. *)
Inductive callback_screen : Type :=
  | MainMenuCallback
  | TasksBankCallback
  | TaskSubmissionCallback
  | SupportCallback
  | InstructionsCallback.

(** What [query.edit_message_text] is given. *)
Inductive edited : Type :=
  | EditText (text : text) (markdown : bool) (reply_markup : Keyboards.inline)
  | EditScreen (s : callback_screen).

Definition task_submission_started_text : text :=
  u "📤 **Отправка отчета**" ++ nl2 ++
  u "Отправьте ваш отчет одним из способов:" ++ nl ++
  u "• 🔗 Ссылка на пост в социальных сетях" ++ nl ++
  u "• 📸 Фотография" ++ nl ++
  u "• 🎥 Видео" ++ nl ++
  u "• 📄 Документ" ++ nl2 ++
  u "⏰ Напоминание: дедлайн - суббота 23:59 МСК".

(** [_start_task_submission]: remember the task in the working memory
    and save the submission step with the whole working memory. *)
Definition _start_task_submission (e : env) (user_id task_id : Z) : M edited :=
  d ← get_user_data;
  let d := <["selected_task_id" := VInt task_id]> d in
  set_user_data d;;
  execute (save_user_state (clock e) user_id TASK_SUBMISSION d);;
  mret (EditText task_submission_started_text true
          [[Keyboards.main_menu_inline]]).

(** [handle_callback]: the handler of the inline buttons.  [int] raising
    [ValueError] is caught by the [except] of the handler; the screens
    are taken not to raise. *)
Definition handle_callback (e : env) (user_id : Z) (data : text) : M edited :=
  registered ← query (is_user_registered user_id);
  if negb registered then
    mret (EditText
            (u "❌ Сначала необходимо завершить регистрацию. Отправьте команду /start")
            false [[Keyboards.main_menu_inline]])
  else if decide (data = u "main_menu") then
    mret (EditScreen MainMenuCallback)
  else if decide (data = u "tasks_bank") then
    mret (EditScreen TasksBankCallback)
  else if startswith (u "submit_task_") data then
    match int (split_last 95 [] data) with
    | Some task_id => _start_task_submission e user_id task_id
    | None =>
      mret (EditText (u "⚠️ Произошла ошибка при обработке запроса.") false
              [[Keyboards.main_menu_inline]])
    end
  else if decide (data = u "submit_tasks") then
    mret (EditScreen TaskSubmissionCallback)
  else if decide (data = u "support") then
    mret (EditScreen SupportCallback)
  else if decide (data = u "instructions") then
    mret (EditScreen InstructionsCallback)
  else
    mret (EditText (u "❓ Неизвестная команда. Возвращаемся в главное меню.")
            false [[Keyboards.main_menu_inline]]).

(** The handler that [main] registers for each kind of attachment. *)
Definition attachment_handler (a : attachment)
    : env -> update -> M (option Z) :=
  match a with
  | Photo _ => handle_photo_message
  | Video _ => handle_video_message
  | Document _ _ => handle_document_message
  end.

End EcoBot.

(** ** Every write on the store *)

Module Operations.
Import Py.
Import Database.

(** One constructor for each statement or transaction of the source that
    writes to the store. *)
Inductive operation : Type :=
  | SaveUserState (clock user_id state : Z) (context_data : gmap string pyval)
  | ClearUserState (clock user_id : Z)
  | SaveOfflineMessage (clock user_id : Z) (data : message_data)
      (message_type : string)
  | MarkOfflineMessageProcessed (message_id : Z)
  | AddUser (clock user_id : Z) (username telegram_first_name
      telegram_last_name : option text)
  | UpdateUserRegistration (user_id : Z) (first_name last_name
      participation_type family_members_count children_info : pyval)
  | UpdateUserName (user_id : Z) (first_name last_name : pyval)
  | AddTask (clock : Z) (title : text) (description link : option text)
      (week_number : option Z) (deadline : option datetime) (is_open : bool)
      (open_date : option datetime)
  | SubmitTask (clock user_id task_id : Z) (submission_type content file_id
      file_path : pyval)
  | AddSupportRequest (clock user_id : Z) (message : text)
  | MarkPotentialReportAsSubmission (clock message_id task_id : Z)
      (admin_notes : option text)
  | ApproveReport (submission_id : Z)
  | RejectReport (submission_id : Z)
  | UpdateTitle (task_id : Z) (new_title : text)
  | UpdateDescription (task_id : Z) (new_description : option text)
  | UpdateLink (task_id : Z) (new_link : option text)
  | ToggleTaskStatus (task_id : Z)
  | CloseTask (task_id : Z)
  | UpdateOpenDate (task_id : Z) (new_open_date : datetime) (is_open : bool)
  | ConfirmDeleteTask (task_id : Z)
  | HandleEditDeadline (clock : Z) (is_admin : bool)
      (editing_task_id : option Z) (input : AdminBot.deadline_input)
  | MarkPotentialProcessed (report_id : Z)
  | DeletePotentialReport (report_id : Z)
  | PerformLogCleanup (clock : Z) (vacuum_fails : bool)
  | AssignPotentialToTask (clock report_id task_id : Z).

Section Apply.

Variable json_loads_text : text -> option json_doc.

(** The store after an operation; an operation that raises leaves it as
    it was. *)
Definition apply (op : operation) (db : t) : t :=
  match op with
  | SaveUserState clock user_id state context_data =>
    save_user_state clock user_id state context_data db
  | ClearUserState clock user_id => clear_user_state clock user_id db
  | SaveOfflineMessage clock user_id data message_type =>
    save_offline_message clock user_id data message_type db
  | MarkOfflineMessageProcessed message_id =>
    mark_offline_message_processed message_id db
  | AddUser clock user_id username first last =>
    add_user clock user_id username first last db
  | UpdateUserRegistration user_id first last participation count children =>
    update_user_registration user_id first last participation count children db
  | UpdateUserName user_id first last => update_user_name user_id first last db
  | AddTask clock title description link week deadline is_open open_date =>
    add_task clock title description link week deadline is_open open_date db
  | SubmitTask clock user_id task_id submission_type content file_id file_path =>
    match submit_task clock user_id task_id submission_type content file_id
            file_path db with
    | Ok (_, db') => db'
    | Raise _ => db
    end
  | AddSupportRequest clock user_id message =>
    add_support_request clock user_id message db
  | MarkPotentialReportAsSubmission clock message_id task_id admin_notes =>
    match mark_potential_report_as_submission json_loads_text clock message_id
            task_id admin_notes db with
    | Ok (_, db') => db'
    | Raise _ => db
    end
  | ApproveReport submission_id => AdminBot._approve_report submission_id db
  | RejectReport submission_id => AdminBot._reject_report submission_id db
  | UpdateTitle task_id new_title => AdminBot.update_title task_id new_title db
  | UpdateDescription task_id new_description =>
    AdminBot.update_description task_id new_description db
  | UpdateLink task_id new_link => AdminBot.update_link task_id new_link db
  | ToggleTaskStatus task_id => AdminBot._toggle_task_status task_id db
  | CloseTask task_id => AdminBot.close_task task_id db
  | UpdateOpenDate task_id new_open_date is_open =>
    AdminBot.update_open_date task_id new_open_date is_open db
  | ConfirmDeleteTask task_id => AdminBot._confirm_delete_task task_id db
  | HandleEditDeadline clock is_admin editing_task_id input =>
    match AdminBot.handle_edit_deadline clock is_admin editing_task_id input db
    with
    | Ok (_, db') => db'
    | Raise _ => db
    end
  | MarkPotentialProcessed report_id =>
    AdminBot._mark_potential_processed report_id db
  | DeletePotentialReport report_id =>
    AdminBot._delete_potential_report report_id db
  | PerformLogCleanup clock vacuum_fails =>
    AdminBot._perform_log_cleanup clock vacuum_fails db
  | AssignPotentialToTask clock report_id task_id =>
    (AdminBot._assign_potential_to_task json_loads_text clock report_id task_id
       db).2
  end.

(** A history of operations, oldest first. *)
Definition apply_all (ops : list operation) (db : t) : t :=
  foldl (fun db op => apply op db) db ops.

End Apply.

(** The invariant SQLite keeps for an AUTOINCREMENT table: no row id
    exceeds the recorded sequence. *)
Definition submissions_sequence_ok (db : t) : Prop :=
  largest_rowid (submissions db) ≤ submissions_seq db.

(** [db'] is a later store than [db] in which every submission that
    carries a row id of [db] was already there with the same on-time
    flag. *)
Definition keeps_flags (db db' : t) : Prop :=
  submissions_seq db ≤ submissions_seq db'
  ∧ submissions_sequence_ok db'
  ∧ ∀ id s', id ≤ submissions_seq db → submissions db' !! id = Some s' →
      ∃ s, submissions db !! id = Some s
           ∧ Submission.is_on_time s' = Submission.is_on_time s.

End Operations.

(** ** Concrete stores and messages *)

Module Examples.
Import Py.
Import Database.
Import EcoBot.

(** No text but the output of [json.dumps] is JSON. *)
Definition no_json : text -> option json_doc := fun _ => None.

(** 4 November 2026, 12:00 in Moscow. *)
Definition env0 : env :=
  {| clock := 1793782800000000;
     now_iso := u "2026-11-04T12:00:00.000000";
     download := Some (u "photos/user5_potential_20261104_120000.jpg") |}.

(** Task 7, due on 7 November 2026 at 23:59 in Moscow. *)
Definition task7 : Task.t :=
  {| Task.title := u "Экологическое наблюдение";
     Task.description := None;
     Task.link := None;
     Task.is_open := true;
     Task.week_number := None;
     Task.deadline :=
       Some {| instant := 1794085140000000; utcoffset := Some 180 |};
     Task.created_date := 1793700000;
     Task.open_date := None |}.

(** A registered participant, user 5. *)
Definition user5 : User.t :=
  {| User.username := Some (u "anna");
     User.telegram_first_name := Some (u "Anna");
     User.telegram_last_name := None;
     User.first_name := VStr (u "Анна");
     User.last_name := VStr (u "Иванова");
     User.participation_type := VStr (u "individual");
     User.family_members_count := VInt 1;
     User.children_info := VNone;
     User.registration_completed := true;
     User.registration_date := 1793000000 |}.

(** User 6 has started the registration and not finished it. *)
Definition user6 : User.t :=
  new_user 1793700000000000 (Some (u "petr")) (Some (u "Petr")) None.

(** Inbox entry 42: a text sent outside the submission flow. *)
Definition entry42 : OfflineMessage.t :=
  {| OfflineMessage.user_id := 5;
     OfflineMessage.data :=
       JsonDumps
         (<["context" := JScalar (VStr (u "potential_report_out_of_context"))]>
         (<["date" := JScalar (VStr (u "2026-11-03T09:30:00+00:00"))]>
         (<["type" := JScalar (VStr (u "text"))]>
         (<["content" := JScalar (VStr (u "Planted 3 trees today"))]>
         {["user_id" := JScalar (VInt 5)]}))));
     OfflineMessage.message_type := "potential_report";
     OfflineMessage.received_date := 1793698200;
     OfflineMessage.processed := false |}.

(** On-time submission 1 of user 5 for task 7. *)
Definition submission1 : Submission.t :=
  {| Submission.user_id := 5;
     Submission.task_id := 7;
     Submission.submission_date := CurrentTimestamp 1793750000;
     Submission.submission_type := VStr (u "text");
     Submission.content := VStr (u "https://example.com/post");
     Submission.file_id := VNone;
     Submission.file_path := VNone;
     Submission.status := "pending";
     Submission.is_on_time := true |}.

(** Users 5 and 6, task 7, entry 42, no submission. *)
Definition db0 : Database.t :=
  {| users := <[6 := user6]> {[5 := user5]};
     user_states := ∅;
     tasks := {[7 := task7]}; tasks_seq := 7;
     submissions := ∅; submissions_seq := 0;
     support_requests := ∅; support_requests_seq := 0;
     offline_messages := {[42 := entry42]}; offline_messages_seq := 42 |}.

(** [db0] with submission 1. *)
Definition db1 : Database.t :=
  {| users := users db0; user_states := ∅;
     tasks := tasks db0; tasks_seq := 7;
     submissions := {[1 := submission1]}; submissions_seq := 1;
     support_requests := ∅; support_requests_seq := 0;
     offline_messages := offline_messages db0; offline_messages_seq := 42 |}.

(** [db0] after task 7 was deleted. *)
Definition db_without_task : Database.t :=
  {| users := users db0; user_states := ∅;
     tasks := ∅; tasks_seq := 7;
     submissions := ∅; submissions_seq := 0;
     support_requests := ∅; support_requests_seq := 0;
     offline_messages := offline_messages db0; offline_messages_seq := 42 |}.

(** A later history of [db1]: the deadline of task 7 is removed, the
    submission is approved and then rejected. *)
Definition history1 : list Operations.operation :=
  [Operations.HandleEditDeadline 1793782800000000 true (Some 7)
     AdminBot.InputNoDeadline;
   Operations.ApproveReport 1;
   Operations.RejectReport 1].

(** User 6 stopped at the first-name step, the last name already given. *)
Definition context6 : gmap string pyval :=
  <["timestamp" := VStr (u "2026-11-03T10:00:00+00:00")]>
  (<["last_name_confirmed" := VBool true]>
  {["last_name" := VStr (u "Петров")]}).

(** User 5 chose task 7 and has not sent the report yet. *)
Definition context5 : gmap string pyval := {["selected_task_id" := VInt 7]}.

(** [db0] with the saved conversation states of users 5 and 6. *)
Definition db_states : Database.t :=
  {| users := users db0;
     user_states :=
       <[6 := {| UserState.current_state := REGISTRATION_FIRST_NAME;
                 UserState.context_data := context6;
                 UserState.last_updated := 1793700000 |}]>
       {[5 := {| UserState.current_state := TASK_SUBMISSION;
                 UserState.context_data := context5;
                 UserState.last_updated := 1793700000 |}]};
     tasks := tasks db0; tasks_seq := 7;
     submissions := ∅; submissions_seq := 0;
     support_requests := ∅; support_requests_seq := 0;
     offline_messages := offline_messages db0; offline_messages_seq := 42 |}.

(** The process right after a start: nothing in memory, nothing sent. *)
Definition fresh (db : Database.t) : state :=
  {| store := db; user_data := ∅; outbox := [] |}.

Definition update5 (m : content) : update :=
  {| user_id := 5; username := Some (u "anna"); first_name := Some (u "Anna");
     last_name := None; message := m;
     date := u "2026-11-04T09:00:00+00:00" |}.

Definition update6 (m : content) : update :=
  {| user_id := 6; username := Some (u "petr"); first_name := Some (u "Petr");
     last_name := None; message := m;
     date := u "2026-11-04T09:00:00+00:00" |}.

(** A text of ten characters and one of eleven. *)
Definition ten_characters : text := u "0123456789".
Definition eleven_characters : text := u "Посадил дуб".


(** A stand-in for the comparison SQLite makes between two ISO texts:
    the later instant is the greater. *)
Definition by_instant (a b : datetime) : bool := instant b <? instant a.

(** A user the store has not seen. *)
Definition update9 (m : content) : update :=
  {| user_id := 9; username := None; first_name := Some (u "Olga");
     last_name := None; message := m;
     date := u "2026-11-04T09:00:00+00:00" |}.

(** [db_states] with a deadline of task 7 that carries no time zone. *)
Definition task7_naive : Task.t :=
  {| Task.title := u "Экологическое наблюдение";
     Task.description := None;
     Task.link := None;
     Task.is_open := true;
     Task.week_number := None;
     Task.deadline := Some {| instant := 1794095940000000; utcoffset := None |};
     Task.created_date := 1793700000;
     Task.open_date := None |}.

Definition db_naive : Database.t :=
  {| users := users db0;
     user_states := user_states db_states;
     tasks := {[7 := task7_naive]}; tasks_seq := 7;
     submissions := ∅; submissions_seq := 0;
     support_requests := ∅; support_requests_seq := 0;
     offline_messages := offline_messages db0; offline_messages_seq := 42 |}.

End Examples.

(** * Properties *)

Import Py.
Import Database.

(** ** Row ids *)

Section RowIds.
Context {A : Type}.
Implicit Types m : gmap Z A.

Lemma foldr_max_ge (l : list Z) (k : Z) : k ∈ l → k ≤ foldr Z.max 0 l.
Proof.
  induction l as [|x l IH]; intros Hk.
  - by apply elem_of_nil in Hk.
  - apply elem_of_cons in Hk as [->|Hk]; simpl; [lia|].
    specialize (IH Hk). lia.
Qed.

Lemma largest_rowid_ge m k v : m !! k = Some v → k ≤ largest_rowid m.
Proof.
  intros Hk. apply foldr_max_ge.
  apply list_elem_of_fmap. exists (k, v). split; [done|].
  by apply elem_of_map_to_list.
Qed.

Lemma next_rowid_above m seq k v : m !! k = Some v → k < next_rowid seq m.
Proof. intros Hk%largest_rowid_ge. unfold next_rowid. lia. Qed.

Lemma next_rowid_fresh m seq : m !! next_rowid seq m = None.
Proof.
  destruct (m !! next_rowid seq m) eqn:Hk; [|done].
  apply (next_rowid_above _ seq) in Hk. lia.
Qed.

Lemma next_rowid_seq m seq : seq < next_rowid seq m.
Proof. unfold next_rowid. lia. Qed.

End RowIds.

(** ** The deadline evaluator *)

Lemma datetime_le_true a b :
  datetime_le a b = Ok true ↔ comparable a b ∧ instant a ≤ instant b.
Proof.
  unfold datetime_le, comparable.
  destruct (utcoffset a) as [oa|], (utcoffset b) as [ob|]; split.
  - intros [= H%Z.leb_le]. split; [split; eauto | done].
  - intros [_ H%Z.leb_le]. by rewrite H.
  - discriminate.
  - intros [[H _] _]. destruct H as [? [=]]; eauto.
  - discriminate.
  - intros [[_ H] _]. destruct H as [? [=]]; eauto.
  - intros [= H%Z.leb_le]. split; [|done].
    split; intros [? [=]].
  - intros [_ H%Z.leb_le]. by rewrite H.
Qed.

Lemma datetime_le_false a b :
  datetime_le a b = Ok false ↔ comparable a b ∧ instant b < instant a.
Proof.
  unfold datetime_le, comparable.
  destruct (utcoffset a) as [oa|], (utcoffset b) as [ob|]; split.
  - intros [= H%Z.leb_gt]. split; [split; eauto | done].
  - intros [_ H%Z.leb_gt]. by rewrite H.
  - discriminate.
  - intros [[H _] _]. destruct H as [? [=]]; eauto.
  - discriminate.
  - intros [[_ H] _]. destruct H as [? [=]]; eauto.
  - intros [= H%Z.leb_gt]. split; [|done].
    split; intros [? [=]].
  - intros [_ H%Z.leb_gt]. by rewrite H.
Qed.

(** C2.  The evaluator answers "on time" exactly when no deadline is
    stored for the task or the submission instant is at or before the
    deadline, and "late" exactly when a deadline is stored and the
    submission instant is after it.  In particular the deadline instant
    itself is on time, one microsecond later is late, and a task without
    a deadline is always on time. *)
Theorem deadline_evaluator_inclusive (task_id : Z) (t : datetime)
    (db : Database.t) :
  (_check_submission_deadline task_id t db = Ok true ↔
     stored_deadline task_id db = None
     ∨ ∃ d, stored_deadline task_id db = Some d ∧ comparable t d
            ∧ instant t ≤ instant d)
  ∧ (_check_submission_deadline task_id t db = Ok false ↔
     ∃ d, stored_deadline task_id db = Some d ∧ comparable t d
          ∧ instant d < instant t)
  ∧ (∀ d off, stored_deadline task_id db = Some d →
       utcoffset d = Some off → utcoffset t = Some off →
       (instant t = instant d →
          _check_submission_deadline task_id t db = Ok true)
       ∧ (instant t = instant d + 1 →
          _check_submission_deadline task_id t db = Ok false)).
Proof.
  unfold _check_submission_deadline, stored_deadline.
  destruct (tasks db !! task_id) as [task|] eqn:Htask; simpl.
  2: { split; [|split].
       - split; [by left | done].
       - split; [done | by intros (? & [=] & _)].
       - by intros ?? [=]. }
  destruct (Task.deadline task) as [deadline|] eqn:Hd; simpl.
  2: { split; [|split].
       - split; [by left | done].
       - split; [done | by intros (? & [=] & _)].
       - by intros ?? [=]. }
  split; [|split].
  - rewrite datetime_le_true. split.
    + intros [? ?]. right. by exists deadline.
    + intros [[=] | (d & [= <-] & ? & ?)]. done.
  - rewrite datetime_le_false. split.
    + intros [? ?]. by exists deadline.
    + intros (d & [= <-] & ? & ?). done.
  - intros d off [= <-] Hoff Ht. split; intros Hi.
    + apply datetime_le_true. split; [|lia].
      unfold comparable. rewrite Hoff, Ht. done.
    + apply datetime_le_false. split; [|lia].
      unfold comparable. rewrite Hoff, Ht. done.
Qed.

(** ** Deleting a task *)

(** C8.  After the delete transaction a submission is present exactly
    when it was present before and refers to another task; the task is
    gone and every other task, and every other table, is as before. *)
Theorem delete_task_cascade (task_id : Z) (db : Database.t) :
  let db' := AdminBot._confirm_delete_task task_id db in
  (∀ id s, submissions db' !! id = Some s ↔
           submissions db !! id = Some s ∧ Submission.task_id s ≠ task_id)
  ∧ tasks db' !! task_id = None
  ∧ (∀ other, other ≠ task_id → tasks db' !! other = tasks db !! other)
  ∧ users db' = users db
  ∧ user_states db' = user_states db
  ∧ offline_messages db' = offline_messages db.
Proof.
  simpl. split; [|split; [|split]].
  - intros id s. apply (map_lookup_filter_Some
      (fun r : Z * Submission.t => Submission.task_id r.2 ≠ task_id)).
  - apply lookup_delete_eq.
  - intros other Hne. by apply lookup_delete_ne.
  - done.
Qed.

(** ** The on-time flag of a submission *)

Import Operations.

Section RowIdBounds.
Context {A : Type}.
Implicit Types m : gmap Z A.

Lemma foldr_max_le (l : list Z) (b : Z) :
  0 ≤ b → (∀ k, k ∈ l → k ≤ b) → foldr Z.max 0 l ≤ b.
Proof.
  intros Hb. induction l as [|x l IH]; intros Hl; simpl; [done|].
  apply Z.max_lub.
  - apply Hl. by left.
  - apply IH. intros k Hk. apply Hl. by right.
Qed.

Lemma largest_rowid_le m (b : Z) :
  0 ≤ b → (∀ k v, m !! k = Some v → k ≤ b) → largest_rowid m ≤ b.
Proof.
  intros Hb Hm. apply foldr_max_le; [done|].
  intros k Hk. apply list_elem_of_fmap in Hk as ([k' v] & -> & Hkv).
  apply elem_of_map_to_list in Hkv. by eapply Hm.
Qed.

Lemma largest_rowid_nonneg m : 0 ≤ largest_rowid m.
Proof.
  unfold largest_rowid. induction ((map_to_list m).*1) as [|x l IH]; simpl; lia.
Qed.

End RowIdBounds.

Lemma largest_rowid_mono {A B} (m : gmap Z A) (m' : gmap Z B) :
  (∀ k v', m' !! k = Some v' → is_Some (m !! k)) →
  largest_rowid m' ≤ largest_rowid m.
Proof.
  intros Hsub. apply largest_rowid_le; [apply largest_rowid_nonneg|].
  intros k v' Hk. destruct (Hsub _ _ Hk) as [v Hv].
  by eapply largest_rowid_ge.
Qed.

Lemma keeps_flags_refl db : submissions_sequence_ok db → keeps_flags db db.
Proof. intros Hok. split; [lia|]. split; [done|]. eauto. Qed.

Lemma keeps_flags_trans db1 db2 db3 :
  keeps_flags db1 db2 → keeps_flags db2 db3 → keeps_flags db1 db3.
Proof.
  intros (Hle12 & _ & H12) (Hle23 & Hok & H23).
  split; [lia|]. split; [done|].
  intros id s3 Hid Hs3.
  destruct (H23 id s3) as (s2 & Hs2 & Heq23); [lia|done|].
  destruct (H12 id s2) as (s1 & Hs1 & Heq12); [done|done|].
  exists s1. split; [done|congruence].
Qed.

(** An operation that leaves the table [submissions] alone. *)
Lemma keeps_flags_same db db' :
  submissions db' = submissions db →
  submissions_seq db' = submissions_seq db →
  submissions_sequence_ok db → keeps_flags db db'.
Proof.
  intros Hs Hq Hok. unfold keeps_flags, submissions_sequence_ok.
  rewrite Hs, Hq. split; [lia|]. split; [done|]. eauto.
Qed.

(** An operation that inserts one submission. *)
Lemma keeps_flags_inserted db db' row :
  submissions db' = submissions (insert_submission row db) →
  submissions_seq db' = submissions_seq (insert_submission row db) →
  submissions_sequence_ok db → keeps_flags db db'.
Proof.
  intros Hs Hq Hok. unfold keeps_flags, submissions_sequence_ok in *.
  rewrite Hs, Hq. simpl.
  pose proof (next_rowid_seq (submissions db) (submissions_seq db)) as Hseq.
  split; [lia|]. split.
  - apply largest_rowid_le; [pose proof (largest_rowid_nonneg (submissions db)); lia|].
    intros k v Hk. apply lookup_insert_Some in Hk as [[<- _]|[_ Hk]]; [lia|].
    apply (next_rowid_above _ (submissions_seq db)) in Hk. lia.
  - intros id s' Hid Hs'. rewrite lookup_insert_ne in Hs' by lia. eauto.
Qed.

(** An operation that changes the status of a submission. *)
Lemma keeps_flags_status db status submission_id :
  submissions_sequence_ok db →
  keeps_flags db
    (set_submissions (alter (AdminBot.set_status status) submission_id) db).
Proof.
  intros Hok. unfold keeps_flags, submissions_sequence_ok in *. simpl.
  split; [lia|]. split.
  - etrans; [|exact Hok]. apply largest_rowid_mono.
    intros k v' Hk. apply lookup_alter_Some in Hk as [(_ & v & ? & _)|[_ ?]]; eauto.
  - intros id s' _ Hs'.
    apply lookup_alter_Some in Hs' as [(_ & s & Hs & ->)|[_ Hs]]; eauto.
Qed.

(** An operation that deletes submissions. *)
Lemma keeps_flags_filter db (P : Z * Submission.t → Prop)
    `{!∀ r, Decision (P r)} :
  submissions_sequence_ok db →
  keeps_flags db (set_submissions (filter P) db).
Proof.
  intros Hok. unfold keeps_flags, submissions_sequence_ok in *. simpl.
  split; [lia|]. split.
  - etrans; [|exact Hok]. apply largest_rowid_mono.
    intros k v' Hk. apply map_lookup_filter_Some in Hk as [? _]. eauto.
  - intros id s' _ Hs'. apply map_lookup_filter_Some in Hs' as [? _]. eauto.
Qed.

Lemma submit_task_keeps_flags clock user_id task_id ty content file_id
    file_path db b db' :
  submissions_sequence_ok db →
  submit_task clock user_id task_id ty content file_id file_path db
    = Ok (b, db') →
  keeps_flags db db'.
Proof.
  intros Hok. unfold submit_task.
  destruct (_check_submission_deadline _ _ _) as [flag|]; [|done].
  intros [= _ <-]. by eapply keeps_flags_inserted.
Qed.

Lemma promotion_keeps_flags json clock message_id task_id notes db b db' :
  submissions_sequence_ok db →
  mark_potential_report_as_submission json clock message_id task_id notes db
    = Ok (b, db') →
  keeps_flags db db'.
Proof.
  intros Hok. unfold mark_potential_report_as_submission.
  repeat case_match; intros [= <- <-]; subst;
    try (by apply keeps_flags_refl);
    by eapply keeps_flags_inserted.
Qed.

Lemma edit_deadline_keeps_submissions clock is_admin editing_task_id input db
    outcome db' :
  AdminBot.handle_edit_deadline clock is_admin editing_task_id input db
    = Ok (outcome, db') →
  submissions db' = submissions db ∧ submissions_seq db' = submissions_seq db.
Proof.
  unfold AdminBot.handle_edit_deadline.
  repeat case_match; intros [= <- <-]; done.
Qed.

Lemma apply_keeps_flags json op db :
  submissions_sequence_ok db → keeps_flags db (apply json op db).
Proof.
  intros Hok. destruct op; simpl;
    try (by apply keeps_flags_same);
    try (by apply keeps_flags_status).
  - unfold clear_user_state. case_match; by apply keeps_flags_same.
  - unfold add_user. case_match; by apply keeps_flags_same.
  - destruct (submit_task _ _ _ _ _ _ _ _) as [[b db']|] eqn:Hsubmit.
    + by eapply submit_task_keeps_flags.
    + by apply keeps_flags_refl.
  - destruct (mark_potential_report_as_submission _ _ _ _ _ _)
      as [[b db']|] eqn:Hpromote.
    + by eapply promotion_keeps_flags.
    + by apply keeps_flags_refl.
  - unfold AdminBot._toggle_task_status. case_match; by apply keeps_flags_same.
  - unfold AdminBot._confirm_delete_task.
    pose proof (keeps_flags_filter db
      (fun r : Z * Submission.t => Submission.task_id r.2 ≠ task_id) Hok)
      as Hdeleted.
    eapply keeps_flags_trans; [exact Hdeleted|].
    apply keeps_flags_same; [done|done|apply Hdeleted].
  - destruct (AdminBot.handle_edit_deadline _ _ _ _ _) as [[o db']|] eqn:Hedit.
    + apply edit_deadline_keeps_submissions in Hedit as [? ?].
      by apply keeps_flags_same.
    + by apply keeps_flags_refl.
  - unfold AdminBot._delete_potential_report.
    case_match; by apply keeps_flags_same.
  - unfold AdminBot._perform_log_cleanup.
    case_match; by apply keeps_flags_same.
  - unfold AdminBot._assign_potential_to_task.
    repeat case_match; simpl; subst;
      try (by apply keeps_flags_refl);
      by eapply keeps_flags_inserted.
Qed.

Lemma apply_all_keeps_flags json ops db :
  submissions_sequence_ok db → keeps_flags db (apply_all json ops db).
Proof.
  revert db. induction ops as [|op ops IH]; intros db Hok; simpl.
  - by apply keeps_flags_refl.
  - pose proof (apply_keeps_flags json op db Hok) as Hstep.
    eapply keeps_flags_trans; [exact Hstep|].
    apply IH. apply Hstep.
Qed.

(** C3.  The flag of a submission is the evaluator's answer at the time
    of the insert, and no history of later operations changes the flag of
    a submission that is still there; a change of a task's deadline does
    not touch the table [submissions] at all, and approving or rejecting
    changes the status only. *)
Theorem on_time_flag_fixed_at_creation (json : text → option json_doc)
    (db : Database.t) :
  submissions_sequence_ok db →
  (∀ clock user_id task_id ty content file_id file_path b db',
     submit_task clock user_id task_id ty content file_id file_path db
       = Ok (b, db') →
     _check_submission_deadline task_id (now_moscow clock) db = Ok b
     ∧ ∃ id s, submissions db !! id = None
               ∧ submissions db' !! id = Some s
               ∧ Submission.is_on_time s = b
               ∧ ∀ ops s', submissions (apply_all json ops db') !! id = Some s' →
                           Submission.is_on_time s' = b)
  ∧ (∀ ops id s s',
       submissions db !! id = Some s →
       submissions (apply_all json ops db) !! id = Some s' →
       Submission.is_on_time s' = Submission.is_on_time s)
  ∧ (∀ clock is_admin editing_task_id input,
       submissions (apply json
         (HandleEditDeadline clock is_admin editing_task_id input) db)
       = submissions db)
  ∧ (∀ submission_id id s,
       submissions db !! id = Some s →
       ∃ s1 s2,
         submissions (AdminBot._approve_report submission_id db) !! id = Some s1
         ∧ submissions (AdminBot._reject_report submission_id db) !! id = Some s2
         ∧ Submission.is_on_time s1 = Submission.is_on_time s
         ∧ Submission.is_on_time s2 = Submission.is_on_time s).
Proof.
  intros Hok.
  assert (Hhistory : ∀ db0 ops id s s',
    submissions_sequence_ok db0 →
    submissions db0 !! id = Some s →
    submissions (apply_all json ops db0) !! id = Some s' →
    Submission.is_on_time s' = Submission.is_on_time s).
  { intros db0 ops id s s' Hok0 Hs Hs'.
    destruct (apply_all_keeps_flags json ops db0 Hok0) as (_ & _ & Hkept).
    destruct (Hkept id s') as (s0 & Hs0 & Heq); [|done|congruence].
    etrans; [exact (largest_rowid_ge _ _ _ Hs) | exact Hok0]. }
  split; [|split; [|split]].
  - intros clock user_id task_id ty content file_id file_path b db' Hsubmit.
    pose proof (submit_task_keeps_flags _ _ _ _ _ _ _ _ _ _ Hok Hsubmit)
      as (_ & Hok' & _).
    unfold submit_task in Hsubmit.
    destruct (_check_submission_deadline _ _ _) as [flag|]; [|done].
    injection Hsubmit as <- <-. split; [done|].
    eexists _, _. split; [apply next_rowid_fresh|].
    split; [apply lookup_insert_eq|]. split; [done|].
    intros ops s' Hs'.
    by rewrite (Hhistory _ ops _ _ s' Hok' (lookup_insert_eq _ _ _) Hs').
  - intros ops id s s'. by apply Hhistory.
  - intros clock is_admin editing_task_id input. simpl.
    destruct (AdminBot.handle_edit_deadline _ _ _ _ _) as [[o db']|] eqn:Hedit;
      [|done].
    by apply edit_deadline_keeps_submissions in Hedit as [? _].
  - intros submission_id id s Hs. simpl.
    rewrite !lookup_alter.
    case_decide; subst; rewrite ?Hs; simpl; eexists _, _; by repeat split.
Qed.

Lemma on_time_flag_fixed_at_creation_witness :
  submissions_sequence_ok Examples.db1
  ∧ ∀ s', submissions
            (apply_all Examples.no_json Examples.history1 Examples.db1) !! 1
          = Some s' →
          Submission.is_on_time s' = true.
Proof.
  assert (Hok : submissions_sequence_ok Examples.db1) by (vm_compute; done).
  split; [exact Hok|].
  intros s' Hs'.
  destruct (on_time_flag_fixed_at_creation Examples.no_json Examples.db1 Hok)
    as (_ & Hhistory & _).
  apply (Hhistory Examples.history1 1 Examples.submission1 s'); [|exact Hs'].
  reflexivity.
Defined.

(** ** Promoting an inbox entry *)

(** Saving the moderator's note adds a new inbox row and leaves the entry
    being promoted in place. *)
Lemma promotion_lookup_entry clock user_id (notes : option text) message_id
    entry (db : Database.t) :
  offline_messages db !! message_id = Some entry →
  offline_messages
    (match notes with
     | Some (c :: s) =>
       save_offline_message clock user_id (RawText (c :: s)) "admin_note" db
     | _ => db
     end) !! message_id = Some entry.
Proof.
  intros Hentry. destruct notes as [[|c s]|]; try done. simpl.
  rewrite lookup_insert_ne; [done|].
  intros Heq. rewrite <- Heq, next_rowid_fresh in Hentry. done.
Qed.

Lemma promotion_submissions_notes clock user_id (notes : option text)
    (db : Database.t) :
  submissions
    (match notes with
     | Some (c :: s) =>
       save_offline_message clock user_id (RawText (c :: s)) "admin_note" db
     | _ => db
     end) = submissions db
  ∧ tasks
    (match notes with
     | Some (c :: s) =>
       save_offline_message clock user_id (RawText (c :: s)) "admin_note" db
     | _ => db
     end) = tasks db.
Proof. by destruct notes as [[|c s]|]. Qed.

(** C4, as the code has it.  For an existing entry whose payload is a
    JSON object with scalar fields, and a deadline check that answers
    [b], the promotion succeeds and adds exactly one submission under a
    new row id: it is built from the payload, approved, and flagged [b],
    the evaluator's answer for the task's deadline at the current time.
    The entry becomes processed, and the tasks stay as they are.  The
    entry's [processed] flag is not consulted, so nothing here depends on
    whether the entry was promoted before. *)
Theorem promotion_adds_one_submission (json : text → option json_doc)
    (clock message_id task_id : Z) (admin_notes : option text)
    (db : Database.t) (entry : OfflineMessage.t) (data : gmap string jval)
    (submission_type content file_id file_path : pyval) (b : bool) :
  offline_messages db !! message_id = Some entry →
  json_loads json (OfflineMessage.data entry) = Some (JDict data) →
  payload_get data "type" (VStr (u "text")) = JScalar submission_type →
  payload_get data "content" (VStr []) = JScalar content →
  payload_get data "file_id" VNone = JScalar file_id →
  payload_get data "file_path" VNone = JScalar file_path →
  _check_submission_deadline task_id (now_moscow clock) db = Ok b →
  ∃ db' id,
    mark_potential_report_as_submission json clock message_id task_id
      admin_notes db = Ok (true, db')
    ∧ submissions db !! id = None
    ∧ submissions db' =
        <[id := {| Submission.user_id := OfflineMessage.user_id entry;
                   Submission.task_id := task_id;
                   Submission.submission_date :=
                     CurrentTimestamp (current_timestamp clock);
                   Submission.submission_type := submission_type;
                   Submission.content := content;
                   Submission.file_id := file_id;
                   Submission.file_path := file_path;
                   Submission.status := "approved";
                   Submission.is_on_time := b |}]> (submissions db)
    ∧ size (submissions db') = S (size (submissions db))
    ∧ offline_messages db' !! message_id = Some (set_processed entry)
    ∧ tasks db' = tasks db.
Proof.
  intros Hentry Hjson Hty Hcontent Hfile_id Hfile_path Hcheck.
  unfold mark_potential_report_as_submission.
  rewrite Hentry, Hjson, Hty, Hcontent, Hfile_id, Hfile_path, Hcheck. simpl.
  eexists _, _. split; [reflexivity|].
  split; [apply next_rowid_fresh|].
  destruct (promotion_submissions_notes clock (OfflineMessage.user_id entry)
    admin_notes
    (set_offline_messages (alter set_processed message_id)
       (insert_submission
          {| Submission.user_id := OfflineMessage.user_id entry;
             Submission.task_id := task_id;
             Submission.submission_date :=
               CurrentTimestamp (current_timestamp clock);
             Submission.submission_type := submission_type;
             Submission.content := content;
             Submission.file_id := file_id;
             Submission.file_path := file_path;
             Submission.status := "approved";
             Submission.is_on_time := b |} db))) as [Hsub Htasks].
  split; [exact Hsub|]. split; [|split].
  - rewrite Hsub. simpl. apply map_size_insert_None, next_rowid_fresh.
  - apply promotion_lookup_entry. simpl.
    by rewrite lookup_alter_eq, Hentry.
  - exact Htasks.
Qed.

Lemma promotion_adds_one_submission_witness :
  ∃ db' id,
    mark_potential_report_as_submission Examples.no_json 1793782800000000
      42 7 None Examples.db0 = Ok (true, db')
    ∧ submissions Examples.db0 !! id = None
    ∧ size (submissions db') = 1%nat
    ∧ offline_messages db' !! 42 = Some (set_processed Examples.entry42).
Proof.
  destruct (promotion_adds_one_submission Examples.no_json 1793782800000000
    42 7 None Examples.db0 Examples.entry42
    (<["context" := JScalar (VStr (u "potential_report_out_of_context"))]>
     (<["date" := JScalar (VStr (u "2026-11-03T09:30:00+00:00"))]>
     (<["type" := JScalar (VStr (u "text"))]>
     (<["content" := JScalar (VStr (u "Planted 3 trees today"))]>
     {["user_id" := JScalar (VInt 5)]}))))
    (VStr (u "text")) (VStr (u "Planted 3 trees today")) VNone VNone true)
    as (db' & id & Hrun & Hfresh & _ & Hsize & Hentry & _);
    try (vm_compute; reflexivity).
  exists db', id. split; [exact Hrun|]. split; [exact Hfresh|].
  split; [exact Hsize|exact Hentry].
Defined.

(** C4, counterexample.  Entry 42 is promoted to task 7 twice: both calls
    succeed, and the second one adds a second submission although the
    entry was already processed. *)
Lemma promotion_repeated_adds_second_submission :
  let promote := mark_potential_report_as_submission Examples.no_json
                   1793782800000000 42 7 None in
  let step := apply Examples.no_json
                (MarkPotentialReportAsSubmission 1793782800000000 42 7 None) in
  let db1 := step Examples.db0 in
  let db2 := step db1 in
  promote Examples.db0 = Ok (true, db1)
  ∧ OfflineMessage.processed <$> offline_messages db1 !! 42 = Some true
  ∧ promote db1 = Ok (true, db2)
  ∧ size (submissions Examples.db0) = 0%nat
  ∧ size (submissions db1) = 1%nat
  ∧ size (submissions db2) = 2%nat.
Proof. vm_compute. by repeat split. Qed.

(** ** Promoting to a task that is gone *)

(** The moderator's button refuses a task that does not exist and writes
    nothing. *)
Lemma assign_to_missing_task_writes_nothing json clock report_id task_id
    (db : Database.t) :
  tasks db !! task_id = None →
  AdminBot._assign_potential_to_task json clock report_id task_id db
  = (AdminBot.TaskNotFound, db).
Proof. intros Htask. unfold AdminBot._assign_potential_to_task. by rewrite Htask. Qed.

(** C5, the code at the failing input.  Task 7 has been deleted; promoting
    entry 42 to it through [mark_potential_report_as_submission] still
    succeeds: a submission for the missing task is inserted, flagged on
    time, and the entry is marked processed. *)
Lemma promotion_to_missing_task_inserts :
  let promote := mark_potential_report_as_submission Examples.no_json
                   1793782800000000 42 7 None in
  let db' := apply Examples.no_json
               (MarkPotentialReportAsSubmission 1793782800000000 42 7 None)
               Examples.db_without_task in
  tasks Examples.db_without_task !! 7 = None
  ∧ promote Examples.db_without_task = Ok (true, db')
  ∧ size (submissions Examples.db_without_task) = 0%nat
  ∧ size (submissions db') = 1%nat
  ∧ Submission.task_id <$> submissions db' !! 1 = Some 7
  ∧ Submission.is_on_time <$> submissions db' !! 1 = Some true
  ∧ OfflineMessage.processed <$> offline_messages Examples.db_without_task !! 42
    = Some false
  ∧ OfflineMessage.processed <$> offline_messages db' !! 42 = Some true.
Proof. vm_compute. by repeat split. Qed.

(** ** Running the handlers *)

Import EcoBot.

Ltac run_handler :=
  repeat progress
    (unfold mbind, M_bind, mret, M_ret, restore_context;
     cbn [bind ret raise execute query get_user_data set_user_data reply_text
          show store user_data outbox fst snd]).

Lemma mark_logged_keeps json offline_messages db :
  users (mark_logged json offline_messages db) = users db
  ∧ user_states (mark_logged json offline_messages db) = user_states db
  ∧ tasks (mark_logged json offline_messages db) = tasks db
  ∧ submissions (mark_logged json offline_messages db) = submissions db.
Proof.
  unfold mark_logged. revert db.
  induction offline_messages as [|m l IH]; intros db; simpl; [done|].
  destruct (IH (if offline_message_logged json m.1.1.2 m.1.2
                then mark_offline_message_processed m.1.1.1 db else db))
    as (-> & -> & -> & ->).
  by destruct (offline_message_logged _ _ _).
Qed.

Lemma get_user_state_ext user_id db db' :
  user_states db' = user_states db →
  get_user_state user_id db' = get_user_state user_id db.
Proof. unfold get_user_state. by intros ->. Qed.

Lemma is_user_registered_ext user_id db db' :
  users db' = users db →
  is_user_registered user_id db' = is_user_registered user_id db.
Proof. unfold is_user_registered. by intros ->. Qed.

Lemma add_user_states clock user_id username first last db :
  user_states (add_user clock user_id username first last db) = user_states db.
Proof. unfold add_user. by case_match. Qed.

Lemma add_user_registered clock user_id username first last db :
  is_user_registered user_id (add_user clock user_id username first last db)
  = is_user_registered user_id db.
Proof.
  unfold add_user, is_user_registered.
  destruct (users db !! user_id) as [r|] eqn:Hr; simpl.
  - by rewrite lookup_alter_eq, Hr.
  - by rewrite lookup_insert_eq.
Qed.

(** The store [start] reads the saved state from: the user is added or
    refreshed and the pending offline messages are marked. *)
Lemma start_run json e upd st :
  let db1 := add_user (clock e) (user_id upd) (username upd) (first_name upd)
               (last_name upd) (store st) in
  let db2 := mark_logged json (get_offline_messages (user_id upd) db1) db1 in
  users db2 = users db1
  ∧ get_user_state (user_id upd) db2 = get_user_state (user_id upd) (store st)
  ∧ is_user_registered (user_id upd) db2
    = is_user_registered (user_id upd) (store st).
Proof.
  intros db1 db2.
  destruct (mark_logged_keeps json (get_offline_messages (user_id upd) db1) db1)
    as (Husers & Hstates & _).
  split; [exact Husers|]. split.
  - etrans; [by apply get_user_state_ext|].
    apply get_user_state_ext, add_user_states.
  - etrans; [by apply is_user_registered_ext|].
    apply add_user_registered.
Qed.

Lemma union_of_subset (ctx d : gmap string pyval) : d ⊆ ctx → ctx ∪ d = ctx.
Proof.
  intros Hsub. apply map_eq. intros k. rewrite lookup_union.
  destruct (ctx !! k) as [v|] eqn:Hctx, (d !! k) as [w|] eqn:Hd; try done.
  by rewrite (lookup_weaken _ _ _ _ Hd Hsub) in Hctx.
Qed.

(** ** Resuming after [/start] *)

Lemma start_resumes json e upd st state ctx prompt :
  get_user_state (user_id upd) (store st) = (state, ctx) →
  is_user_registered (user_id upd) (store st) = false →
  resume_prompt state (ctx ∪ user_data st) = Some prompt →
  let db1 := add_user (clock e) (user_id upd) (username upd) (first_name upd)
               (last_name upd) (store st) in
  start json e upd st
  = (Ok state,
     {| store := mark_logged json (get_offline_messages (user_id upd) db1) db1;
        user_data := ctx ∪ user_data st;
        outbox := outbox st ++ [Reply session_restored_text true None; prompt] |}).
Proof.
  intros Hsaved Hreg Hprompt db1.
  destruct (start_run json e upd st) as (_ & Hsaved' & Hreg').
  fold db1 in Hsaved', Hreg'. rewrite Hsaved in Hsaved'. rewrite Hreg in Hreg'.
  unfold start, _process_offline_messages. run_handler. fold db1.
  rewrite Hsaved', Hreg'. cbn [fst snd].
  unfold resume_prompt in Hprompt.
  repeat match type of Hprompt with
         | context [?a =? ?b] => destruct (Z.eqb_spec a b) as [->|?]
         end; try discriminate; injection Hprompt as <-;
    unfold _continue_from_state; simpl (_ =? _); cbn [negb andb]; run_handler;
    by rewrite <- app_assoc.
Qed.

Lemma clear_user_state_get clock user_id db :
  get_user_state user_id (clear_user_state clock user_id db) = (IDLE, ∅).
Proof.
  unfold clear_user_state, get_user_state.
  destruct (user_states db !! user_id) as [row|] eqn:Hrow; simpl.
  - by rewrite lookup_alter_eq, Hrow.
  - by rewrite lookup_insert_eq.
Qed.

Lemma registered_row user_id db :
  is_user_registered user_id db = true →
  ∃ row, users db !! user_id = Some row.
Proof. unfold is_user_registered. destruct (users db !! user_id); [eauto|done]. Qed.

(** For a registered user [start] goes back to the main menu. *)
Lemma start_resets json e upd st row :
  users (store st) !! user_id upd = Some row →
  is_user_registered (user_id upd) (store st) = true →
  let db1 := add_user (clock e) (user_id upd) (username upd) (first_name upd)
               (last_name upd) (store st) in
  start json e upd st
  = (Ok END,
     {| store :=
          clear_user_state (clock e) (user_id upd)
            (mark_logged json (get_offline_messages (user_id upd) db1) db1);
        user_data := user_data st;
        outbox := outbox st
          ++ [Reply (welcome_back_text e (User.last_name row)) false
                (Some Keyboards.main_menu)] |}).
Proof.
  intros Hrow Hreg db1.
  destruct (start_run json e upd st) as (Husers & _ & Hreg').
  fold db1 in Husers, Hreg'. rewrite Hreg in Hreg'.
  unfold start, _process_offline_messages. run_handler. fold db1.
  rewrite Hreg'. rewrite andb_false_r. run_handler.
  assert (Hget : get_user (user_id upd)
            (mark_logged json (get_offline_messages (user_id upd) db1) db1)
          = Some (set_telegram_data (username upd) (first_name upd)
                    (last_name upd) row)).
  { unfold get_user. rewrite Husers. unfold db1, add_user. rewrite Hrow.
    cbn [users set_users]. by rewrite lookup_alter_eq, Hrow. }
  rewrite Hget. by run_handler.
Qed.

(** C1, as the code has it.  When the user has not completed the
    registration and the saved state is a registration step or a step of
    the profile edit, [start] merges the saved context into the working
    memory, sends the notice that the session is restored and then the
    prompt of the saved step, returns that step and leaves the saved
    state as it is; when the working memory holds nothing the saved
    context lacks, a restart of the process before [start] changes
    nothing of this.  When the user is registered, [start] does not
    resume: the saved state becomes idle with an empty context and the
    main menu is shown. *)
Theorem start_resumes_or_resets (json : text → option json_doc) (e : env)
    (upd : update) (st : state) (state : Z) (ctx : gmap string pyval) :
  get_user_state (user_id upd) (store st) = (state, ctx) →
  (is_user_registered (user_id upd) (store st) = false →
   ∀ prompt, resume_prompt state (ctx ∪ user_data st) = Some prompt →
   ∃ st',
     start json e upd st = (Ok state, st')
     ∧ user_data st' = ctx ∪ user_data st
     ∧ outbox st'
       = outbox st ++ [Reply session_restored_text true None; prompt]
     ∧ get_user_state (user_id upd) (store st') = (state, ctx)
     ∧ (user_data st ⊆ ctx →
        start json e upd (restart st) = (Ok state, st')))
  ∧ (is_user_registered (user_id upd) (store st) = true →
     ∃ st' row,
       start json e upd st = (Ok END, st')
       ∧ users (store st) !! user_id upd = Some row
       ∧ get_user_state (user_id upd) (store st') = (IDLE, ∅)
       ∧ user_data st' = user_data st
       ∧ outbox st'
         = outbox st ++ [Reply (welcome_back_text e (User.last_name row)) false
                           (Some Keyboards.main_menu)]).
Proof.
  intros Hsaved. split.
  - intros Hreg prompt Hprompt.
    eexists. split; [by apply start_resumes|].
    split; [done|]. split; [done|]. split.
    + cbn [store].
      destruct (start_run json e upd st) as (_ & -> & _). done.
    + intros Hsub.
      rewrite (start_resumes json e upd (restart st) state ctx prompt);
        cbn [restart store user_data outbox]; try done.
      * by rewrite (right_id ∅ (∪)), union_of_subset.
      * by rewrite (right_id ∅ (∪)), <- (union_of_subset ctx (user_data st)).
  - intros Hreg. destruct (registered_row _ _ Hreg) as [row Hrow].
    eexists _, row. split; [by apply start_resets|].
    split; [done|]. split; [apply clear_user_state_get|]. done.
Qed.

Lemma start_resumes_or_resets_witness :
  get_user_state 6 Examples.db_states
  = (REGISTRATION_FIRST_NAME, Examples.context6)
  ∧ ∃ st',
      start Examples.no_json Examples.env0 (Examples.update6 (Text (u "/start")))
        (Examples.fresh Examples.db_states)
      = (Ok REGISTRATION_FIRST_NAME, st')
      ∧ outbox st'
        = [Reply session_restored_text true None;
           Reply (first_name_prompt (VStr (u "Петров"))) true None]
      ∧ get_user_state 6 (store st')
        = (REGISTRATION_FIRST_NAME, Examples.context6).
Proof.
  assert (Hsaved : get_user_state 6 Examples.db_states
                   = (REGISTRATION_FIRST_NAME, Examples.context6))
    by (vm_compute; reflexivity).
  split; [exact Hsaved|].
  destruct (start_resumes_or_resets Examples.no_json Examples.env0
    (Examples.update6 (Text (u "/start"))) (Examples.fresh Examples.db_states)
    REGISTRATION_FIRST_NAME Examples.context6 Hsaved) as [Hresume _].
  destruct (Hresume ltac:(vm_compute; reflexivity)
    (Reply (first_name_prompt (VStr (u "Петров"))) true None)
    ltac:(vm_compute; reflexivity))
    as (st' & Hrun & _ & Hout & Hstate & _).
  exists st'. split; [exact Hrun|]. split; [exact Hout|exact Hstate].
Defined.

(** C1, counterexample.  User 5 is registered and their saved state is
    the submission step with task 7 selected.  [start] does not restore
    the context and does not send the prompt of that step: it resets the
    saved state to idle and answers with the greeting and the main menu. *)
Lemma start_registered_user_does_not_resume :
  let run := start Examples.no_json Examples.env0
               (Examples.update5 (Text (u "/start")))
               (Examples.fresh Examples.db_states) in
  get_user_state 5 Examples.db_states = (TASK_SUBMISSION, Examples.context5)
  ∧ run.1 = Ok END
  ∧ get_user_state 5 (store run.2) = (IDLE, ∅)
  ∧ user_data run.2 = ∅
  ∧ outbox run.2
    = [Reply (welcome_back_text Examples.env0 (VStr (u "Иванова"))) false
         (Some Keyboards.main_menu)].
Proof. vm_compute. by repeat split. Qed.

(** ** Re-adding a known user *)

Lemma clear_user_state_users clock user_id db :
  users (clear_user_state clock user_id db) = users db.
Proof. unfold clear_user_state. by case_match. Qed.

(** [start] writes to [users] through [add_user] only. *)
Lemma start_users json e upd st :
  users (store (start json e upd st).2)
  = users (add_user (clock e) (user_id upd) (username upd) (first_name upd)
             (last_name upd) (store st)).
Proof.
  destruct (start_run json e upd st) as (Husers & _ & _).
  unfold start, _process_offline_messages. run_handler.
  destruct (negb _ && negb _).
  - run_handler. unfold _continue_from_state.
    repeat case_match; run_handler; try done.
    by rewrite clear_user_state_users.
  - case_match; run_handler; [|done].
    case_match; run_handler; [|done].
    by rewrite clear_user_state_users.
Qed.

(** C10.  For a user already in [users], [add_user] sets the three
    Telegram columns and keeps the self-declared names, the participation
    type, the family size, the children descriptor and the registration
    flag; the user stays registered exactly when they were, and no other
    row or table changes.  The same holds for the row of the user after
    the whole of [start]. *)
Theorem add_user_keeps_registration (clock user_id : Z)
    (username telegram_first_name telegram_last_name : option text)
    (db : Database.t) (r : User.t) :
  users db !! user_id = Some r →
  let db' := add_user clock user_id username telegram_first_name
               telegram_last_name db in
  (∃ r', users db' !! user_id = Some r'
         ∧ User.username r' = username
         ∧ User.telegram_first_name r' = telegram_first_name
         ∧ User.telegram_last_name r' = telegram_last_name
         ∧ same_registration r r')
  ∧ is_user_registered user_id db' = is_user_registered user_id db
  ∧ (∀ other, other ≠ user_id → users db' !! other = users db !! other)
  ∧ user_states db' = user_states db
  ∧ tasks db' = tasks db
  ∧ submissions db' = submissions db
  ∧ offline_messages db' = offline_messages db
  ∧ (∀ json e upd st,
       EcoBot.user_id upd = user_id → store st = db →
       ∃ r', users (store (start json e upd st).2) !! user_id = Some r'
             ∧ same_registration r r'
             ∧ is_user_registered user_id (store (start json e upd st).2)
               = is_user_registered user_id db).
Proof.
  intros Hr db'. subst db'. unfold add_user, is_user_registered.
  rewrite Hr. cbn [users set_users user_states tasks submissions
                   offline_messages].
  rewrite lookup_alter_eq, Hr. cbn [fmap option_fmap option_map].
  split; [|split; [|split; [|split; [|split; [|split; [|split]]]]]];
    try done.
  - eexists. split; [done|]. by repeat split.
  - intros other Hne. by apply lookup_alter_ne.
  - intros json e upd st <- <-.
    rewrite start_users. unfold add_user. rewrite Hr. cbn [users set_users].
    rewrite lookup_alter_eq, Hr. cbn [fmap option_fmap option_map].
    eexists. split; [done|]. by repeat split.
Qed.

Lemma add_user_keeps_registration_witness :
  users Examples.db0 !! 5 = Some Examples.user5
  ∧ is_user_registered 5
      (add_user 1793782800000000 5 (Some (u "anna_new")) None None Examples.db0)
    = true
  ∧ User.first_name
      <$> users (add_user 1793782800000000 5 (Some (u "anna_new")) None None
                   Examples.db0) !! 5
    = Some (VStr (u "Анна")).
Proof.
  assert (Hrow : users Examples.db0 !! 5 = Some Examples.user5)
    by (vm_compute; reflexivity).
  split; [exact Hrow|].
  destruct (add_user_keeps_registration 1793782800000000 5
    (Some (u "anna_new")) None None Examples.db0 Examples.user5 Hrow)
    as ((r' & Hr' & _ & _ & _ & Hname & _) & Hreg & _).
  split.
  - rewrite Hreg. vm_compute. reflexivity.
  - rewrite Hr'. simpl. rewrite Hname. vm_compute. reflexivity.
Defined.

(** ** Messages outside a conversation *)

Lemma get_offline_messages_ids user_id db m :
  m ∈ get_offline_messages user_id db →
  is_Some (offline_messages db !! m.1.1.1).
Proof.
  unfold get_offline_messages. intros Hm.
  apply list_elem_of_fmap in Hm as (r & -> & Hr).
  rewrite merge_sort_Permutation in Hr.
  apply list_elem_of_filter in Hr as [_ Hr]. destruct r as [id row].
  apply elem_of_map_to_list in Hr. simpl. eauto.
Qed.

(** The text equals the button at position [n] of [menu_commands]. *)
Tactic Notation "menu_button" integer(n) hyp(Heq) hyp(Hmenu) :=
  exfalso; injection Heq as ->; apply Hmenu; unfold menu_commands;
  do n apply list_elem_of_further; apply list_elem_of_here.

Lemma handle_menu_command_unknown e upd temp t :
  message upd = Text t → t ∉ menu_commands →
  handle_menu_command e upd temp = handle_unknown_text e upd temp.
Proof.
  intros Hmsg Hmenu. unfold handle_menu_command, text_cell. rewrite Hmsg.
  case_decide as Heq; [menu_button 0 Heq Hmenu|clear Heq].
  case_decide as Heq; [menu_button 1 Heq Hmenu|clear Heq].
  case_decide as Heq; [menu_button 2 Heq Hmenu|clear Heq].
  case_decide as Heq; [menu_button 3 Heq Hmenu|clear Heq].
  case_decide as Heq; [menu_button 4 Heq Hmenu|clear Heq].
  case_decide as Heq; [menu_button 5 Heq Hmenu|clear Heq].
  case_decide as Heq; [menu_button 6 Heq Hmenu|clear Heq].
  case_decide as Heq; [menu_button 7 Heq Hmenu|clear Heq].
  case_decide as Heq; [menu_button 8 Heq Hmenu|clear Heq].
  case_decide as Heq; [menu_button 9 Heq Hmenu|clear Heq].
  case_decide as Heq; [menu_button 10 Heq Hmenu|clear Heq].
  unfold handle_unknown_text, text_cell. rewrite Hmsg. reflexivity.
Qed.

(** The final marking touches one row that existed before, and only its
    [processed] flag. *)
Lemma mark_temporary_run temp st :
  ∃ st', mark_temporary_message temp st = (Ok None, st')
    ∧ user_data st' = user_data st ∧ outbox st' = outbox st
    ∧ (∀ id, (∀ marked, temp = Some marked → marked ≠ id) →
         offline_messages (store st') !! id = offline_messages (store st) !! id)
    ∧ (∀ id m, offline_messages (store st') !! id = Some m →
         ∃ m0, offline_messages (store st) !! id = Some m0
               ∧ OfflineMessage.message_type m = OfflineMessage.message_type m0).
Proof.
  unfold mark_temporary_message. destruct temp as [id0|].
  2: { exists st. repeat split; eauto. }
  destruct (id0 =? 0).
  { exists st. repeat split; eauto. }
  run_handler.
  eexists. split; [reflexivity|]. split; [reflexivity|]. split; [reflexivity|].
  cbn [store mark_offline_message_processed offline_messages
       set_offline_messages]. split.
  - intros id Hid. apply lookup_alter_ne. by apply Hid.
  - intros id m Hm.
    apply lookup_alter_Some in Hm as [(_ & m0 & Hm0 & ->)|[_ Hm]]; eauto.
Qed.

Lemma save_offline_message_new clock user_id data message_type db :
  offline_messages (save_offline_message clock user_id data message_type db)
  = <[next_rowid (offline_messages_seq db) (offline_messages db) :=
        {| OfflineMessage.user_id := user_id;
           OfflineMessage.data := data;
           OfflineMessage.message_type := message_type;
           OfflineMessage.received_date := current_timestamp clock;
           OfflineMessage.processed := false |}]> (offline_messages db).
Proof. reflexivity. Qed.

Lemma old_row_not_next db id :
  is_Some (offline_messages db !! id) →
  id ≠ next_rowid (offline_messages_seq db) (offline_messages db).
Proof. intros [m Hm] ->. by rewrite next_rowid_fresh in Hm. Qed.

Lemma save_offline_message_old clock user_id data message_type db id :
  is_Some (offline_messages db !! id) →
  is_Some (offline_messages
             (save_offline_message clock user_id data message_type db) !! id).
Proof.
  intros Hid. rewrite save_offline_message_new.
  rewrite lookup_insert_ne; [done|]. intros Heq.
  by apply (old_row_not_next db id).
Qed.

(** C6, as the code has it.  A registered user sends a text that is no
    menu button while the saved state is none of the steps
    [handle_message] hands over to.  The text is always filed as an
    unknown command.  When it is longer than ten characters it is also
    filed as a potential report, unprocessed, and answered with the
    warning that it was not accepted; when it has ten characters or
    fewer, no potential report is added and the softer prompt is sent. *)
Theorem triage_by_length (e : env) (upd : update) (st : state) (t : text) :
  is_user_registered (user_id upd) (store st) = true →
  message upd = Text t →
  (get_user_state (user_id upd) (store st)).1
    ∉ [EDIT_FIRST_NAME; EDIT_LAST_NAME; TASK_SUBMISSION] →
  t ∉ menu_commands →
  ∃ st',
    handle_message e upd st = (Ok None, st')
    ∧ user_data st' = user_data st
    ∧ (∃ id,
         offline_messages (store st) !! id = None
         ∧ offline_messages (store st') !! id
           = Some {| OfflineMessage.user_id := user_id upd;
                     OfflineMessage.data :=
                       JsonDumps
                         (<["context" := JScalar (VStr (u "unknown_command"))]>
                         (<["date" := JScalar (VStr (date upd))]>
                         {["text" := JScalar (VStr t)]}));
                     OfflineMessage.message_type := "text_unknown";
                     OfflineMessage.received_date :=
                       current_timestamp (clock e);
                     OfflineMessage.processed := false |})
    ∧ if 10 <? len t then
        outbox st'
        = outbox st ++ [Reply not_accepted_warning_text true
                          (Some Keyboards.out_of_context_actions)]
        ∧ ∃ id,
            offline_messages (store st) !! id = None
            ∧ offline_messages (store st') !! id
              = Some {| OfflineMessage.user_id := user_id upd;
                        OfflineMessage.data :=
                          JsonDumps
                            (<["context" :=
                                 JScalar (VStr (u "potential_report_out_of_context"))]>
                            (<["date" := JScalar (VStr (date upd))]>
                            (<["type" := JScalar (VStr (u "text"))]>
                            (<["content" := JScalar (VStr t)]>
                            {["user_id" := JScalar (VInt (user_id upd))]}))));
                        OfflineMessage.message_type := "potential_report";
                        OfflineMessage.received_date :=
                          current_timestamp (clock e);
                        OfflineMessage.processed := false |}
      else
        outbox st'
        = outbox st ++ [Reply unknown_command_text true
                          (Some Keyboards.out_of_context_actions)]
        ∧ ∀ id m,
            offline_messages (store st') !! id = Some m →
            OfflineMessage.message_type m = "potential_report" →
            is_Some (offline_messages (store st) !! id).
Proof.
  intros Hreg Hmsg Hstate Hmenu.
  unfold handle_message. run_handler. rewrite Hreg. cbn [negb]. run_handler.
  rewrite (get_user_state_ext (user_id upd) (store st)) by reflexivity.
  assert (H1 : ((get_user_state (user_id upd) (store st)).1 =? EDIT_FIRST_NAME)
               = false).
  { apply Z.eqb_neq. intros Heq. apply Hstate. rewrite Heq. set_solver. }
  assert (H2 : ((get_user_state (user_id upd) (store st)).1 =? EDIT_LAST_NAME)
               = false).
  { apply Z.eqb_neq. intros Heq. apply Hstate. rewrite Heq. set_solver. }
  assert (H3 : ((get_user_state (user_id upd) (store st)).1 =? TASK_SUBMISSION)
               = false).
  { apply Z.eqb_neq. intros Heq. apply Hstate. rewrite Heq. set_solver. }
  rewrite H1, H2, H3. clear H1 H2 H3.
  rewrite (handle_menu_command_unknown e upd _ t Hmsg Hmenu).
  unfold handle_unknown_text, text_cell. rewrite Hmsg.
  set (db1 := save_offline_message (clock e) (user_id upd) _ "text_processing"
                (store st)).
  set (temp := match last (get_offline_messages (user_id upd) db1) with
               | Some m => Some m.1.1.1
               | None => None
               end).
  assert (Htemp : ∀ marked, temp = Some marked →
                  is_Some (offline_messages db1 !! marked)).
  { intros marked. unfold temp.
    destruct (last (get_offline_messages (user_id upd) db1)) as [m|] eqn:Hlast;
      [|discriminate].
    intros [= <-]. apply get_offline_messages_ids with (user_id upd).
    by apply last_Some_elem_of. }
  assert (Hold : ∀ id, is_Some (offline_messages (store st) !! id) →
                 is_Some (offline_messages db1 !! id)).
  { intros id Hid. by apply save_offline_message_old. }
  run_handler.
  set (db2 := save_offline_message (clock e) (user_id upd) _ "text_unknown" db1).
  set (id2 := next_rowid (offline_messages_seq db1) (offline_messages db1)).
  assert (Hid2 : ∀ marked, temp = Some marked → marked ≠ id2).
  { intros marked Hm. by apply old_row_not_next, Htemp. }
  assert (Hfresh2 : offline_messages (store st) !! id2 = None).
  { destruct (offline_messages (store st) !! id2) as [m|] eqn:Hm; [|done].
    destruct (Hold id2) as [m1 Hm1]; [eauto|].
    unfold id2 in Hm1. by rewrite next_rowid_fresh in Hm1. }
  destruct (10 <? len t); run_handler.
  - set (db3 := save_offline_message (clock e) (user_id upd) _
                  "potential_report" db2).
    set (id3 := next_rowid (offline_messages_seq db2) (offline_messages db2)).
    destruct (mark_temporary_run temp
      {| store := db3; user_data := user_data st;
         outbox := outbox st ++ [Reply not_accepted_warning_text true
                                   (Some Keyboards.out_of_context_actions)] |})
      as (st' & -> & Hud & Hout & Hother & _).
    cbn [store user_data outbox] in Hud, Hout, Hother.
    exists st'. split; [reflexivity|]. split; [exact Hud|].
    assert (Hid3 : ∀ marked, temp = Some marked → marked ≠ id3).
    { intros marked Hm. apply old_row_not_next.
      by apply save_offline_message_old, Htemp. }
    assert (Hne : id2 ≠ id3).
    { apply old_row_not_next. unfold db2.
      rewrite save_offline_message_new. fold id2.
      rewrite lookup_insert_eq. eauto. }
    split; [|split; [exact Hout|]].
    + exists id2. split; [exact Hfresh2|].
      rewrite (Hother id2 Hid2). unfold db3.
      rewrite save_offline_message_new. fold id3.
      rewrite lookup_insert_ne by done.
      unfold db2. rewrite save_offline_message_new. fold id2.
      by rewrite lookup_insert_eq.
    + exists id3. split.
      * destruct (offline_messages (store st) !! id3) as [m|] eqn:Hm; [|done].
        exfalso. apply (old_row_not_next db2 id3); [|reflexivity].
        apply save_offline_message_old, Hold. eauto.
      * rewrite (Hother id3 Hid3). unfold db3.
        rewrite save_offline_message_new. fold id3.
        by rewrite lookup_insert_eq.
  - destruct (mark_temporary_run temp
      {| store := db2; user_data := user_data st;
         outbox := outbox st ++ [Reply unknown_command_text true
                                   (Some Keyboards.out_of_context_actions)] |})
      as (st' & -> & Hud & Hout & Hother & Htypes).
    cbn [store user_data outbox] in Hud, Hout, Hother, Htypes.
    exists st'. split; [reflexivity|]. split; [exact Hud|].
    split; [|split; [exact Hout|]].
    + exists id2. split; [exact Hfresh2|].
      rewrite (Hother id2 Hid2).
      unfold db2. rewrite save_offline_message_new. fold id2.
      by rewrite lookup_insert_eq.
    + intros id m Hm Htype.
      destruct (Htypes id m Hm) as (m0 & Hm0 & Heq). rewrite Htype in Heq.
      unfold db2 in Hm0. rewrite save_offline_message_new in Hm0.
      apply lookup_insert_Some in Hm0 as [[_ <-]|[_ Hm0]]; [discriminate|].
      unfold db1 in Hm0. rewrite save_offline_message_new in Hm0.
      apply lookup_insert_Some in Hm0 as [[_ <-]|[_ Hm0]]; [discriminate|].
      eauto.
Qed.

Lemma triage_by_length_witness :
  is_user_registered 5 Examples.db0 = true
  ∧ (Examples.eleven_characters ∉ menu_commands)
  ∧ len Examples.eleven_characters = 11
  ∧ ∃ st',
      handle_message Examples.env0
        (Examples.update5 (Text Examples.eleven_characters))
        (Examples.fresh Examples.db0) = (Ok None, st')
      ∧ outbox st'
        = [Reply not_accepted_warning_text true
             (Some Keyboards.out_of_context_actions)].
Proof.
  assert (Hreg : is_user_registered 5 Examples.db0 = true)
    by (vm_compute; reflexivity).
  assert (Hmenu : Examples.eleven_characters ∉ menu_commands)
    by (refine (bool_decide_unpack _ _); vm_compute; exact I).
  assert (Hstate : (get_user_state 5 Examples.db0).1
                   ∉ [EDIT_FIRST_NAME; EDIT_LAST_NAME; TASK_SUBMISSION])
    by (refine (bool_decide_unpack _ _); vm_compute; exact I).
  split; [exact Hreg|]. split; [exact Hmenu|].
  split; [vm_compute; reflexivity|].
  destruct (triage_by_length Examples.env0
    (Examples.update5 (Text Examples.eleven_characters))
    (Examples.fresh Examples.db0) Examples.eleven_characters
    Hreg eq_refl Hstate Hmenu) as (st' & Hrun & _ & _ & Hlong).
  change (10 <? len Examples.eleven_characters) with true in Hlong.
  destruct Hlong as [Hout _].
  exists st'. split; [exact Hrun|exact Hout].
Defined.

(** C6, counterexample.  A text of exactly ten characters from a
    registered user outside any conversation is not filed as a potential
    report: the only new rows are the temporary copy and the unknown
    command, and the softer prompt is sent. *)
Lemma ten_characters_are_filed_as_noise :
  let run := handle_message Examples.env0
               (Examples.update5 (Text Examples.ten_characters))
               (Examples.fresh Examples.db0) in
  len Examples.ten_characters = 10
  ∧ (Examples.ten_characters ∉ menu_commands)
  ∧ is_user_registered 5 Examples.db0 = true
  ∧ get_user_state 5 Examples.db0 = (IDLE, ∅)
  ∧ run.1 = Ok None
  ∧ outbox run.2
    = [Reply unknown_command_text true (Some Keyboards.out_of_context_actions)]
  ∧ get_potential_reports (store run.2) = get_potential_reports Examples.db0
  ∧ OfflineMessage.message_type <$> offline_messages (store run.2)
    = <[44 := "text_unknown"]> (<[43 := "text_processing"]>
        {[42 := "potential_report"]}).
Proof.
  split; [vm_compute; reflexivity|].
  split; [refine (bool_decide_unpack _ _); vm_compute; exact I|].
  vm_compute. by repeat split.
Qed.

(** ** Attachments *)

(** An attachment from a sender who is not registered is answered and not
    stored. *)
Lemma attachment_from_unregistered e upd note payload received st :
  is_user_registered (user_id upd) (store st) = false →
  handle_attachment e upd note payload received st
  = (Ok None,
     {| store := store st; user_data := user_data st;
        outbox := outbox st ++ [Reply (register_first_text note) false
                                  (Some Keyboards.main_menu)] |}).
Proof.
  intros Hreg. unfold handle_attachment. run_handler. by rewrite Hreg.
Qed.

(** An attachment from a registered user outside the submission step is
    filed as an unprocessed potential report, whatever its caption. *)
Lemma attachment_outside_submission e upd note payload received st :
  is_user_registered (user_id upd) (store st) = true →
  (get_user_state (user_id upd) (store st)).1 ≠ TASK_SUBMISSION →
  handle_attachment e upd note payload received st
  = (Ok None,
     {| store := save_offline_message (clock e) (user_id upd)
                   (JsonDumps payload) "potential_report" (store st);
        user_data := user_data st;
        outbox := outbox st ++ [Reply received false
                                  (Some Keyboards.main_menu)] |}).
Proof.
  intros Hreg Hstate. unfold handle_attachment. run_handler. rewrite Hreg.
  cbn [negb]. run_handler. apply Z.eqb_neq in Hstate. by rewrite Hstate.
Qed.

(** C7, the code at the failing input.  User 6 has not completed the
    registration and sends a photo with a caption.  The answer says that
    the photo is saved, and the store is exactly as before: no inbox
    entry is filed.  A text from the same user is filed
    ([text_unregistered]). *)
Lemma photo_from_unregistered_user_is_not_filed :
  let photo := Media (Photo (u "AgACAgIAAxkBAAIBZ2")) (Some (u "Мой отчет")) in
  let run := handle_photo_message Examples.env0 (Examples.update6 photo)
               (Examples.fresh Examples.db0) in
  let sibling := handle_message Examples.env0
                   (Examples.update6 (Text (u "Мой отчет")))
                   (Examples.fresh Examples.db0) in
  is_user_registered 6 Examples.db0 = false
  ∧ run.1 = Ok None
  ∧ store run.2 = Examples.db0
  ∧ outbox run.2
    = [Reply (register_first_text
                (u "💾 Ваше фото сохранено и будет обработано после регистрации."))
         false (Some Keyboards.main_menu)]
  ∧ OfflineMessage.message_type <$> offline_messages (store sibling.2)
    = <[43 := "text_unregistered"]> {[42 := "potential_report"]}.
Proof. vm_compute. by repeat split. Qed.

(** ** Invalid input keeps the step *)

Lemma save_user_state_get clock user_id state ctx db :
  get_user_state user_id (save_user_state clock user_id state ctx db)
  = (state, ctx).
Proof.
  unfold get_user_state, save_user_state. simpl. by rewrite lookup_insert_eq.
Qed.

Lemma next_invalid_attempts_counted d :
  attempts_counted d →
  ∃ v, ∀ st, next_invalid_attempts d st = (Ok v, st).
Proof.
  unfold attempts_counted, next_invalid_attempts, get_default.
  destruct (d !! "invalid_attempts") as [[|b|z|s]|]; try done;
    intros _; eexists; intros st; reflexivity.
Qed.

Lemma bind_pure {A B} (c : M A) (k : A → M B) (v : A) (st : state) :
  (∀ st, c st = (Ok v, st)) → bind c k st = k v st.
Proof. intros Hc. unfold bind. by rewrite Hc. Qed.

Ltac count_attempts Hcount :=
  let v := fresh "attempts" in
  let Hv := fresh "Hattempts" in
  destruct (next_invalid_attempts_counted _ Hcount) as [v Hv];
  rewrite (bind_pure _ _ _ _ Hv); clear Hv.

(** C9.  When the saved state names a step and the handler of that step
    finds the input invalid, the handler returns normally, the saved
    state still names the step, and exactly one message is sent, which is
    the step's request to correct the input; except in the submission
    step, which leaves the transport's conversation, the handler returns
    the same step. *)
Theorem rejected_input_keeps_step (s : step) (e : env) (upd : update)
    (st : state) :
  (get_user_state (user_id upd) (store st)).1 = step_state s →
  attempts_counted (user_data st) →
  rejected s (message upd) = true →
  ∃ r st' m,
    step_handler s e upd st = (Ok r, st')
    ∧ (get_user_state (user_id upd) (store st')).1 = step_state s
    ∧ outbox st' = outbox st ++ [m]
    ∧ m ∈ corrections s
    ∧ (s ≠ TaskSubmissionStep → r = step_state s).
Proof.
  intros Hstate Hcount Hrej. destruct s; cbn [step_handler step_state corrections].
  - (* the last name *)
    cbn [rejected] in Hrej. destruct (message upd) as [t| |] eqn:Hmsg; try done.
    unfold registration_last_name, message_text. rewrite Hmsg. run_handler.
    rewrite Hrej. run_handler. count_attempts Hcount. run_handler.
    eexists _, _, _. split; [reflexivity|]. cbn [store outbox].
    rewrite save_user_state_get. split; [reflexivity|].
    split; [reflexivity|]. split; [apply list_elem_of_here|done].
  - (* the first name *)
    cbn [rejected] in Hrej. destruct (message upd) as [t| |] eqn:Hmsg; try done.
    unfold registration_first_name, message_text. rewrite Hmsg. run_handler.
    rewrite Hrej. run_handler. count_attempts Hcount. run_handler.
    eexists _, _, _. split; [reflexivity|]. cbn [store outbox].
    rewrite save_user_state_get. split; [reflexivity|].
    split; [reflexivity|]. split; [apply list_elem_of_here|done].
  - (* the participation type *)
    cbn [rejected] in Hrej. destruct (message upd) as [t| |] eqn:Hmsg; try done.
    apply andb_true_iff in Hrej as [Hind Hfam].
    apply negb_true_iff, bool_decide_eq_false in Hind, Hfam.
    unfold participation_type, message_text. rewrite Hmsg. run_handler.
    case_decide as Heq; [destruct (Hind Heq)|clear Heq].
    case_decide as Heq; [destruct (Hfam Heq)|clear Heq].
    run_handler. count_attempts Hcount. run_handler.
    eexists _, _, _. split; [reflexivity|]. cbn [store outbox].
    rewrite save_user_state_get. split; [reflexivity|].
    split; [reflexivity|]. split; [apply list_elem_of_here|done].
  - (* the family size *)
    cbn [rejected] in Hrej. destruct (message upd) as [t| |] eqn:Hmsg; try done.
    unfold family_members_count, message_text. rewrite Hmsg. run_handler.
    destruct (family_count (strip t)) as [count|]; [discriminate|].
    run_handler. count_attempts Hcount. run_handler.
    eexists _, _, _. split; [reflexivity|]. cbn [store outbox].
    rewrite save_user_state_get. split; [reflexivity|].
    split; [reflexivity|]. split; [apply list_elem_of_here|done].
  - (* the new first name *)
    cbn [rejected] in Hrej. destruct (message upd) as [t| |] eqn:Hmsg; try done.
    apply andb_true_iff in Hrej as [Hmenu Hname].
    apply negb_true_iff, bool_decide_eq_false in Hmenu.
    unfold handle_edit_first_name, message_text. rewrite Hmsg. run_handler.
    case_decide as Heq; [destruct (Hmenu Heq)|clear Heq].
    rewrite Hname. run_handler.
    eexists _, _, _. split; [reflexivity|]. cbn [store outbox].
    split; [exact Hstate|].
    split; [reflexivity|]. split; [apply list_elem_of_here|done].
  - (* the new last name *)
    cbn [rejected] in Hrej. destruct (message upd) as [t| |] eqn:Hmsg; try done.
    apply andb_true_iff in Hrej as [Hmenu Hname].
    apply negb_true_iff, bool_decide_eq_false in Hmenu.
    unfold handle_edit_last_name, message_text. rewrite Hmsg. run_handler.
    case_decide as Heq; [destruct (Hmenu Heq)|clear Heq].
    rewrite Hname. run_handler.
    eexists _, _, _. split; [reflexivity|]. cbn [store outbox].
    split; [exact Hstate|].
    split; [reflexivity|]. split; [apply list_elem_of_here|done].
  - (* the report *)
    cbn [rejected] in Hrej.
    destruct (report_of (message upd)) as [report|] eqn:Hreport; [discriminate|].
    unfold handle_task_submission_content. run_handler.
    destruct (user_data st !! "selected_task_id") as [task_id|] eqn:Hmem.
    + run_handler. unfold subscript. rewrite Hmem. run_handler.
      rewrite Hreport. run_handler.
      eexists _, _, _. split; [reflexivity|]. cbn [store outbox].
      rewrite save_user_state_get. split; [reflexivity|].
      split; [reflexivity|]. split; [apply list_elem_of_here|done].
    + destruct ((get_user_state (user_id upd) (store st)).2
                  !! "selected_task_id") as [task_id|] eqn:Hsaved.
      * run_handler. unfold subscript. rewrite lookup_insert_eq. run_handler.
        rewrite Hreport. run_handler.
        eexists _, _, _. split; [reflexivity|]. cbn [store outbox].
        rewrite save_user_state_get. split; [reflexivity|].
        split; [reflexivity|]. split; [apply list_elem_of_here|done].
      * run_handler.
        eexists _, _, _. split; [reflexivity|]. cbn [store outbox].
        split; [exact Hstate|]. split; [reflexivity|].
        split; [apply list_elem_of_further, list_elem_of_here|done].
Qed.

Lemma rejected_input_keeps_step_witness :
  (get_user_state 6 Examples.db_states).1 = REGISTRATION_FIRST_NAME
  ∧ rejected FirstNameStep (Text (u " П ")) = true
  ∧ ∃ st',
      registration_first_name Examples.env0 (Examples.update6 (Text (u " П ")))
        (Examples.fresh Examples.db_states)
      = (Ok REGISTRATION_FIRST_NAME, st')
      ∧ (get_user_state 6 (store st')).1 = REGISTRATION_FIRST_NAME
      ∧ outbox st' = [Reply first_name_error_text false None].
Proof.
  assert (Hstate : (get_user_state 6 Examples.db_states).1
                   = REGISTRATION_FIRST_NAME) by (vm_compute; reflexivity).
  assert (Hrej : rejected FirstNameStep (Text (u " П ")) = true)
    by (vm_compute; reflexivity).
  split; [exact Hstate|]. split; [exact Hrej|].
  destruct (rejected_input_keeps_step FirstNameStep Examples.env0
    (Examples.update6 (Text (u " П "))) (Examples.fresh Examples.db_states)
    Hstate ltac:(vm_compute; exact I) Hrej)
    as (r & st' & m & Hrun & Hkept & Hout & Hm & Hr).
  rewrite (Hr ltac:(discriminate)) in Hrun.
  apply list_elem_of_singleton in Hm. subst m.
  exists st'. split; [exact Hrun|]. split; [exact Hkept|exact Hout].
Defined.

(** * Further properties of the store, the moderation and the bot *)

(** ** The saved conversation state *)




(** ** The inbox of one user *)

Lemma get_offline_messages_elem user_id db id data ty date :
  (id, data, ty, date) ∈ get_offline_messages user_id db ↔
  ∃ m, offline_messages db !! id = Some m
       ∧ OfflineMessage.user_id m = user_id
       ∧ OfflineMessage.processed m = false
       ∧ data = OfflineMessage.data m
       ∧ ty = OfflineMessage.message_type m
       ∧ date = OfflineMessage.received_date m.
Proof.
  unfold get_offline_messages. rewrite list_elem_of_fmap. split.
  - intros ([k m] & Heq & Hr). simpl in Heq. injection Heq as -> -> -> ->.
    rewrite merge_sort_Permutation in Hr.
    apply list_elem_of_filter in Hr as [[Hu Hp] Hr]. simpl in Hu, Hp.
    apply elem_of_map_to_list in Hr. by exists m.
  - intros (m & Hm & Hu & Hp & -> & -> & ->). exists (id, m). split; [done|].
    rewrite merge_sort_Permutation. apply list_elem_of_filter. split; [done|].
    by apply elem_of_map_to_list.
Qed.

#[local] Instance received_before_total : Total received_before.
Proof.
  intros a b. unfold received_before.
  destruct (Z.lt_trichotomy (OfflineMessage.received_date a.2)
              (OfflineMessage.received_date b.2)) as [H|[H|H]];
    [by left; left| |by right; left].
  destruct (Z.le_ge_cases a.1 b.1); [left|right]; right; split; congruence.
Qed.

#[local] Instance received_before_trans : Transitive received_before.
Proof. intros a b c. unfold received_before. lia. Qed.

(** The loop of [_process_offline_messages] marks processed the rows it
    could log and changes no other row. *)
Lemma mark_logged_lookup json l db id :
  offline_messages (mark_logged json l db) !! id
  = if bool_decide
         (Exists (λ m : Z * message_data * string * Z,
                    m.1.1.1 = id
                    ∧ offline_message_logged json m.1.1.2 m.1.2 = true) l)
    then set_processed <$> offline_messages db !! id
    else offline_messages db !! id.
Proof.
  unfold mark_logged. revert db. induction l as [|m l IH]; intros db.
  - cbn [foldl]. rewrite bool_decide_eq_false_2; [done|].
    by intros H%Exists_nil.
  - cbn [foldl]. rewrite IH. clear IH.
    destruct (offline_message_logged json m.1.1.2 m.1.2) eqn:Hlog.
    + unfold mark_offline_message_processed. simpl.
      destruct (decide (m.1.1.1 = id)) as [Heq|Hne].
      * rewrite Heq, lookup_alter_eq.
        rewrite (bool_decide_eq_true_2 (Exists _ (m :: l)));
          [|by apply Exists_cons_hd].
        case_bool_decide; [|done].
        by destruct (offline_messages db !! id) as [row|].
      * rewrite lookup_alter_ne by done.
        case_bool_decide as H1; case_bool_decide as H2; try done; exfalso.
        -- apply H2. by apply Exists_cons_tl.
        -- apply Exists_cons in H2 as [[H2 _]|H2]; [by apply Hne|by apply H1].
    + case_bool_decide as H1; case_bool_decide as H2; try done; exfalso.
      * apply H2. by apply Exists_cons_tl.
      * apply Exists_cons in H2 as [[_ H2]|H2]; [congruence|by apply H1].
Qed.

(** [start] drains the inbox.  When every pending message of the user
    holds a JSON object, as every write of the bot does,
    [_process_offline_messages] terminates normally and leaves no pending
    message for the user; no row is deleted, and the rows of other users
    are as they were. *)
Theorem process_offline_messages_drains (json : text → option json_doc)
    (upd : update) (st : state) :
  (∀ id data ty date,
     (id, data, ty, date) ∈ get_offline_messages (user_id upd) (store st) →
     ∃ d, data = JsonDumps d) →
  ∃ st',
    _process_offline_messages json upd st = (Ok tt, st')
    ∧ get_offline_messages (user_id upd) (store st') = []
    ∧ (∀ id m, offline_messages (store st) !! id = Some m →
         offline_messages (store st') !! id
         = Some (if bool_decide (OfflineMessage.user_id m = user_id upd)
                 then set_processed m else m))
    ∧ (∀ id, offline_messages (store st) !! id = None →
         offline_messages (store st') !! id = None)
    ∧ user_data st' = user_data st ∧ outbox st' = outbox st.
Proof.
  intros Hjson. unfold _process_offline_messages. run_handler.
  eexists. split; [reflexivity|]. cbn [store user_data outbox].
  set (l := get_offline_messages (user_id upd) (store st)).
  assert (Hrows : ∀ id m, offline_messages (store st) !! id = Some m →
            offline_messages (mark_logged json l (store st)) !! id
            = Some (if bool_decide (OfflineMessage.user_id m = user_id upd)
                    then set_processed m else m)).
  { intros id m Hm. rewrite mark_logged_lookup, Hm. simpl.
    case_bool_decide as Hin; case_bool_decide as Hu; try done.
    - apply Exists_exists in Hin
        as ([[[k dat] ty] date] & Hin & Hid & _). simpl in Hid.
      subst k. apply get_offline_messages_elem in Hin
        as (m' & Hm' & Hu' & _). congruence.
    - destruct (OfflineMessage.processed m) eqn:Hp.
      + destruct m; simpl in *; by subst.
      + exfalso. apply Hin. apply Exists_exists.
        exists (id, OfflineMessage.data m, OfflineMessage.message_type m,
                OfflineMessage.received_date m).
        assert (Hel : (id, OfflineMessage.data m,
                       OfflineMessage.message_type m,
                       OfflineMessage.received_date m) ∈ l).
        { apply get_offline_messages_elem. by exists m. }
        split; [done|]. split; [done|]. simpl.
        destruct (Hjson _ _ _ _ Hel) as [d ->].
        unfold offline_message_logged. done. }
  split; [|split; [exact Hrows|split; [|done]]].
  - apply elem_of_nil_inv. intros [[[id dat] ty] date] Hin.
    apply get_offline_messages_elem in Hin as (m' & Hm' & Hu' & Hp' & _).
    destruct (offline_messages (store st) !! id) as [m|] eqn:Hm.
    + rewrite (Hrows _ _ Hm) in Hm'. injection Hm' as <-.
      case_bool_decide as Hu.
      * done.
      * done.
    + rewrite mark_logged_lookup, Hm in Hm'. by case_bool_decide.
  - intros id Hnone. rewrite mark_logged_lookup, Hnone. by case_bool_decide.
Qed.

(** [get_offline_messages] lists exactly the rows of the user that are not
    yet processed, each of them once, and the oldest first. *)
Theorem get_offline_messages_pending_oldest_first (user_id : Z)
    (db : Database.t) :
  (∀ id data ty date,
     (id, data, ty, date) ∈ get_offline_messages user_id db ↔
     ∃ m, offline_messages db !! id = Some m
          ∧ OfflineMessage.user_id m = user_id
          ∧ OfflineMessage.processed m = false
          ∧ data = OfflineMessage.data m
          ∧ ty = OfflineMessage.message_type m
          ∧ date = OfflineMessage.received_date m)
  ∧ NoDup ((λ r : Z * message_data * string * Z, r.1.1.1)
             <$> get_offline_messages user_id db)
  ∧ Sorted (λ a b : Z * message_data * string * Z, a.2 ≤ b.2)
      (get_offline_messages user_id db).
Proof.
  split; [intros; apply get_offline_messages_elem|]. split.
  - unfold get_offline_messages. rewrite <- list_fmap_compose.
    rewrite merge_sort_Permutation.
    apply NoDup_fmap_2_strong.
    + intros [k1 m1] [k2 m2] H1 H2 Hk. simpl in Hk. subst k2.
      apply list_elem_of_filter in H1 as [_ H1].
      apply list_elem_of_filter in H2 as [_ H2].
      apply elem_of_map_to_list in H1, H2. congruence.
    + apply NoDup_filter, NoDup_map_to_list.
  - unfold get_offline_messages.
    apply (Sorted_fmap _ received_before); [|apply (Sorted_merge_sort _)].
    intros a b [H|[H _]]; simpl; lia.
Qed.

(** ** The results of a participant *)

Lemma elem_of_completed_tasks user_id db task_id :
  task_id ∈ completed_tasks user_id db ↔
  ∃ id s, submissions db !! id = Some s
          ∧ Submission.user_id s = user_id
          ∧ Submission.is_on_time s = true
          ∧ Submission.task_id s = task_id.
Proof.
  unfold completed_tasks. rewrite elem_of_list_to_set, list_elem_of_fmap.
  split.
  - intros (s & -> & Hs). apply list_elem_of_filter in Hs as [[Hu Ht] Hs].
    apply list_elem_of_fmap in Hs as ([id s'] & -> & Hs).
    apply elem_of_map_to_list in Hs. by exists id, s'.
  - intros (id & s & Hs & Hu & Ht & <-). exists s. split; [done|].
    apply list_elem_of_filter. split; [done|].
    apply list_elem_of_fmap. exists (id, s). split; [done|].
    by apply elem_of_map_to_list.
Qed.

Lemma completed_tasks_inserted user_id db row :
  completed_tasks user_id (insert_submission row db)
  = if bool_decide (Submission.user_id row = user_id
                    ∧ Submission.is_on_time row = true)
    then {[Submission.task_id row]} ∪ completed_tasks user_id db
    else completed_tasks user_id db.
Proof.
  apply set_eq. intros t. rewrite elem_of_completed_tasks.
  unfold insert_submission. cbn [submissions].
  pose proof (next_rowid_fresh (submissions db) (submissions_seq db)) as Hnew.
  split.
  - intros (id & s & Hs & Hu & Ht & Hid).
    apply lookup_insert_Some in Hs as [[_ <-]|[_ Hs]].
    + rewrite bool_decide_eq_true_2 by done. set_solver.
    + assert (t ∈ completed_tasks user_id db)
        by (apply elem_of_completed_tasks; by exists id, s).
      case_bool_decide; set_solver.
  - intros Ht.
    assert (t ∈ completed_tasks user_id db →
            ∃ id s, <[next_rowid (submissions_seq db) (submissions db) := row]>
                      (submissions db) !! id = Some s
                    ∧ Submission.user_id s = user_id
                    ∧ Submission.is_on_time s = true
                    ∧ Submission.task_id s = t) as Hold.
    { intros (id & s & Hs & Hrest)%elem_of_completed_tasks.
      exists id, s. split; [|done]. rewrite lookup_insert_ne; [done|].
      intros <-. congruence. }
    case_bool_decide as Hrow; [|by apply Hold].
    apply elem_of_union in Ht as [Ht|Ht]; [|by apply Hold].
    apply elem_of_singleton in Ht as ->. destruct Hrow as [Hu Hf].
    eexists _, row. split; [apply lookup_insert_eq|done].
Qed.

(** [get_user_stats] counts tasks, not reports.  A report accepted by
    [submit_task] raises the number of completed tasks of its author by
    one when it is on time and the author had no on-time report for the
    task, and leaves it as it was otherwise; the numbers of the other
    users and the number of open tasks do not change. *)
Theorem submit_task_counts_a_task_once (later_text : datetime → datetime → bool)
    (now clock user_id task_id : Z) (submission_type content file_id
    file_path : pyval) (db db' : Database.t) (is_on_time : bool) :
  submit_task clock user_id task_id submission_type content file_id
    file_path db = Ok (is_on_time, db') →
  (get_user_stats later_text now user_id db').1
  = (get_user_stats later_text now user_id db).1
    + (if is_on_time
          && bool_decide (task_id ∉ completed_tasks user_id db)
       then 1 else 0)
  ∧ (get_user_stats later_text now user_id db').2
    = (get_user_stats later_text now user_id db).2
  ∧ ∀ other, other ≠ user_id →
      get_user_stats later_text now other db'
      = get_user_stats later_text now other db.
Proof.
  unfold submit_task.
  destruct (_check_submission_deadline task_id (now_moscow clock) db)
    as [flag|err]; [|done].
  intros [= <- <-]. unfold get_user_stats. cbn [fst snd].
  split; [|split; [done|]].
  - rewrite completed_tasks_inserted. cbn [Submission.user_id
      Submission.is_on_time Submission.task_id].
    destruct flag.
    + rewrite bool_decide_eq_true_2 by done. cbn [andb].
      case_bool_decide as Hin.
      * rewrite size_union by set_solver. rewrite size_singleton. lia.
      * replace ({[task_id]} ∪ completed_tasks user_id db)
          with (completed_tasks user_id db) by set_solver. lia.
    + rewrite bool_decide_eq_false_2 by (intros [_ ?]; done).
      cbn [andb]. lia.
  - intros other Hne. rewrite completed_tasks_inserted.
    cbn [Submission.user_id]. rewrite bool_decide_eq_false_2; [done|].
    intros [? _]. by apply Hne.
Qed.

Lemma completed_tasks_status user_id status submission_id db :
  completed_tasks user_id
    (set_submissions (alter (AdminBot.set_status status) submission_id) db)
  = completed_tasks user_id db.
Proof.
  apply set_eq. intros t. rewrite !elem_of_completed_tasks.
  cbn [set_submissions submissions]. split.
  - intros (id & s & Hs & Hrest).
    destruct (decide (id = submission_id)) as [->|Hne].
    + rewrite lookup_alter_eq in Hs.
      destruct (submissions db !! submission_id) as [s0|] eqn:Hs0; [|done].
      injection Hs as <-. by exists submission_id, s0.
    + rewrite lookup_alter_ne in Hs by done. by exists id, s.
  - intros (id & s & Hs & Hrest).
    destruct (decide (id = submission_id)) as [->|Hne].
    + exists submission_id, (AdminBot.set_status status s).
      split; [|done]. by rewrite lookup_alter_eq, Hs.
    + exists id, s. split; [|done]. by rewrite lookup_alter_ne.
Qed.

(** The decision of the moderator is shown in the history of the
    participant and does not enter the count: after [_reject_report] the
    numbers [get_user_stats] returns are those from before, so a rejected
    on-time report still counts as a completed task, while
    [get_user_submissions] lists the report as rejected. *)
Theorem rejected_report_still_counts (later_text : datetime → datetime → bool)
    (now user_id submission_id : Z) (db : Database.t) :
  get_user_stats later_text now user_id (AdminBot._reject_report submission_id db)
  = get_user_stats later_text now user_id db
  ∧ get_user_stats later_text now user_id
      (AdminBot._approve_report submission_id db)
    = get_user_stats later_text now user_id db
  ∧ ∀ title date status flag,
      get_user_submissions user_id db !! submission_id
      = Some (title, date, status, flag) →
      get_user_submissions user_id (AdminBot._reject_report submission_id db)
        !! submission_id
      = Some (title, date, "rejected"%string, flag).
Proof.
  unfold AdminBot._reject_report, AdminBot._approve_report, get_user_stats.
  rewrite !completed_tasks_status. split; [done|]. split; [done|].
  intros title date status flag. unfold get_user_submissions.
  cbn [set_submissions submissions tasks]. rewrite !lookup_omap, lookup_alter_eq.
  destruct (submissions db !! submission_id) as [s|]; [|done].
  destruct s as [u t d ty c f p st fl]. cbn.
  case_decide; [|done]. destruct (tasks db !! t); [|done]. cbn.
  by intros [= <- <- <- <-].
Qed.

(** A report promoted to a task that does not exist is counted and not
    shown.  After [mark_potential_report_as_submission] succeeds for a
    missing task, the task is among the completed tasks of the author
    of the entry, whatever the time, and [get_user_submissions], which
    joins the submissions with the tasks, lists what it listed before. *)
Theorem promotion_to_missing_task_counted_not_listed
    (json : text → option json_doc) (clock message_id task_id : Z)
    (admin_notes : option text) (db db' : Database.t) :
  tasks db !! task_id = None →
  mark_potential_report_as_submission json clock message_id task_id
    admin_notes db = Ok (true, db') →
  ∃ entry,
    offline_messages db !! message_id = Some entry
    ∧ task_id ∈ completed_tasks (OfflineMessage.user_id entry) db'
    ∧ get_user_submissions (OfflineMessage.user_id entry) db'
      = get_user_submissions (OfflineMessage.user_id entry) db.
Proof.
  intros Htask. unfold mark_potential_report_as_submission.
  destruct (offline_messages db !! message_id) as [entry|]; [|done].
  destruct (json_loads json (OfflineMessage.data entry)) as [[data|]|];
    [|done|done].
  unfold _check_submission_deadline. rewrite Htask.
  destruct (bind_parameter (payload_get data "type" (VStr (u "text"))))
    as [submission_type|]; [|done].
  destruct (bind_parameter (payload_get data "content" (VStr [])))
    as [content|]; [|done].
  destruct (bind_parameter (payload_get data "file_id" VNone))
    as [file_id|]; [|done].
  destruct (bind_parameter (payload_get data "file_path" VNone))
    as [file_path|]; [|done].
  intros [= <-]. exists entry. split; [done|].
  match goal with
  | |- context [insert_submission ?r db] => set (row := r)
  end.
  destruct (promotion_submissions_notes clock (OfflineMessage.user_id entry)
    admin_notes
    (set_offline_messages (alter set_processed message_id)
       (insert_submission row db))) as [Hsub Htasks].
  split.
  - apply elem_of_completed_tasks.
    exists (next_rowid (submissions_seq db) (submissions db)), row.
    split; [|done]. rewrite Hsub. cbn. apply lookup_insert_eq.
  - unfold get_user_submissions. rewrite Hsub, Htasks.
    cbn [set_offline_messages insert_submission submissions tasks].
    apply map_eq. intros id. rewrite !lookup_omap.
    destruct (decide (id = next_rowid (submissions_seq db) (submissions db)))
      as [->|Hne].
    + rewrite lookup_insert_eq, next_rowid_fresh. cbn.
      rewrite decide_True by done. by rewrite Htask.
    + by rewrite lookup_insert_ne.
Qed.

(** ** Tasks and their deadlines *)

Lemma day_of_reading (r : Z) :
  r / 86400000000 * 86400000000 ≤ r < r / 86400000000 * 86400000000 + 86400000000.
Proof.
  pose proof (Z.div_mod r 86400000000 ltac:(lia)) as Hdiv.
  pose proof (Z.mod_pos_bound r 86400000000 ltac:(lia)) as Hmod. lia.
Qed.

Lemma insert_task_twice row1 row2 db :
  tasks (insert_task row2 (insert_task row1 db))
  = <[next_rowid (tasks_seq db) (tasks db) + 1 := row2]>
      (<[next_rowid (tasks_seq db) (tasks db) := row1]> (tasks db)).
Proof.
  unfold insert_task. cbn [tasks tasks_seq].
  set (id1 := next_rowid (tasks_seq db) (tasks db)).
  replace (next_rowid id1 (<[id1 := row1]> (tasks db))) with (id1 + 1);
    [done|].
  unfold next_rowid. f_equal. symmetry. apply Z.max_l.
  apply largest_rowid_le.
  - pose proof (next_rowid_seq (tasks db) (tasks_seq db)).
    pose proof (largest_rowid_nonneg (tasks db)). unfold id1, next_rowid. lia.
  - intros k v [[<- _]|[_ Hk]]%lookup_insert_Some; [lia|].
    pose proof (next_rowid_above (tasks db) (tasks_seq db) k v Hk) as Hlt.
    fold id1 in Hlt. lia.
Qed.

(** [create_weekly_tasks] adds two tasks under two new ids.  Both are
    open, carry the week number and share one deadline: 23:59:00 in
    Moscow on the fifth day after the day of the call, whatever the day
    of the week.  That deadline is later than the call by more than four
    days and 23 hours and by at most five days, 23 hours and 59 minutes,
    so a report sent at once for either task is on time. *)
Theorem create_weekly_tasks_adds_two_due_tasks (clock week_number : Z)
    (db : Database.t) :
  let db' := create_weekly_tasks clock week_number db in
  let today := (clock + 180 * 60000000) / 86400000000 in
  let deadline :=
    {| instant := (today + 5) * 86400000000 + (23 * 60 + 59) * 60000000
                  - 180 * 60000000;
       utcoffset := Some 180 |} in
  ∃ id1 id2 task1 task2,
    (∀ id task, tasks db !! id = Some task → id < id1)
    ∧ id2 = id1 + 1
    ∧ tasks db' = <[id2 := task2]> (<[id1 := task1]> (tasks db))
    ∧ Task.is_open task1 = true ∧ Task.is_open task2 = true
    ∧ Task.week_number task1 = Some week_number
    ∧ Task.week_number task2 = Some week_number
    ∧ Task.deadline task1 = Some deadline
    ∧ Task.deadline task2 = Some deadline
    ∧ (4 * 24 + 23) * 3600000000 < instant deadline - clock
      ≤ ((5 * 24 + 23) * 60 + 59) * 60000000
    ∧ _check_submission_deadline id1 (now_moscow clock) db' = Ok true
    ∧ _check_submission_deadline id2 (now_moscow clock) db' = Ok true.
Proof.
  intros db' today deadline.
  pose proof (day_of_reading (clock + 180 * 60000000)) as Hday.
  fold today in Hday.
  assert (Hdeadline :
    add_timedelta 5 12 59 (replace_clock 11 0 0 0 (now_moscow clock))
    = deadline).
  { unfold add_timedelta, replace_clock, now_moscow, deadline. cbn.
    f_equal. fold today. lia. }
  assert (Hle : clock <=? instant deadline = true).
  { apply Z.leb_le. unfold deadline. cbn [instant]. lia. }
  subst db'. unfold create_weekly_tasks. cbv zeta. rewrite Hdeadline.
  unfold add_task, _check_submission_deadline. rewrite !insert_task_twice.
  set (id1 := next_rowid (tasks_seq db) (tasks db)).
  eexists id1, (id1 + 1), _, _.
  split; [intros id task Hid; by eapply next_rowid_above|].
  split; [done|]. split; [reflexivity|].
  cbn [Task.is_open Task.week_number Task.deadline].
  do 6 (split; [done|]).
  split; [unfold deadline; cbn [instant]; lia|].
  rewrite lookup_insert_eq, lookup_insert_ne by lia.
  rewrite lookup_insert_eq. cbn [Task.deadline].
  unfold datetime_le, now_moscow. cbn [utcoffset instant].
  change (utcoffset deadline) with (Some 180). by rewrite Hle.
Qed.

(** [_toggle_task_status] is its own inverse: pressed twice, the button
    leaves the store as it was, and pressed for a task that does not
    exist it changes nothing. *)
Theorem toggle_task_status_twice (task_id : Z) (db : Database.t) :
  AdminBot._toggle_task_status task_id
    (AdminBot._toggle_task_status task_id db) = db
  ∧ (tasks db !! task_id = None →
     AdminBot._toggle_task_status task_id db = db).
Proof.
  unfold AdminBot._toggle_task_status.
  destruct (tasks db !! task_id) as [r|] eqn:Hr; [|by rewrite Hr].
  split; [|done]. cbn [set_tasks tasks]. rewrite lookup_alter_eq, Hr. cbn.
  destruct db as [us st ts tseq sub subseq sup supseq off offseq].
  unfold set_tasks. cbn in *. f_equal.
  apply map_eq. intros k. destruct (decide (k = task_id)) as [->|Hne].
  - rewrite !lookup_alter_eq, Hr. cbn. destruct r as [a b c o w d cr od].
    unfold AdminBot.set_is_open. cbn. by rewrite negb_involutive.
  - by rewrite !lookup_alter_ne.
Qed.

(** ** Moderation *)

(** [_perform_log_cleanup] never removes work that is still to be done.
    Every inbox entry that is not processed survives it unchanged, so the
    moderators' list of potential reports is the same before and after;
    users, tasks and submissions are not touched; no inbox entry is added
    or altered; and when [VACUUM] fails the store is as before. *)
Theorem log_cleanup_keeps_pending_entries (clock : Z) (vacuum_fails : bool)
    (db : Database.t) :
  let db' := AdminBot._perform_log_cleanup clock vacuum_fails db in
  (∀ id m, offline_messages db !! id = Some m →
     OfflineMessage.processed m = false →
     offline_messages db' !! id = Some m)
  ∧ get_potential_reports db' = get_potential_reports db
  ∧ (∀ id m, offline_messages db' !! id = Some m →
       offline_messages db !! id = Some m)
  ∧ users db' = users db ∧ tasks db' = tasks db
  ∧ submissions db' = submissions db
  ∧ (if vacuum_fails then db' = db else True).
Proof.
  intros db'. subst db'. unfold AdminBot._perform_log_cleanup.
  destruct vacuum_fails; [done|]. cbv zeta.
  cbn [set_support_requests set_user_states set_offline_messages
       offline_messages users tasks submissions].
  assert (Hkept : ∀ id m, offline_messages db !! id = Some m →
            OfflineMessage.processed m = false →
            filter (λ r : Z * OfflineMessage.t,
                ¬ (OfflineMessage.processed r.2 = true
                   ∧ OfflineMessage.received_date r.2
                     < (current_timestamp clock - 30 * 86400) / 86400 * 86400))
              (filter (λ r : Z * OfflineMessage.t,
                  ¬ (OfflineMessage.message_type r.2 = "potential_report"
                     ∧ OfflineMessage.processed r.2 = true))
                 (offline_messages db)) !! id = Some m).
  { intros id m Hm Hp. apply map_lookup_filter_Some. split.
    - apply map_lookup_filter_Some. split; [done|]. cbn. intros [_ ?].
      congruence.
    - cbn. intros [? _]. congruence. }
  assert (Hold : ∀ id m,
            filter (λ r : Z * OfflineMessage.t,
                ¬ (OfflineMessage.processed r.2 = true
                   ∧ OfflineMessage.received_date r.2
                     < (current_timestamp clock - 30 * 86400) / 86400 * 86400))
              (filter (λ r : Z * OfflineMessage.t,
                  ¬ (OfflineMessage.message_type r.2 = "potential_report"
                     ∧ OfflineMessage.processed r.2 = true))
                 (offline_messages db)) !! id = Some m →
            offline_messages db !! id = Some m).
  { intros id m [Hm _]%map_lookup_filter_Some.
    by apply map_lookup_filter_Some in Hm as [Hm _]. }
  split; [exact Hkept|]. split; [|split; [exact Hold|done]].
  unfold get_potential_reports. cbn [offline_messages].
  apply map_eq. intros id. apply option_eq. intros m.
  rewrite !map_lookup_filter_Some. split.
  - intros [Hm Hp]. split; [by apply Hold|done].
  - intros [Hm [Hty Hp]]. split; [by apply Hkept|done].
Qed.



(** The moderator's button [_assign_potential_to_task] does not ask the
    deadline evaluator.  Whenever it assigns an entry, the task exists
    and exactly one submission is added under a new id: it is pending,
    is flagged on time whatever the deadline of the task, and is stored
    as a text report without a file path whatever the entry held. *)
Theorem assigned_report_is_flagged_on_time (json : text → option json_doc)
    (clock report_id task_id : Z) (db db' : Database.t) :
  AdminBot._assign_potential_to_task json clock report_id task_id db
  = (AdminBot.Assigned, db') →
  ∃ id row entry,
    is_Some (tasks db !! task_id)
    ∧ offline_messages db !! report_id = Some entry
    ∧ submissions db !! id = None
    ∧ submissions db' = <[id := row]> (submissions db)
    ∧ Submission.user_id row = OfflineMessage.user_id entry
    ∧ Submission.task_id row = task_id
    ∧ Submission.is_on_time row = true
    ∧ Submission.status row = "pending"%string
    ∧ Submission.submission_type row = VStr (u "text")
    ∧ Submission.file_path row = VNone
    ∧ offline_messages db' !! report_id = Some (set_processed entry).
Proof.
  unfold AdminBot._assign_potential_to_task.
  destruct (tasks db !! task_id) as [task|] eqn:Htask; [|done].
  destruct (offline_messages db !! report_id) as [entry|] eqn:Hentry; [|done].
  destruct (json_loads json (OfflineMessage.data entry)) as [[data|]|];
    [|done|done].
  destruct (bind_parameter (payload_get data "content"
              (VStr (u "Нет содержимого")))) as [content|]; [|done].
  destruct (bind_parameter (payload_get data "file_id" VNone))
    as [file_id|]; [|done].
  intros [= <-]. eexists _, _, entry.
  split; [done|]. split; [done|].
  split; [apply next_rowid_fresh|]. split; [reflexivity|].
  cbn [Submission.user_id Submission.task_id Submission.is_on_time
       Submission.status Submission.submission_type Submission.file_path].
  do 6 (split; [done|]).
  cbn [set_offline_messages insert_submission offline_messages].
  by rewrite lookup_alter_eq, Hentry.
Qed.


(** ** Task ids on inline buttons *)

Lemma digit_text d : Forall (λ c, 48 ≤ c ≤ 57) (uint_text d).
Proof. induction d; cbn; constructor; (lia || done). Qed.

Lemma lstrip_by_not_space sp (s : text) :
  match s with [] => True | c :: _ => sp c = false end → lstrip_by sp s = s.
Proof. destruct s as [|c s]; [done|]. cbn. by intros ->. Qed.

Lemma strip_by_not_space sp (s : text) :
  Forall (λ c, sp c = false) s → strip_by sp s = s.
Proof.
  intros Hs. unfold strip_by.
  rewrite (lstrip_by_not_space sp s) by (by destruct Hs).
  rewrite lstrip_by_not_space; [apply rev_involutive|].
  apply Forall_rev in Hs. by destruct Hs.
Qed.

Lemma int_space_digit c : 45 ≤ c ≤ 57 → int_space c = false.
Proof.
  intros Hc. unfold int_space, isspace.
  repeat match goal with
  | |- context [?a <=? ?b] => destruct (Z.leb_spec a b); try lia
  | |- context [?a =? ?b] => destruct (Z.eqb_spec a b); try lia
  end; done.
Qed.

Lemma digit_value_digit k : 0 ≤ k ≤ 9 → digit_value (48 + k) = Some k.
Proof.
  intros Hk. unfold digit_value, decimal_zeros. cbn [digit_in].
  destruct (Z.leb_spec 48 (48 + k)); [|lia].
  destruct (Z.ltb_spec (48 + k) (48 + 10)); [|lia]. cbn. f_equal. lia.
Qed.

Lemma int_digits_step acc k s :
  0 ≤ k ≤ 9 →
  int_digits acc true ((48 + k) :: s) = int_digits (10 * acc + k) true s
  ∧ int_digits acc false ((48 + k) :: s) = int_digits (10 * acc + k) true s.
Proof.
  intros Hk. cbn [int_digits].
  destruct (Z.eqb_spec (48 + k) 95); [lia|].
  by rewrite digit_value_digit.
Qed.

Lemma int_digits_acc d (acc : positive) :
  int_digits (Z.pos acc) true (uint_text d)
  = Some (Z.pos (Pos.of_uint_acc d acc)).
Proof.
  revert acc. induction d; intros acc; [done|..];
    cbn [uint_text Pos.of_uint_acc];
    match goal with
    | |- int_digits _ _ (?c :: _) = _ =>
      let k := eval cbv in (c - 48) in
      change c with (48 + k);
      rewrite (proj1 (int_digits_step _ k _ ltac:(lia)))
    end;
    rewrite <- IHd; f_equal; lia.
Qed.

Lemma int_digits_uint d prev :
  d ≠ Decimal.Nil ∨ prev = true →
  int_digits 0 prev (uint_text d) = Some (Z.of_N (Pos.of_uint d)).
Proof.
  revert prev. induction d; intros prev Hd.
  - destruct Hd as [? | ->]; done.
  - cbn [uint_text Pos.of_uint]. change 48 with (48 + 0).
    destruct prev.
    + rewrite (proj1 (int_digits_step _ 0 _ ltac:(lia))). apply IHd. by right.
    + rewrite (proj2 (int_digits_step _ 0 _ ltac:(lia))). apply IHd. by right.
  - cbn [uint_text Pos.of_uint]. change 49 with (48 + 1).
    destruct prev;
      [rewrite (proj1 (int_digits_step _ 1 _ ltac:(lia)))
      |rewrite (proj2 (int_digits_step _ 1 _ ltac:(lia)))];
      apply (int_digits_acc d 1).
  - cbn [uint_text Pos.of_uint]. change 50 with (48 + 2).
    destruct prev;
      [rewrite (proj1 (int_digits_step _ 2 _ ltac:(lia)))
      |rewrite (proj2 (int_digits_step _ 2 _ ltac:(lia)))];
      apply (int_digits_acc d 2).
  - cbn [uint_text Pos.of_uint]. change 51 with (48 + 3).
    destruct prev;
      [rewrite (proj1 (int_digits_step _ 3 _ ltac:(lia)))
      |rewrite (proj2 (int_digits_step _ 3 _ ltac:(lia)))];
      apply (int_digits_acc d 3).
  - cbn [uint_text Pos.of_uint]. change 52 with (48 + 4).
    destruct prev;
      [rewrite (proj1 (int_digits_step _ 4 _ ltac:(lia)))
      |rewrite (proj2 (int_digits_step _ 4 _ ltac:(lia)))];
      apply (int_digits_acc d 4).
  - cbn [uint_text Pos.of_uint]. change 53 with (48 + 5).
    destruct prev;
      [rewrite (proj1 (int_digits_step _ 5 _ ltac:(lia)))
      |rewrite (proj2 (int_digits_step _ 5 _ ltac:(lia)))];
      apply (int_digits_acc d 5).
  - cbn [uint_text Pos.of_uint]. change 54 with (48 + 6).
    destruct prev;
      [rewrite (proj1 (int_digits_step _ 6 _ ltac:(lia)))
      |rewrite (proj2 (int_digits_step _ 6 _ ltac:(lia)))];
      apply (int_digits_acc d 6).
  - cbn [uint_text Pos.of_uint]. change 55 with (48 + 7).
    destruct prev;
      [rewrite (proj1 (int_digits_step _ 7 _ ltac:(lia)))
      |rewrite (proj2 (int_digits_step _ 7 _ ltac:(lia)))];
      apply (int_digits_acc d 7).
  - cbn [uint_text Pos.of_uint]. change 56 with (48 + 8).
    destruct prev;
      [rewrite (proj1 (int_digits_step _ 8 _ ltac:(lia)))
      |rewrite (proj2 (int_digits_step _ 8 _ ltac:(lia)))];
      apply (int_digits_acc d 8).
  - cbn [uint_text Pos.of_uint]. change 57 with (48 + 9).
    destruct prev;
      [rewrite (proj1 (int_digits_step _ 9 _ ltac:(lia)))
      |rewrite (proj2 (int_digits_step _ 9 _ ltac:(lia)))];
      apply (int_digits_acc d 9).
Qed.

Lemma uint_text_head d :
  d ≠ Decimal.Nil → ∃ c s, uint_text d = c :: s ∧ 48 ≤ c ≤ 57.
Proof. destruct d; [done|..]; intros _; eexists _, _; (split; [done|lia]). Qed.

(** [int(str(n)) == n] *)
Lemma int_int_text (z : Z) : int (int_text z) = Some z.
Proof.
  unfold int, int_text. destruct z as [|p|p]; [done|..]; cbn [Z.to_int].
  - pose proof (DecimalPos.Unsigned.to_uint_nonnil p) as Hnil.
    rewrite strip_by_not_space.
    2:{ eapply Forall_impl; [apply digit_text|].
        intros c Hc. cbv beta in Hc. apply int_space_digit. lia. }
    destruct (uint_text_head _ Hnil) as (c & s & Heq & Hc).
    assert (Hdigits := int_digits_uint (Pos.to_uint p) false (or_introl Hnil)).
    rewrite DecimalPos.Unsigned.of_to in Hdigits. rewrite Heq in *.
    destruct c as [|c|c]; try lia.
    do 6 (destruct c as [c|c|]; try lia; try exact Hdigits).
  - pose proof (DecimalPos.Unsigned.to_uint_nonnil p) as Hnil.
    rewrite strip_by_not_space.
    2:{ constructor; [done|]. eapply Forall_impl; [apply digit_text|].
        intros c Hc. cbv beta in Hc. apply int_space_digit. lia. }
    rewrite (int_digits_uint (Pos.to_uint p) false (or_introl Hnil)).
    by rewrite DecimalPos.Unsigned.of_to.
Qed.

Lemma startswith_app (p s : text) : startswith p (p ++ s) = true.
Proof. induction p as [|c p IH]; [done|]. cbn. by rewrite Z.eqb_refl. Qed.

Lemma split_last_none sep (acc x : text) :
  Forall (λ c, c ≠ sep) x → split_last sep acc x = acc ++ x.
Proof.
  revert acc. induction x as [|c x IH]; intros acc Hx; cbn.
  - by rewrite app_nil_r.
  - apply Forall_cons in Hx as [Hc Hx].
    destruct (Z.eqb_spec c sep); [done|].
    rewrite IH by done. by rewrite <- app_assoc.
Qed.

Lemma split_last_after sep (acc s x : text) :
  split_last sep acc (s ++ sep :: x) = split_last sep [] x.
Proof.
  revert acc. induction s as [|c s IH]; intros acc; cbn.
  - by rewrite Z.eqb_refl.
  - destruct (c =? sep); apply IH.
Qed.

Lemma int_text_no_underscore z : Forall (λ c, c ≠ 95) (int_text z).
Proof.
  unfold int_text. destruct (Z.to_int z) as [d|d].
  - eapply Forall_impl; [apply digit_text|]. intros c Hc. cbv beta in Hc. lia.
  - constructor; [done|].
    eapply Forall_impl; [apply digit_text|]. intros c Hc. cbv beta in Hc. lia.
Qed.

Lemma submit_data_task_id z :
  int (split_last 95 [] (u "submit_task_" ++ int_text z)) = Some z.
Proof.
  replace (u "submit_task_") with (u "submit_task" ++ [95])
    by (vm_compute; reflexivity).
  rewrite <- app_assoc. cbn [app]. rewrite split_last_after.
  rewrite split_last_none by apply int_text_no_underscore.
  apply int_int_text.
Qed.

Lemma submit_data_head (x : text) : head (u "submit_task_" ++ x) = Some 115.
Proof. vm_compute. reflexivity. Qed.

(** The id of a task survives the trip through its button.  For a
    registered user, the callback data that [task_selection] and
    [_send_task_submission] put on the button of a task makes
    [handle_callback] start the submission for that very task: the id is
    remembered in the working memory and the submission step is saved
    with it. *)
Theorem task_button_starts_submission (e : env) (user_id : Z) (n : nat)
    (task : Keyboards.task_row) (st : state) :
  is_user_registered user_id (store st) = true →
  ∃ label data,
    Keyboards.submit_button n task = Keyboards.CallbackButton label data
    ∧ handle_callback e user_id data st
      = (Ok (EditText task_submission_started_text true
               [[Keyboards.main_menu_inline]]),
         {| store :=
              save_user_state (clock e) user_id TASK_SUBMISSION
                (<["selected_task_id" := VInt task.1.1.1]> (user_data st))
                (store st);
            user_data := <["selected_task_id" := VInt task.1.1.1]> (user_data st);
            outbox := outbox st |})
    ∧ get_user_state user_id
        (save_user_state (clock e) user_id TASK_SUBMISSION
           (<["selected_task_id" := VInt task.1.1.1]> (user_data st))
           (store st))
      = (TASK_SUBMISSION,
         <["selected_task_id" := VInt task.1.1.1]> (user_data st)).
Proof.
  intros Hreg. eexists _, _. split; [reflexivity|].
  split; [|apply save_user_state_get].
  unfold handle_callback. run_handler. rewrite Hreg. cbn [negb].
  case_decide as Heq.
  { apply (f_equal head) in Heq. rewrite submit_data_head in Heq.
    vm_compute in Heq. discriminate. }
  clear Heq. case_decide as Heq.
  { apply (f_equal head) in Heq. rewrite submit_data_head in Heq.
    vm_compute in Heq. discriminate. }
  clear Heq. rewrite startswith_app, submit_data_task_id.
  unfold _start_task_submission. run_handler. reflexivity.
Qed.

(** Inline buttons that lead nowhere.  [handle_callback] changes
    neither the store nor the working memory, and only edits the
    message under the button, in three cases: the user is not
    registered, whatever the button; the data begins with
    [submit_task_] and what follows the last underscore is not a number;
    the data is none that the handler knows. *)
Theorem callback_without_effect (e : env) (user_id : Z) (st : state) :
  (is_user_registered user_id (store st) = false →
   ∀ data, ∃ text,
     handle_callback e user_id data st
     = (Ok (EditText text false [[Keyboards.main_menu_inline]]), st))
  ∧ (is_user_registered user_id (store st) = true →
     ∀ data,
       startswith (u "submit_task_") data = true →
       int (split_last 95 [] data) = None →
       handle_callback e user_id data st
       = (Ok (EditText (u "⚠️ Произошла ошибка при обработке запроса.")
                false [[Keyboards.main_menu_inline]]), st))
  ∧ (is_user_registered user_id (store st) = true →
     ∀ data,
       startswith (u "submit_task_") data = false →
       data ∉ [u "main_menu"; u "tasks_bank"; u "submit_tasks"; u "support";
               u "instructions"] →
       handle_callback e user_id data st
       = (Ok (EditText
                (u "❓ Неизвестная команда. Возвращаемся в главное меню.")
                false [[Keyboards.main_menu_inline]]), st)).
Proof.
  split; [|split].
  - intros Hreg data. unfold handle_callback. run_handler. rewrite Hreg.
    cbn [negb]. destruct st. by eexists.
  - intros Hreg data Hstart Hint. unfold handle_callback. run_handler.
    rewrite Hreg. cbn [negb].
    case_decide as Heq.
    { rewrite Heq in Hstart. vm_compute in Hstart. discriminate. }
    clear Heq. case_decide as Heq.
    { rewrite Heq in Hstart. vm_compute in Hstart. discriminate. }
    clear Heq. rewrite Hstart, Hint. by destruct st.
  - intros Hreg data Hstart Hknown. unfold handle_callback. run_handler.
    rewrite Hreg. cbn [negb].
    case_decide as Heq.
    { exfalso. apply Hknown. rewrite Heq. apply list_elem_of_here. }
    clear Heq. case_decide as Heq.
    { exfalso. apply Hknown. rewrite Heq.
      apply list_elem_of_further, list_elem_of_here. }
    clear Heq. rewrite Hstart. case_decide as Heq.
    { exfalso. apply Hknown. rewrite Heq.
      do 2 apply list_elem_of_further. apply list_elem_of_here. }
    clear Heq. case_decide as Heq.
    { exfalso. apply Hknown. rewrite Heq.
      do 3 apply list_elem_of_further. apply list_elem_of_here. }
    clear Heq. case_decide as Heq.
    { exfalso. apply Hknown. rewrite Heq.
      do 4 apply list_elem_of_further. apply list_elem_of_here. }
    by destruct st.
Qed.

(** ** Inline keyboards *)

Lemma pairs_ind {A} (P : list A → Prop) :
  P [] → (∀ a, P [a]) → (∀ a b l, P l → P (a :: b :: l)) → ∀ l, P l.
Proof.
  intros H0 H1 H2. fix IH 1.
  intros [|a [|b l]]; [exact H0|apply H1|apply H2, IH].
Qed.

Lemma short_title_length n title :
  len (Keyboards.short_title n title) ≤ Z.of_nat n + 3
  ∧ (len title ≤ Z.of_nat n → Keyboards.short_title n title = title).
Proof.
  unfold Keyboards.short_title, len.
  destruct (Z.ltb_spec (Z.of_nat n) (Z.of_nat (length title))) as [Hlt|Hle].
  - split; [|lia]. rewrite length_app, length_take.
    replace (length (u "...")) with 3%nat by (vm_compute; reflexivity). lia.
  - split; [lia|done].
Qed.

(** [task_selection] gives every task one button, in the order of the
    list and two to a row, and closes with the row of the main-menu
    button: there are [⌈n/2⌉ + 1] rows for [n] tasks and no row is
    empty.  The label of a button shows the whole title when it has at
    most 25 characters and never has more than 30 characters; the
    callback data is [submit_task_] followed by the id of the task. *)
Theorem task_selection_layout (tasks : list Keyboards.task_row) :
  concat (Keyboards.task_selection tasks)
  = (Keyboards.submit_button 25 <$> tasks) ++ [Keyboards.main_menu_inline]
  ∧ Forall (λ row : list Keyboards.button, (1 ≤ length row ≤ 2)%nat)
      (Keyboards.task_selection tasks)
  ∧ length (Keyboards.task_selection tasks)
    = S (Nat.div2 (S (length tasks)))
  ∧ last (Keyboards.task_selection tasks) = Some [Keyboards.main_menu_inline]
  ∧ ∀ task, ∃ label,
      Keyboards.submit_button 25 task
      = Keyboards.CallbackButton label
          (u "submit_task_" ++ int_text task.1.1.1)
      ∧ len label ≤ 30
      ∧ (len task.1.1.2 ≤ 25 → label = u "📝 " ++ task.1.1.2).
Proof.
  unfold Keyboards.task_selection. split; [|split; [|split; [|split]]].
  - rewrite concat_app. cbn [concat app]. f_equal.
    induction tasks as [| |a b l IH] using pairs_ind; [done|done|].
    cbn [Keyboards.task_selection_rows concat fmap list_fmap app].
    by rewrite IH.
  - apply Forall_app. split; [|by repeat constructor].
    induction tasks as [| |a b l IH] using pairs_ind;
      cbn [Keyboards.task_selection_rows]; repeat constructor; done.
  - rewrite length_app. cbn [length]. rewrite Nat.add_1_r. f_equal.
    induction tasks as [| |a b l IH] using pairs_ind; [done|done|].
    cbn [Keyboards.task_selection_rows length]. rewrite IH. done.
  - by rewrite last_snoc.
  - intros task. eexists. split; [reflexivity|].
    destruct (short_title_length 25 task.1.1.2) as [Hlen Hshort].
    split.
    + unfold len in *. rewrite length_app.
      replace (length (u "📝 ")) with 2%nat by (vm_compute; reflexivity). lia.
    + intros Hle. by rewrite Hshort.
Qed.



(** ** The tasks offered for a report *)

Lemma table_scan_elem {A} (m : gmap Z A) id r :
  (id, r) ∈ table_scan m ↔ m !! id = Some r.
Proof.
  unfold table_scan. rewrite merge_sort_Permutation.
  apply elem_of_map_to_list.
Qed.

Lemma table_scan_ids {A} (m : gmap Z A) : NoDup (table_scan m).*1.
Proof.
  unfold table_scan. rewrite merge_sort_Permutation.
  apply NoDup_fst_map_to_list.
Qed.

Lemma get_open_tasks_elem later clock db (task : Keyboards.task_row) :
  task ∈ get_open_tasks later clock db ↔
  ∃ r, tasks db !! task.1.1.1 = Some r
       ∧ still_open later clock r = true
       ∧ task = (task.1.1.1, Task.title r, Task.description r, Task.link r).
Proof.
  unfold get_open_tasks. rewrite list_elem_of_fmap. split.
  - intros ([id r] & -> & Hr). apply list_elem_of_filter in Hr as [Hopen Hr].
    apply table_scan_elem in Hr. by exists r.
  - intros (r & Hr & Hopen & Heq). exists (task.1.1.1, r). split; [done|].
    apply list_elem_of_filter. split; [done|]. by apply table_scan_elem.
Qed.

Lemma get_open_tasks_ids later clock db :
  NoDup ((λ task : Keyboards.task_row, task.1.1.1)
         <$> get_open_tasks later clock db).
Proof.
  unfold get_open_tasks. rewrite <- list_fmap_compose.
  change ((λ task : Keyboards.task_row, task.1.1.1)
          ∘ (λ r : Z * Task.t,
               (r.1, Task.title r.2, Task.description r.2, Task.link r.2)))
    with (@fst Z Task.t).
  apply NoDup_fmap_2_strong.
  - intros [k1 r1] [k2 r2] H1 H2 Hk. cbn in Hk. subst k2.
    apply list_elem_of_filter in H1 as [_ H1].
    apply list_elem_of_filter in H2 as [_ H2].
    apply table_scan_elem in H1, H2. congruence.
  - apply NoDup_filter. eapply NoDup_fmap_1. apply table_scan_ids.
Qed.

Lemma NoDup_fmap_elem {A B} (f : A → B) (l : list A) x y :
  NoDup (f <$> l) → x ∈ l → y ∈ l → f x = f y → x = y.
Proof.
  intros Hnd [i Hi]%list_elem_of_lookup [j Hj]%list_elem_of_lookup Hf.
  assert (i = j).
  { eapply NoDup_lookup; [exact Hnd| |].
    - rewrite list_lookup_fmap, Hi. reflexivity.
    - rewrite list_lookup_fmap, Hj. cbn. by rewrite Hf. }
  congruence.
Qed.

Lemma get_user_submissions_elem user_id db sid title date status flag :
  get_user_submissions user_id db !! sid = Some (title, date, status, flag) ↔
  ∃ s r, submissions db !! sid = Some s
         ∧ Submission.user_id s = user_id
         ∧ tasks db !! Submission.task_id s = Some r
         ∧ title = Task.title r
         ∧ date = Submission.submission_date s
         ∧ status = Submission.status s
         ∧ flag = Submission.is_on_time s.
Proof.
  unfold get_user_submissions. rewrite lookup_omap. split.
  - destruct (submissions db !! sid) as [s|]; [|done]. cbn.
    case_decide as Hu; [|done].
    destruct (tasks db !! Submission.task_id s) as [r|] eqn:Hr; [|done].
    cbn. intros [= <- <- <- <-]. by exists s, r.
  - intros (s & r & -> & Hu & Hr & -> & -> & -> & ->). cbn.
    rewrite decide_True by done. by rewrite Hr.
Qed.

Lemma submitted_task_ids_elem open_tasks subs id :
  id ∈ submitted_task_ids open_tasks subs ↔
  ∃ sid row i task,
    subs !! sid = Some row
    ∧ list_find (λ task : Keyboards.task_row, task.1.1.2 = row.1.1.1)
        open_tasks = Some (i, task)
    ∧ task.1.1.1 = id.
Proof.
  unfold submitted_task_ids.
  rewrite elem_of_list_to_set, list_elem_of_omap. split.
  - intros (row & Hrow & Hfound).
    apply list_elem_of_fmap in Hrow as ([sid row'] & -> & Hrow).
    apply elem_of_map_to_list in Hrow. cbn in Hfound.
    destruct (list_find _ open_tasks) as [[i task]|] eqn:Hfind; [|done].
    cbn in Hfound. injection Hfound as <-. by exists sid, row', i, task.
  - intros (sid & row & i & task & Hrow & Hfind & <-). exists row. split.
    + apply list_elem_of_fmap. exists (sid, row). split; [done|].
      by apply elem_of_map_to_list.
    + by rewrite Hfind.
Qed.

(** [_send_task_submission] decides by title which tasks were reported
    on.  Every task it offers is open and not expired.  When no two open
    tasks bear the same title, an open task is offered exactly when no
    submission of the user belongs to a task with that title: it
    disappears from the list once the user has reported on it, and also
    when the user has reported on another task of the same title, for
    instance a closed one.  The keyboard has one button for each offered
    task, in a row of its own, and the main-menu button last. *)
Theorem offered_tasks (later_text : datetime → datetime → bool) (e : env)
    (user_id : Z) (db : Database.t) :
  let open_tasks := get_open_tasks later_text (clock e) db in
  let offered :=
    available_tasks open_tasks (get_user_submissions user_id db) in
  (∀ task, task ∈ offered →
     ∃ r, tasks db !! task.1.1.1 = Some r
          ∧ still_open later_text (clock e) r = true
          ∧ task.1.1.2 = Task.title r)
  ∧ (NoDup ((λ task : Keyboards.task_row, task.1.1.2) <$> open_tasks) →
     ∀ task, task ∈ open_tasks →
       (task ∈ offered ↔
        ¬ ∃ sid s r, submissions db !! sid = Some s
                     ∧ Submission.user_id s = user_id
                     ∧ tasks db !! Submission.task_id s = Some r
                     ∧ Task.title r = task.1.1.2))
  ∧ match (_send_task_submission later_text e user_id db).2 with
    | inl keyboard => offered = [] ∧ keyboard = Keyboards.main_menu
    | inr rows =>
      offered ≠ []
      ∧ rows = ((λ task, [Keyboards.submit_button 40 task]) <$> offered)
               ++ [[Keyboards.main_menu_inline]]
    end.
Proof.
  intros open_tasks offered. split; [|split].
  - intros task [_ Hopen]%list_elem_of_filter.
    apply get_open_tasks_elem in Hopen as (r & Hr & Hopen & ->).
    by exists r.
  - intros Htitles task Htask. unfold offered, available_tasks.
    rewrite list_elem_of_filter. split.
    + intros [Hnot _] (sid & s & r & Hs & Hu & Hr & Htitle). apply Hnot.
      apply submitted_task_ids_elem.
      destruct (list_find_elem_of
                  (λ t : Keyboards.task_row, t.1.1.2 = Task.title r)
                  open_tasks task Htask (eq_sym Htitle))
        as [[i found] Hfound].
      exists sid, (Task.title r, Submission.submission_date s,
                   Submission.status s, Submission.is_on_time s), i, found.
      split; [apply get_user_submissions_elem; by exists s, r|].
      split; [exact Hfound|].
      apply list_find_Some in Hfound as (Hi & Hfound & _). cbn in Hfound.
      assert (found = task) as ->; [|done].
      apply (NoDup_fmap_elem (λ t : Keyboards.task_row, t.1.1.2) open_tasks);
        [done|by eapply list_elem_of_lookup_2|done|congruence].
    + intros Hnone. split; [|done].
      intros (sid & [[[title date] status] flag] & i & found
              & Hrow & Hfound & Hid)%submitted_task_ids_elem.
      apply get_user_submissions_elem in Hrow
        as (s & r & Hs & Hu & Hr & -> & _).
      apply list_find_Some in Hfound as (Hi & Hfound & _). cbn in Hfound.
      assert (found = task) as ->.
      { apply (NoDup_fmap_elem (λ t : Keyboards.task_row, t.1.1.1)
                 open_tasks);
          [apply get_open_tasks_ids|by eapply list_elem_of_lookup_2|done
          |done]. }
      apply Hnone. by exists sid, s, r.
  - unfold _send_task_submission. fold open_tasks. fold offered.
    by destruct offered.
Qed.

(** ** A report in the submission step *)





(** When the deadline evaluator raises, the report is kept for the
    inbox, though not for the moderators' list.  The task chosen has a deadline stored without a time
    zone, so the comparison with the present Moscow time raises
    [TypeError]: the handler of the submission step catches it, adds no
    submission, files the report in the inbox as [submission_error]
    after the log entry of the attempt, leaves the saved state at the
    submission step with the task chosen, and answers that the report
    will be handled by hand; the list of potential reports the
    moderators work from is the same as before. *)
Theorem report_against_naive_deadline_is_filed (e : env) (upd : update)
    (st : state) (task_id c : Z) (t : text) (task : Task.t)
    (deadline : datetime) :
  user_data st !! "selected_task_id" = Some (VInt task_id) →
  message upd = Text (c :: t) →
  tasks (store st) !! task_id = Some task →
  Task.deadline task = Some deadline →
  utcoffset deadline = None →
  ∃ st' id1 id2 attempt error,
    handle_task_submission_content e upd st = (Ok END, st')
    ∧ submissions (store st') = submissions (store st)
    ∧ id1 < id2
    ∧ offline_messages (store st')
      = <[id2 := error]> (<[id1 := attempt]> (offline_messages (store st)))
    ∧ offline_messages (store st) !! id1 = None
    ∧ offline_messages (store st) !! id2 = None
    ∧ OfflineMessage.message_type attempt = "submission_text"%string
    ∧ OfflineMessage.message_type error = "submission_error"%string
    ∧ OfflineMessage.user_id error = user_id upd
    ∧ OfflineMessage.processed error = false
    ∧ get_potential_reports (store st') = get_potential_reports (store st)
    ∧ (∃ payload, OfflineMessage.data error = JsonDumps payload
                  ∧ payload !! "content" = Some (JScalar (VStr (take 100 (c :: t))))
                  ∧ payload !! "task_id" = Some (JScalar (VInt task_id)))
    ∧ (get_user_state (user_id upd) (store st')).1 = TASK_SUBMISSION
    ∧ (get_user_state (user_id upd) (store st')).2 !! "selected_task_id"
      = Some (VInt task_id)
    ∧ outbox st'
      = outbox st ++ [Reply submission_failed_text false
                        (Some Keyboards.main_menu)].
Proof.
  intros Hsel Hmsg Htask Hdeadline Hnaive.
  unfold handle_task_submission_content. run_handler. rewrite Hsel.
  run_handler. unfold subscript. rewrite Hsel. run_handler.
  rewrite Hmsg. cbn [report_of]. run_handler.
  unfold submit_task, _check_submission_deadline.
  cbn [tasks save_offline_message insert_offline_message save_user_state
       set_user_states id].
  rewrite Htask, Hdeadline. unfold datetime_le.
  cbn [now_moscow utcoffset]. rewrite Hnaive. run_handler.
  set (db1 := save_user_state (clock e) (user_id upd) TASK_SUBMISSION _
                (store st)).
  eexists _, (next_rowid (offline_messages_seq (store st))
                (offline_messages (store st))),
    (next_rowid (offline_messages_seq (store st))
       (offline_messages (store st)) + 1), _, _.
  split; [reflexivity|]. cbn [store user_data outbox].
  split; [reflexivity|].
  split; [lia|].
  assert (Hnext : next_rowid
            (next_rowid (offline_messages_seq (store st))
               (offline_messages (store st)))
            (<[next_rowid (offline_messages_seq (store st))
                 (offline_messages (store st)) :=
                 {| OfflineMessage.user_id := user_id upd;
                    OfflineMessage.data :=
                      JsonDumps
                        (<["date" := JScalar (VStr (date upd))]>
                         (<["task_id" := JScalar (VInt task_id)]>
                          (<["content" := JScalar (VStr (c :: t))]>
                           {["type" := JScalar (VStr (u "text"))]})));
                    OfflineMessage.message_type := "submission_text";
                    OfflineMessage.received_date :=
                      current_timestamp (clock e);
                    OfflineMessage.processed := false |}]>
               (offline_messages (store st)))
          = next_rowid (offline_messages_seq (store st))
              (offline_messages (store st)) + 1).
  { set (id1 := next_rowid (offline_messages_seq (store st))
                  (offline_messages (store st))).
    unfold next_rowid at 1. f_equal. apply Z.max_l.
    apply largest_rowid_le.
    - pose proof (next_rowid_seq (offline_messages (store st))
                    (offline_messages_seq (store st))).
      pose proof (largest_rowid_nonneg (offline_messages (store st))).
      unfold id1, next_rowid. lia.
    - intros k v [[<- _]|[_ Hk]]%lookup_insert_Some; [lia|].
      pose proof (next_rowid_above (offline_messages (store st))
                    (offline_messages_seq (store st)) k v Hk) as Hlt.
      fold id1 in Hlt. lia. }
  split.
  { rewrite save_offline_message_new.
    cbn [offline_messages offline_messages_seq save_offline_message
         insert_offline_message submission_message_type db1 save_user_state
         set_user_states].
    rewrite Hnext. reflexivity. }
  assert (Hfresh2 : offline_messages (store st)
            !! (next_rowid (offline_messages_seq (store st))
                  (offline_messages (store st)) + 1) = None).
  { pose proof (next_rowid_above (offline_messages (store st))
                  (offline_messages_seq (store st))) as Habove.
    destruct (offline_messages (store st)
                !! (next_rowid (offline_messages_seq (store st))
                      (offline_messages (store st)) + 1)) as [v|] eqn:Hv;
      [|done].
    apply Habove in Hv. lia. }
  split; [apply next_rowid_fresh|]. split; [exact Hfresh2|].
  cbn [OfflineMessage.message_type OfflineMessage.user_id
       OfflineMessage.processed OfflineMessage.data].
  do 4 (split; [reflexivity|]).
  split.
  { unfold get_potential_reports. rewrite save_offline_message_new.
    cbn [offline_messages offline_messages_seq save_offline_message
         insert_offline_message submission_message_type db1 save_user_state
         set_user_states].
    rewrite Hnext.
    pose proof (next_rowid_fresh (offline_messages (store st))
                  (offline_messages_seq (store st))) as Hfresh1.
    apply map_eq. intros k. apply option_eq. intros m.
    rewrite !map_lookup_filter_Some. split.
    - intros [Hm HP]. split; [|done].
      apply lookup_insert_Some in Hm as [[_ <-]|[_ Hm]];
        [by destruct HP|].
      apply lookup_insert_Some in Hm as [[_ <-]|[_ Hm]];
        [by destruct HP|done].
    - intros [Hm HP]. split; [|done].
      rewrite !lookup_insert_ne; [done|congruence|congruence]. }
  split.
  { eexists. split; [reflexivity|]. split.
    - by repeat (rewrite lookup_insert_ne by done); rewrite ?lookup_insert_eq.
    - by repeat (rewrite lookup_insert_ne by done); rewrite ?lookup_insert_eq. }
  rewrite !(get_user_state_ext (user_id upd) db1) by reflexivity.
  unfold db1. rewrite save_user_state_get. cbn [fst snd].
  split; [reflexivity|]. split; [|reflexivity].
  rewrite lookup_insert_ne by done. apply lookup_insert_eq.
Qed.

(** ** The first contact *)

(** The first [/start] of a user the store has never seen, with no saved
    step: the user gets a row with the defaults of the schema and the
    names Telegram reports, is not registered, the step of the last name
    is saved with an empty context, and the welcome is the one message
    sent. *)
Theorem first_start_opens_registration (json : text → option json_doc)
    (e : env) (upd : update) (st : state) :
  users (store st) !! user_id upd = None →
  (get_user_state (user_id upd) (store st)).1 = IDLE →
  ∃ st',
    start json e upd st = (Ok REGISTRATION_LAST_NAME, st')
    ∧ get_user (user_id upd) (store st')
      = Some (new_user (clock e) (username upd) (first_name upd)
                (last_name upd))
    ∧ is_user_registered (user_id upd) (store st') = false
    ∧ get_user_state (user_id upd) (store st') = (REGISTRATION_LAST_NAME, ∅)
    ∧ user_data st' = user_data st
    ∧ outbox st' = outbox st ++ [Reply (welcome_text e) true None].
Proof.
  intros Hnew Hidle.
  assert (Hreg : is_user_registered (user_id upd) (store st) = false)
    by (unfold is_user_registered; by rewrite Hnew).
  destruct (start_run json e upd st) as (Husers & Hstate & Hregistered).
  unfold start, _process_offline_messages. run_handler.
  rewrite Hstate, Hregistered, Hidle, Hreg.
  change (IDLE =? IDLE) with true. cbn [negb andb]. run_handler.
  eexists. split; [reflexivity|]. cbn [store user_data outbox].
  split.
  { unfold get_user. cbn [save_user_state set_user_states users].
    rewrite Husers. unfold add_user. rewrite Hnew. cbn [set_users users].
    apply lookup_insert_eq. }
  split.
  { unfold is_user_registered. cbn [save_user_state set_user_states users].
    rewrite Husers. unfold add_user. rewrite Hnew. cbn [set_users users].
    by rewrite lookup_insert_eq. }
  split; [apply save_user_state_get|]. split; reflexivity.
Qed.

(** ** The registration from the first answer to the last *)

Lemma last_name_accepted e upd st t :
  message upd = Text t →
  name_rejected (strip t) = false →
  registration_last_name e upd st
  = (Ok REGISTRATION_FIRST_NAME,
     {| store :=
          save_user_state (clock e) (user_id upd) REGISTRATION_FIRST_NAME
            (<["timestamp" := VStr (date upd)]>
             (<["last_name_confirmed" := VBool true]>
              (<["last_name" := VStr (strip t)]> (user_data st))))
            (save_offline_message (clock e) (user_id upd)
               (JsonDumps
                  (<["date" := JScalar (VStr (date upd))]>
                   (<["valid" := JScalar (VBool (2 <=? len (strip t)))]>
                    (<["input" := JScalar (VStr (strip t))]>
                     {["step" := JScalar (VStr (u "last_name"))]}))))
               "registration_input" (store st));
        user_data := <["last_name" := VStr (strip t)]> (user_data st);
        outbox := outbox st
                  ++ [Reply (first_name_prompt (VStr (strip t)) ++ saved_suffix)
                        true None] |}).
Proof.
  intros Hmsg Hname. unfold registration_last_name, message_text.
  rewrite Hmsg. run_handler. rewrite Hname. run_handler. reflexivity.
Qed.

Lemma first_name_accepted e upd st t last :
  message upd = Text t →
  name_rejected (strip t) = false →
  user_data st !! "last_name" = Some last →
  registration_first_name e upd st
  = (Ok PARTICIPATION_TYPE,
     {| store :=
          save_user_state (clock e) (user_id upd) PARTICIPATION_TYPE
            (<["timestamp" := VStr (date upd)]>
             (<["first_name_confirmed" := VBool true]>
              (<["first_name" := VStr (strip t)]> (user_data st))))
            (save_offline_message (clock e) (user_id upd)
               (JsonDumps
                  (<["date" := JScalar (VStr (date upd))]>
                   (<["current_data" := JObject (user_data st)]>
                    (<["valid" := JScalar (VBool (2 <=? len (strip t)))]>
                     (<["input" := JScalar (VStr (strip t))]>
                      {["step" := JScalar (VStr (u "first_name"))]})))))
               "registration_input" (store st));
        user_data := <["first_name" := VStr (strip t)]> (user_data st);
        outbox := outbox st
                  ++ [Reply (participation_prompt (VStr (strip t)) last
                             ++ saved_suffix)
                        true (Some Keyboards.participation_type)] |}).
Proof.
  intros Hmsg Hname Hlast. unfold registration_first_name, message_text.
  rewrite Hmsg. run_handler. rewrite Hname. run_handler.
  unfold subscript. rewrite lookup_insert_ne by done. rewrite Hlast.
  run_handler. reflexivity.
Qed.

Ltac run_through :=
  cbv beta iota delta [bind ret raise execute query get_user_data
    set_user_data reply_text show mbind M_bind mret M_ret restore_context];
  cbn [store user_data outbox fst snd].

Lemma individual_choice_completes e upd st first last :
  message upd = Text individually_button →
  user_data st !! "first_name" = Some first →
  user_data st !! "last_name" = Some last →
  ∃ st',
    participation_type e upd st = (Ok END, st')
    ∧ users (store st')
      = users (update_user_registration (user_id upd) first last
                 (VStr (u "individual"))
                 (get_default (user_data st) "family_members_count" (VInt 1))
                 (get_default (user_data st) "children_info" VNone)
                 (store st))
    ∧ get_user_state (user_id upd) (store st') = (IDLE, ∅)
    ∧ user_data st' = ∅
    ∧ outbox st'
      = outbox st
        ++ [Reply (congratulations_text e (str first) (str last)
                     (u "индивидуально"))
              true (Some Keyboards.main_menu)].
Proof.
  intros Hmsg Hfirst Hlast. unfold participation_type, message_text.
  rewrite Hmsg. run_handler.
  case_decide as Heq; [clear Heq|destruct (Heq eq_refl)].
  run_handler. unfold _complete_registration, subscript. run_through.
  rewrite (lookup_insert_ne _ "participation_type" "first_name") by done.
  rewrite Hfirst. run_through.
  rewrite (lookup_insert_ne _ "participation_type" "last_name") by done.
  rewrite Hlast. run_through.
  rewrite lookup_insert_eq. run_through.
  case_decide as Heq; [clear Heq|destruct (Heq eq_refl)].
  eexists. split; [reflexivity|]. cbn [store user_data outbox].
  split.
  { rewrite clear_user_state_users. unfold get_default.
    rewrite !(lookup_insert_ne _ "participation_type") by done.
    reflexivity. }
  split; [apply clear_user_state_get|]. split; [reflexivity|].
  unfold get_default.
  reflexivity.
Qed.

(** The registration of an individual participant, from the first
    answer to the last.  A user who has a row in [users] gives a last
    name and a first name of at least two characters after stripping and
    then presses the button for individual participation.  Each handler
    returns the next step and saves it, so that the conversation can be
    resumed there; after the third answer the user is registered under
    the stripped names as an individual, the row keeps its registration
    date, the saved state is idle and the working memory is empty. *)
Theorem registration_of_an_individual (e1 e2 e3 : env)
    (upd1 upd2 upd3 : update) (st : state) (t1 t2 : text) (row : User.t) :
  user_id upd2 = user_id upd1 →
  user_id upd3 = user_id upd1 →
  users (store st) !! user_id upd1 = Some row →
  message upd1 = Text t1 → name_rejected (strip t1) = false →
  message upd2 = Text t2 → name_rejected (strip t2) = false →
  message upd3 = Text individually_button →
  ∃ st1 st2 st3 row',
    registration_last_name e1 upd1 st = (Ok REGISTRATION_FIRST_NAME, st1)
    ∧ (get_user_state (user_id upd1) (store st1)).1 = REGISTRATION_FIRST_NAME
    ∧ registration_first_name e2 upd2 st1 = (Ok PARTICIPATION_TYPE, st2)
    ∧ (get_user_state (user_id upd1) (store st2)).1 = PARTICIPATION_TYPE
    ∧ participation_type e3 upd3 st2 = (Ok END, st3)
    ∧ get_user (user_id upd1) (store st3) = Some row'
    ∧ is_user_registered (user_id upd1) (store st3) = true
    ∧ User.last_name row' = VStr (strip t1)
    ∧ User.first_name row' = VStr (strip t2)
    ∧ User.participation_type row' = VStr (u "individual")
    ∧ User.registration_date row' = User.registration_date row
    ∧ get_user_state (user_id upd1) (store st3) = (IDLE, ∅)
    ∧ user_data st3 = ∅.
Proof.
  intros Hu2 Hu3 Hrow Hm1 Hn1 Hm2 Hn2 Hm3.
  eexists _, _. 
  pose proof (last_name_accepted e1 upd1 st t1 Hm1 Hn1) as H1.
  match type of H1 with
  | _ = (_, ?s1) =>
    pose proof (first_name_accepted e2 upd2 s1 t2 (VStr (strip t1)) Hm2 Hn2
                  (lookup_insert_eq (user_data st) "last_name" _)) as H2
  end.
  cbn [store user_data outbox] in H2.
  match type of H2 with
  | _ = (_, ?s2) =>
    destruct (individual_choice_completes e3 upd3 s2 (VStr (strip t2))
                (VStr (strip t1)) Hm3)
      as (st3 & H3 & Husers & Hidle & Hdata & _)
  end.
  { cbn [user_data]. apply lookup_insert_eq. }
  { cbn [user_data]. rewrite lookup_insert_ne by done. apply lookup_insert_eq. }
  cbn [store user_data users update_user_registration set_users
       save_user_state set_user_states save_offline_message
       insert_offline_message] in Husers.
  rewrite Hu3 in Husers, Hidle.
  eexists st3, _.
  split; [exact H1|]. split; [cbn [store]; by rewrite save_user_state_get|].
  split; [exact H2|].
  split; [cbn [store]; by rewrite Hu2, save_user_state_get|].
  split; [exact H3|].
  unfold get_user, is_user_registered. rewrite Husers, lookup_alter_eq, Hrow.
  cbn [fmap option_fmap option_map User.registration_completed User.last_name
       User.first_name User.participation_type User.registration_date].
  split; [reflexivity|]. do 5 (split; [reflexivity|]).
  split; [exact Hidle|exact Hdata].
Qed.

Lemma family_choice_accepted e upd st :
  message upd = Text family_button →
  participation_type e upd st
  = (Ok FAMILY_MEMBERS_COUNT,
     {| store :=
          save_user_state (clock e) (user_id upd) FAMILY_MEMBERS_COUNT
            (<["timestamp" := VStr (date upd)]>
             (<["participation_confirmed" := VBool true]>
              (<["participation_type" := VStr (u "family")]> (user_data st))))
            (save_offline_message (clock e) (user_id upd)
               (JsonDumps
                  (<["date" := JScalar (VStr (date upd))]>
                   (<["current_data" := JObject (user_data st)]>
                    (<["choice" := JScalar (VStr family_button)]>
                     {["step" := JScalar (VStr (u "participation_type"))]}))))
               "registration_choice" (store st));
        user_data := <["participation_type" := VStr (u "family")]> (user_data st);
        outbox := outbox st
                  ++ [Reply (family_count_prompt ++ saved_suffix) true
                        (Some Keyboards.back_to_menu)] |}).
Proof.
  intros Hmsg. unfold participation_type, message_text. rewrite Hmsg.
  run_handler.
  case_decide as Heq; [exfalso; vm_compute in Heq; discriminate|clear Heq].
  case_decide as Heq; [clear Heq|destruct (Heq eq_refl)].
  run_handler. reflexivity.
Qed.

Lemma family_count_accepted e upd st t count :
  message upd = Text t →
  family_count (strip t) = Some count →
  family_members_count e upd st
  = (Ok CHILDREN_INFO,
     {| store :=
          save_user_state (clock e) (user_id upd) CHILDREN_INFO
            (<["timestamp" := VStr (date upd)]>
             (<["family_count_confirmed" := VBool true]>
              (<["family_members_count" := VInt count]> (user_data st))))
            (save_offline_message (clock e) (user_id upd)
               (JsonDumps
                  (<["date" := JScalar (VStr (date upd))]>
                   (<["current_data" := JObject (user_data st)]>
                    (<["input" := JScalar (VStr (strip t))]>
                     {["step" := JScalar (VStr (u "family_members_count"))]}))))
               "registration_input" (store st));
        user_data := <["family_members_count" := VInt count]> (user_data st);
        outbox := outbox st
                  ++ [Reply (children_prompt (VInt count) ++ saved_suffix)
                        false None] |}).
Proof.
  intros Hmsg Hcount. unfold family_members_count, message_text.
  rewrite Hmsg. run_handler. rewrite Hcount. run_handler. reflexivity.
Qed.

Lemma children_info_completes e upd st t first last count :
  message upd = Text t →
  user_data st !! "first_name" = Some first →
  user_data st !! "last_name" = Some last →
  user_data st !! "participation_type" = Some (VStr (u "family")) →
  user_data st !! "family_members_count" = Some (VInt count) →
  ∃ st',
    children_info e upd st = (Ok END, st')
    ∧ users (store st')
      = users (update_user_registration (user_id upd) first last
                 (VStr (u "family")) (VInt count)
                 (if is_no (strip t) then VNone else VStr (strip t))
                 (store st))
    ∧ get_user_state (user_id upd) (store st') = (IDLE, ∅)
    ∧ user_data st' = ∅
    ∧ length (outbox st') = S (length (outbox st)).
Proof.
  intros Hmsg Hfirst Hlast Hfamily Hcount.
  unfold children_info, message_text. rewrite Hmsg. run_handler.
  unfold _complete_registration, subscript. run_through.
  rewrite (lookup_insert_ne _ "children_info" "first_name") by done.
  rewrite Hfirst. run_through.
  rewrite (lookup_insert_ne _ "children_info" "last_name") by done.
  rewrite Hlast. run_through.
  rewrite (lookup_insert_ne _ "children_info" "participation_type") by done.
  rewrite Hfamily. run_through.
  eexists. split; [reflexivity|]. cbn [store user_data outbox].
  split.
  { rewrite clear_user_state_users. unfold get_default.
    rewrite (lookup_insert_ne _ "children_info" "family_members_count")
      by done.
    rewrite Hcount, lookup_insert_eq. reflexivity. }
  split; [apply clear_user_state_get|]. split; [reflexivity|].
  rewrite length_app. cbn [length]. lia.
Qed.

(** The registration of a family, from the choice of the kind of
    participation to the end.  The names are in the working memory; the
    user presses the family button, gives a number of members that
    [int] reads as a number from 1 to 10, and answers the question about
    the children.  The handlers return and save the steps of the family
    size and of the children in turn; after the last answer the user is
    registered as a family with that number of members, the answer about
    the children is stored stripped, or as [NULL] when it is the word
    "нет" in either case, the saved state is idle and the working memory
    is empty. *)
Theorem registration_of_a_family (e1 e2 e3 : env) (upd1 upd2 upd3 : update)
    (st : state) (t2 t3 : text) (count : Z) (first last : pyval)
    (row : User.t) :
  user_id upd2 = user_id upd1 →
  user_id upd3 = user_id upd1 →
  users (store st) !! user_id upd1 = Some row →
  user_data st !! "first_name" = Some first →
  user_data st !! "last_name" = Some last →
  message upd1 = Text family_button →
  message upd2 = Text t2 → family_count (strip t2) = Some count →
  message upd3 = Text t3 →
  ∃ st1 st2 st3 row',
    participation_type e1 upd1 st = (Ok FAMILY_MEMBERS_COUNT, st1)
    ∧ (get_user_state (user_id upd1) (store st1)).1 = FAMILY_MEMBERS_COUNT
    ∧ family_members_count e2 upd2 st1 = (Ok CHILDREN_INFO, st2)
    ∧ (get_user_state (user_id upd1) (store st2)).1 = CHILDREN_INFO
    ∧ children_info e3 upd3 st2 = (Ok END, st3)
    ∧ get_user (user_id upd1) (store st3) = Some row'
    ∧ is_user_registered (user_id upd1) (store st3) = true
    ∧ User.first_name row' = first
    ∧ User.last_name row' = last
    ∧ User.participation_type row' = VStr (u "family")
    ∧ User.family_members_count row' = VInt count
    ∧ 1 ≤ count ≤ 10
    ∧ User.children_info row'
      = (if is_no (strip t3) then VNone else VStr (strip t3))
    ∧ get_user_state (user_id upd1) (store st3) = (IDLE, ∅)
    ∧ user_data st3 = ∅.
Proof.
  intros Hu2 Hu3 Hrow Hfirst Hlast Hm1 Hm2 Hcount Hm3.
  pose proof (family_choice_accepted e1 upd1 st Hm1) as H1.
  match type of H1 with
  | _ = (_, ?s1) =>
    pose proof (family_count_accepted e2 upd2 s1 t2 count Hm2 Hcount) as H2
  end.
  cbn [store user_data outbox] in H2.
  match type of H2 with
  | _ = (_, ?s2) =>
    destruct (children_info_completes e3 upd3 s2 t3 first last count Hm3)
      as (st3 & H3 & Husers & Hidle & Hdata & _)
  end.
  { cbn [user_data]. by rewrite !lookup_insert_ne by done. }
  { cbn [user_data]. by rewrite !lookup_insert_ne by done. }
  { cbn [user_data]. rewrite lookup_insert_ne by done. apply lookup_insert_eq. }
  { cbn [user_data]. apply lookup_insert_eq. }
  cbn [store user_data users update_user_registration set_users
       save_user_state set_user_states save_offline_message
       insert_offline_message] in Husers.
  rewrite Hu3 in Husers, Hidle.
  eexists _, _, st3, _.
  split; [exact H1|]. split; [cbn [store]; by rewrite save_user_state_get|].
  split; [exact H2|].
  split; [cbn [store]; by rewrite Hu2, save_user_state_get|].
  split; [exact H3|].
  unfold get_user, is_user_registered. rewrite Husers, lookup_alter_eq, Hrow.
  cbn [fmap option_fmap option_map User.registration_completed User.last_name
       User.first_name User.participation_type User.family_members_count
       User.children_info].
  split; [reflexivity|]. do 5 (split; [reflexivity|]).
  split.
  { unfold family_count in Hcount.
    destruct (int (strip t2)) as [n|]; [|done].
    destruct (Z.ltb_spec n 1); [done|].
    destruct (Z.ltb_spec 10 n); [done|]. cbn in Hcount.
    injection Hcount as <-. lia. }
  split; [reflexivity|]. split; [exact Hidle|exact Hdata].
Qed.

(** ** Editing the profile *)

(** A valid new name is stored and nothing else of the profile changes.
    For a user with a row in [users], a text that is not the main-menu
    button and has at least two characters after stripping replaces the
    first name (in [handle_edit_first_name]) or the last name (in
    [handle_edit_last_name]); the other name, the participation data, the
    registration flag and its date stay as they were, the saved state
    returns to idle, and the conversation ends. *)
Theorem edited_name_is_stored (e : env) (upd : update) (st : state)
    (t : text) (row : User.t) :
  message upd = Text t →
  t ≠ main_menu_button →
  name_rejected (strip t) = false →
  users (store st) !! user_id upd = Some row →
  (∃ st',
     handle_edit_first_name e upd st = (Ok END, st')
     ∧ get_user (user_id upd) (store st')
       = Some {| User.username := User.username row;
                 User.telegram_first_name := User.telegram_first_name row;
                 User.telegram_last_name := User.telegram_last_name row;
                 User.first_name := VStr (strip t);
                 User.last_name := User.last_name row;
                 User.participation_type := User.participation_type row;
                 User.family_members_count := User.family_members_count row;
                 User.children_info := User.children_info row;
                 User.registration_completed :=
                   User.registration_completed row;
                 User.registration_date := User.registration_date row |}
     ∧ get_user_state (user_id upd) (store st') = (IDLE, ∅)
     ∧ outbox st'
       = outbox st ++ [Reply (first_name_changed_text (strip t)) true
                         (Some Keyboards.main_menu)])
  ∧ (∃ st',
       handle_edit_last_name e upd st = (Ok END, st')
       ∧ get_user (user_id upd) (store st')
         = Some {| User.username := User.username row;
                   User.telegram_first_name := User.telegram_first_name row;
                   User.telegram_last_name := User.telegram_last_name row;
                   User.first_name := User.first_name row;
                   User.last_name := VStr (strip t);
                   User.participation_type := User.participation_type row;
                   User.family_members_count := User.family_members_count row;
                   User.children_info := User.children_info row;
                   User.registration_completed :=
                     User.registration_completed row;
                   User.registration_date := User.registration_date row |}
       ∧ get_user_state (user_id upd) (store st') = (IDLE, ∅)
       ∧ outbox st'
         = outbox st ++ [Reply (last_name_changed_text (strip t)) true
                           (Some Keyboards.main_menu)]).
Proof.
  intros Hmsg Hmenu Hname Hrow. split.
  - unfold handle_edit_first_name, message_text. rewrite Hmsg. run_handler.
    case_decide as Heq; [destruct (Hmenu Heq)|clear Heq].
    rewrite Hname. run_handler. unfold get_user at 1. rewrite Hrow.
    run_handler. eexists. split; [reflexivity|].
    cbn [store user_data outbox].
    split.
    { unfold get_user. rewrite clear_user_state_users.
      cbn [update_user_name set_users users].
      rewrite lookup_alter_eq, Hrow. reflexivity. }
    split; [apply clear_user_state_get|reflexivity].
  - unfold handle_edit_last_name, message_text. rewrite Hmsg. run_handler.
    case_decide as Heq; [destruct (Hmenu Heq)|clear Heq].
    rewrite Hname. run_handler. unfold get_user at 1. rewrite Hrow.
    run_handler. eexists. split; [reflexivity|].
    cbn [store user_data outbox].
    split.
    { unfold get_user. rewrite clear_user_state_users.
      cbn [update_user_name set_users users].
      rewrite lookup_alter_eq, Hrow. reflexivity. }
    split; [apply clear_user_state_get|reflexivity].
Qed.

(** ** Messages of users who are not registered, and attachments *)

(** What a user who has not completed the registration sends outside a
    conversation.  A text is kept: [handle_message] files it in the
    inbox as [text_unregistered], not processed.  A photo, a video or a
    document is not: its handler answers that the attachment was saved
    and leaves the store exactly as it was. *)
Theorem unregistered_sender_text_kept_attachment_dropped (e : env)
    (upd : update) (st : state) :
  is_user_registered (user_id upd) (store st) = false →
  (∀ t, message upd = Text t →
     handle_message e upd st
     = (Ok None,
        {| store :=
             save_offline_message (clock e) (user_id upd)
               (JsonDumps
                  (<["context" := JScalar (VStr (u "unregistered_user"))]>
                   (<["date" := JScalar (VStr (date upd))]>
                    {["text" := JScalar (VStr t)]})))
               "text_unregistered" (store st);
           user_data := user_data st;
           outbox :=
             outbox st
             ++ [Reply
                   (register_first_text
                      (u "💾 Ваше сообщение сохранено и будет обработано после регистрации."))
                   false (Some Keyboards.main_menu)] |}))
  ∧ (∀ a caption, message upd = Media a caption →
       ∃ note,
         attachment_handler a e upd st
         = (Ok None,
            {| store := store st;
               user_data := user_data st;
               outbox := outbox st
                         ++ [Reply (register_first_text note) false
                               (Some Keyboards.main_menu)] |})).
Proof.
  intros Hreg. split.
  - intros t Hmsg. unfold handle_message. run_handler. rewrite Hreg.
    cbn [negb]. run_handler. unfold text_cell. rewrite Hmsg. reflexivity.
  - intros a caption Hmsg. destruct a as [file_id|file_id|file_id file_name];
      cbn [attachment_handler];
      unfold handle_photo_message, handle_video_message,
        handle_document_message;
      rewrite Hmsg; eexists; by apply attachment_from_unregistered.
Qed.

(** An attachment that a registered user sends outside the submission
    step reaches the moderators.  The handler files it as a potential
    report that is not processed, under a new id; the payload names the
    kind of the attachment and its [file_id]; no submission is created
    and the saved state is not changed. *)
Theorem attachment_outside_submission_reaches_inbox (e : env) (upd : update)
    (st : state) (a : attachment) (caption : option text) :
  is_user_registered (user_id upd) (store st) = true →
  (get_user_state (user_id upd) (store st)).1 ≠ TASK_SUBMISSION →
  message upd = Media a caption →
  ∃ st' id payload,
    attachment_handler a e upd st = (Ok None, st')
    ∧ offline_messages (store st) !! id = None
    ∧ get_potential_reports (store st') !! id
      = Some {| OfflineMessage.user_id := user_id upd;
                OfflineMessage.data := JsonDumps payload;
                OfflineMessage.message_type := "potential_report";
                OfflineMessage.received_date := current_timestamp (clock e);
                OfflineMessage.processed := false |}
    ∧ payload !! "type"
      = Some (JScalar (VStr match a with
                            | Photo _ => u "photo"
                            | Video _ => u "video"
                            | Document _ _ => u "document"
                            end))
    ∧ payload !! "file_id"
      = Some (JScalar (VStr match a with
                            | Photo file_id | Video file_id
                            | Document file_id _ => file_id
                            end))
    ∧ submissions (store st') = submissions (store st)
    ∧ get_user_state (user_id upd) (store st')
      = get_user_state (user_id upd) (store st).
Proof.
  intros Hreg Hstate Hmsg.
  destruct a as [file_id|file_id|file_id file_name];
    cbn [attachment_handler];
    unfold handle_photo_message, handle_video_message,
      handle_document_message;
    rewrite Hmsg;
    rewrite (attachment_outside_submission _ _ _ _ _ _ Hreg Hstate);
    eexists _, (next_rowid (offline_messages_seq (store st))
                  (offline_messages (store st))), _;
    (split; [reflexivity|]);
    (split; [apply next_rowid_fresh|]);
    cbn [store];
    (split; [unfold get_potential_reports;
             apply map_lookup_filter_Some; split;
             [rewrite save_offline_message_new; apply lookup_insert_eq
             |done]|]);
    unfold attachment_payload;
    (split; [by repeat (rewrite lookup_insert_ne by done);
                rewrite ?lookup_insert_eq|]);
    (split; [by repeat (rewrite lookup_insert_ne by done);
                rewrite ?lookup_insert_eq|]);
    done.
Qed.

(** ** The properties at concrete inputs *)

Lemma process_offline_messages_drains_witness :
  ∃ st',
    _process_offline_messages Examples.no_json (Examples.update5 Other)
      (Examples.fresh Examples.db0) = (Ok tt, st')
    ∧ get_offline_messages 5 (store st') = [].
Proof.
  destruct (process_offline_messages_drains Examples.no_json
              (Examples.update5 Other) (Examples.fresh Examples.db0))
    as (st' & Hrun & Hempty & _).
  - intros id data ty date Hin.
    apply get_offline_messages_elem in Hin as (m & Hm & _ & _ & -> & _).
    vm_compute in Hm. destruct id as [|id|id]; try discriminate.
    repeat (destruct id as [id|id|]; try discriminate).
    injection Hm as <-. by eexists.
  - exists st'. split; [exact Hrun|exact Hempty].
Defined.

Lemma submit_task_counts_a_task_once_witness :
  let db' :=
    match submit_task 1793782800000000 5 7 (VStr (u "text"))
            (VStr (u "https://example.com/post")) VNone VNone Examples.db0 with
    | Ok r => r.2
    | Raise _ => Examples.db0
    end in
  (get_user_stats Examples.by_instant 1793782800000000 5 db').1 = 1
  ∧ (get_user_stats Examples.by_instant 1793782800000000 6 db').1 = 0.
Proof.
  intros db'.
  destruct (submit_task_counts_a_task_once Examples.by_instant
              1793782800000000 1793782800000000 5 7 (VStr (u "text"))
              (VStr (u "https://example.com/post")) VNone VNone
              Examples.db0 db' true) as (Hcount & _ & Hother).
  - vm_compute. reflexivity.
  - split.
    + rewrite Hcount. vm_compute. reflexivity.
    + rewrite (Hother 6) by done. vm_compute. reflexivity.
Defined.

Lemma promotion_to_missing_task_counted_not_listed_witness :
  let db' :=
    match mark_potential_report_as_submission Examples.no_json
            1793782800000000 42 7 None Examples.db_without_task with
    | Ok r => r.2
    | Raise _ => Examples.db_without_task
    end in
  7 ∈ completed_tasks 5 db' ∧ get_user_submissions 5 db' = ∅.
Proof.
  intros db'.
  destruct (promotion_to_missing_task_counted_not_listed Examples.no_json
              1793782800000000 42 7 None Examples.db_without_task db')
    as (entry & Hentry & Hcounted & Hlisted).
  - vm_compute. reflexivity.
  - vm_compute. reflexivity.
  - vm_compute in Hentry. injection Hentry as <-.
    cbn [OfflineMessage.user_id] in Hcounted, Hlisted.
    split; [exact Hcounted|]. rewrite Hlisted. vm_compute. reflexivity.
Defined.


Lemma assigned_report_is_flagged_on_time_witness :
  ∃ id row,
    submissions Examples.db0 !! id = None
    ∧ submissions
        (AdminBot._assign_potential_to_task Examples.no_json
           1799999999000000 42 7 Examples.db0).2
      = <[id := row]> (submissions Examples.db0)
    ∧ Submission.is_on_time row = true
    ∧ _check_submission_deadline 7 (now_moscow 1799999999000000) Examples.db0
      = Ok false.
Proof.
  destruct (assigned_report_is_flagged_on_time Examples.no_json
              1799999999000000 42 7 Examples.db0
              (AdminBot._assign_potential_to_task Examples.no_json
                 1799999999000000 42 7 Examples.db0).2)
    as (id & row & entry & _ & _ & Hnew & Hsub & _ & _ & Hflag & _).
  - vm_compute. reflexivity.
  - exists id, row. split; [exact Hnew|]. split; [exact Hsub|].
    split; [exact Hflag|]. vm_compute. reflexivity.
Defined.

Lemma task_button_starts_submission_witness :
  ∃ label data st',
    Keyboards.submit_button 25 (7, u "Экологическое наблюдение", None, None)
    = Keyboards.CallbackButton label data
    ∧ handle_callback Examples.env0 5 data (Examples.fresh Examples.db0)
      = (Ok (EditText task_submission_started_text true
               [[Keyboards.main_menu_inline]]), st')
    ∧ user_data st' !! "selected_task_id" = Some (VInt 7).
Proof.
  destruct (task_button_starts_submission Examples.env0 5 25
              (7, u "Экологическое наблюдение", None, None)
              (Examples.fresh Examples.db0))
    as (label & data & Hbutton & Hrun & _).
  - vm_compute. reflexivity.
  - exists label, data. eexists. split; [exact Hbutton|].
    split; [exact Hrun|]. cbn [user_data]. apply lookup_insert_eq.
Defined.


Lemma registration_of_an_individual_witness :
  ∃ st1 st2 st3 row',
    registration_last_name Examples.env0
      (Examples.update6 (Text (u " Петров "))) (Examples.fresh Examples.db0)
    = (Ok REGISTRATION_FIRST_NAME, st1)
    ∧ registration_first_name Examples.env0
        (Examples.update6 (Text (u "Пётр"))) st1
      = (Ok PARTICIPATION_TYPE, st2)
    ∧ participation_type Examples.env0
        (Examples.update6 (Text individually_button)) st2
      = (Ok END, st3)
    ∧ get_user 6 (store st3) = Some row'
    ∧ is_user_registered 6 (store st3) = true
    ∧ User.last_name row' = VStr (u "Петров")
    ∧ User.first_name row' = VStr (u "Пётр").
Proof.
  destruct (registration_of_an_individual Examples.env0 Examples.env0
              Examples.env0 (Examples.update6 (Text (u " Петров ")))
              (Examples.update6 (Text (u "Пётр")))
              (Examples.update6 (Text individually_button))
              (Examples.fresh Examples.db0) (u " Петров ") (u "Пётр")
              Examples.user6)
    as (st1 & st2 & st3 & row' & H1 & _ & H2 & _ & H3 & Hrow & Hreg & Hlast
        & Hfirst & _).
  - reflexivity.
  - reflexivity.
  - vm_compute. reflexivity.
  - reflexivity.
  - vm_compute. reflexivity.
  - reflexivity.
  - vm_compute. reflexivity.
  - reflexivity.
  - exists st1, st2, st3, row'. split; [exact H1|]. split; [exact H2|].
    split; [exact H3|]. split; [exact Hrow|]. split; [exact Hreg|].
    split.
    + rewrite Hlast. vm_compute. reflexivity.
    + rewrite Hfirst. vm_compute. reflexivity.
Defined.

Lemma edited_name_is_stored_witness :
  ∃ st' row',
    handle_edit_first_name Examples.env0 (Examples.update5 (Text (u "Аня")))
      (Examples.fresh Examples.db0) = (Ok END, st')
    ∧ get_user 5 (store st') = Some row'
    ∧ User.first_name row' = VStr (u "Аня")
    ∧ User.last_name row' = VStr (u "Иванова")
    ∧ User.registration_completed row' = true.
Proof.
  destruct (edited_name_is_stored Examples.env0
              (Examples.update5 (Text (u "Аня")))
              (Examples.fresh Examples.db0) (u "Аня") Examples.user5)
    as ((st' & Hrun & Hrow & _) & _).
  - reflexivity.
  - intros Heq. vm_compute in Heq. discriminate.
  - vm_compute. reflexivity.
  - vm_compute. reflexivity.
  - exists st'. eexists. split; [exact Hrun|]. split; [exact Hrow|].
    cbn [User.first_name User.last_name User.registration_completed].
    split; [vm_compute; reflexivity|]. split; reflexivity.
Defined.

Lemma unregistered_sender_text_kept_attachment_dropped_witness :
  (∃ st',
     handle_message Examples.env0 (Examples.update6 (Text (u "Мой отчет")))
       (Examples.fresh Examples.db0) = (Ok None, st')
     ∧ size (offline_messages (store st')) = 2%nat)
  ∧ ∃ note,
      handle_photo_message Examples.env0
        (Examples.update6 (Media (Photo (u "AgACAgIAAxkBAAIBZ2"))
                             (Some (u "Мой отчет"))))
        (Examples.fresh Examples.db0)
      = (Ok None,
         {| store := Examples.db0; user_data := ∅;
            outbox := [Reply (register_first_text note) false
                         (Some Keyboards.main_menu)] |}).
Proof.
  split.
  - destruct (unregistered_sender_text_kept_attachment_dropped Examples.env0
                (Examples.update6 (Text (u "Мой отчет")))
                (Examples.fresh Examples.db0)) as [Htext _].
    + vm_compute. reflexivity.
    + eexists. split; [exact (Htext _ eq_refl)|]. vm_compute. reflexivity.
  - destruct (unregistered_sender_text_kept_attachment_dropped Examples.env0
                (Examples.update6 (Media (Photo (u "AgACAgIAAxkBAAIBZ2"))
                                     (Some (u "Мой отчет"))))
                (Examples.fresh Examples.db0)) as [_ Hmedia].
    + vm_compute. reflexivity.
    + exact (Hmedia _ _ eq_refl).
Defined.

Lemma attachment_outside_submission_reaches_inbox_witness :
  ∃ st' id row,
    handle_video_message Examples.env0
      (Examples.update5 (Media (Video (u "BAACAgIAAxkBAAIBaG")) None))
      (Examples.fresh Examples.db0) = (Ok None, st')
    ∧ offline_messages Examples.db0 !! id = None
    ∧ get_potential_reports (store st') !! id = Some row
    ∧ OfflineMessage.user_id row = 5
    ∧ OfflineMessage.processed row = false.
Proof.
  destruct (attachment_outside_submission_reaches_inbox Examples.env0
              (Examples.update5 (Media (Video (u "BAACAgIAAxkBAAIBaG")) None))
              (Examples.fresh Examples.db0) (Video (u "BAACAgIAAxkBAAIBaG"))
              None)
    as (st' & id & payload & Hrun & Hnew & Hrow & _).
  - vm_compute. reflexivity.
  - intros Heq. vm_compute in Heq. discriminate.
  - reflexivity.
  - exists st', id. eexists. split; [exact Hrun|]. split; [exact Hnew|].
    split; [exact Hrow|]. split; reflexivity.
Defined.

Lemma first_start_opens_registration_witness :
  ∃ st',
    start Examples.no_json Examples.env0 (Examples.update9 Other)
      (Examples.fresh Examples.db0) = (Ok REGISTRATION_LAST_NAME, st')
    ∧ is_user_registered 9 (store st') = false
    ∧ get_user_state 9 (store st') = (REGISTRATION_LAST_NAME, ∅).
Proof.
  destruct (first_start_opens_registration Examples.no_json Examples.env0
              (Examples.update9 Other) (Examples.fresh Examples.db0))
    as (st' & Hrun & _ & Hreg & Hstate & _).
  - vm_compute. reflexivity.
  - vm_compute. reflexivity.
  - exists st'. split; [exact Hrun|]. split; [exact Hreg|exact Hstate].
Defined.

Lemma report_against_naive_deadline_is_filed_witness :
  ∃ st',
    handle_task_submission_content Examples.env0
      (Examples.update5 (Text (u "https://example.com/post")))
      {| store := Examples.db_naive; user_data := Examples.context5;
         outbox := [] |} = (Ok END, st')
    ∧ submissions (store st') = ∅
    ∧ size (offline_messages (store st')) = 3%nat
    ∧ (get_user_state 5 (store st')).1 = TASK_SUBMISSION.
Proof.
  destruct (report_against_naive_deadline_is_filed Examples.env0
              (Examples.update5 (Text (u "https://example.com/post")))
              {| store := Examples.db_naive; user_data := Examples.context5;
                 outbox := [] |} 7 104 (u "ttps://example.com/post")
              Examples.task7_naive
              {| instant := 1794095940000000; utcoffset := None |})
    as (st' & id1 & id2 & attempt & error & Hrun & Hsub & Hlt & Hoff & Hn1
        & Hn2 & _ & _ & _ & _ & _ & _ & Hstate & _).
  - vm_compute. reflexivity.
  - vm_compute. reflexivity.
  - vm_compute. reflexivity.
  - reflexivity.
  - reflexivity.
  - exists st'. split; [exact Hrun|]. split; [exact Hsub|].
    split; [|exact Hstate].
    rewrite Hoff. cbn [store] in Hn1, Hn2.
    rewrite map_size_insert_None by (rewrite lookup_insert_ne; [done|lia]).
    rewrite map_size_insert_None by done. vm_compute. reflexivity.
Defined.

Lemma registration_of_a_family_witness :
  ∃ st1 st2 st3 row',
    participation_type Examples.env0
      (Examples.update6 (Text family_button))
      {| store := Examples.db0;
         user_data := <["first_name" := VStr (u "Пётр")]>
                        {["last_name" := VStr (u "Петров")]};
         outbox := [] |} = (Ok FAMILY_MEMBERS_COUNT, st1)
    ∧ family_members_count Examples.env0
        (Examples.update6 (Text (u " 4 "))) st1 = (Ok CHILDREN_INFO, st2)
    ∧ children_info Examples.env0 (Examples.update6 (Text (u "Нет"))) st2
      = (Ok END, st3)
    ∧ get_user 6 (store st3) = Some row'
    ∧ User.family_members_count row' = VInt 4
    ∧ User.children_info row' = VNone.
Proof.
  destruct (registration_of_a_family Examples.env0 Examples.env0
              Examples.env0 (Examples.update6 (Text family_button))
              (Examples.update6 (Text (u " 4 ")))
              (Examples.update6 (Text (u "Нет")))
              {| store := Examples.db0;
                 user_data := <["first_name" := VStr (u "Пётр")]>
                                {["last_name" := VStr (u "Петров")]};
                 outbox := [] |}
              (u " 4 ") (u "Нет") 4 (VStr (u "Пётр")) (VStr (u "Петров"))
              Examples.user6)
    as (st1 & st2 & st3 & row' & H1 & _ & H2 & _ & H3 & Hrow & _ & _ & _ & _
        & Hcount & _ & Hchildren & _).
  - reflexivity.
  - reflexivity.
  - vm_compute. reflexivity.
  - vm_compute. reflexivity.
  - vm_compute. reflexivity.
  - reflexivity.
  - reflexivity.
  - vm_compute. reflexivity.
  - reflexivity.
  - exists st1, st2, st3, row'. split; [exact H1|]. split; [exact H2|].
    split; [exact H3|]. split; [exact Hrow|]. split; [exact Hcount|].
    rewrite Hchildren. vm_compute. reflexivity.
Defined.
